(** * Location record linkage: the similarity scorer, the address matcher,
      the strategy selection and the virtual-location backfiller

    Shallow embedding of [Logics/create_locations_input.py]:
    [normalize_string], [extract_numbers], [fuzzy_match_score],
    [match_location_by_address], [add_virtual_locations_after_matching],
    [replace_address_values_from_matched_location],
    [find_virtual_location_by_state], the matching blocks and the column
    order of [add_location_cloud_ids_to_locations_input], and the
    classifier [determine_location_type] with
    [normalize_string_for_matching].

    Modelling conventions.
    - Text is a [string] of ASCII characters; the character classes of
      Python ([str.isspace], [str.isdigit], the regular expression class
      [\d], [str.lower]) are restricted to code points below 128.
    - A spreadsheet cell is [NaN] (an empty cell as pandas reads it) or
      [Str s]; a numeric cell is represented by the text [str(v)] that the
      code turns it into before it looks at it.
    - A pandas frame is the list of its column labels and, per row, a finite
      map from label to cell.
    - Thresholds and similarity ratios are rationals: the ratio of two
      texts is [2*M/T] for naturals [M <= T], and the comparison with 0.7,
      0.8 or 0.2 gives on doubles the answer it gives on the rationals for
      every [T] below 2^49. *)

From Stdlib Require Import Ascii String List QArith DecimalString DecimalNat.
From stdpp Require Import base list strings gmap.

Close Scope Q_scope.

(** ** Python's string primitives *)

Module Py.

Definition chars (s : string) : list ascii := list_ascii_of_string s.
Definition text (l : list ascii) : string := string_of_list_ascii l.

(** [str.isspace] on one ASCII character: TAB, LF, VT, FF, CR, the four
    separators FS, GS, RS, US, and the space. *)
Definition is_space (c : ascii) : bool :=
  let n := nat_of_ascii c in
  ((9 <=? n) && (n <=? 13)) || ((28 <=? n) && (n <=? 32)).

(** The class [\d] on ASCII. *)
Definition is_digit (c : ascii) : bool :=
  let n := nat_of_ascii c in (48 <=? n) && (n <=? 57).

Definition lower_char (c : ascii) : ascii :=
  let n := nat_of_ascii c in
  if (65 <=? n) && (n <=? 90) then ascii_of_nat (n + 32) else c.

Definition lower (s : string) : string := text (map lower_char (chars s)).

Fixpoint lstrip_chars (l : list ascii) : list ascii :=
  match l with
  | c :: l' => if is_space c then lstrip_chars l' else l
  | [] => []
  end.

Definition strip_chars (l : list ascii) : list ascii :=
  rev (lstrip_chars (rev (lstrip_chars l))).

Definition strip (s : string) : string := text (strip_chars (chars s)).

(** [s.split()]: the maximal runs of characters that are not white space.
    [cur] is the run being read, most recent character first. *)
Fixpoint split_ws_go (l : list ascii) (cur : list ascii) : list string :=
  match l with
  | [] => match cur with [] => [] | _ => [text (rev cur)] end
  | c :: l' =>
      if is_space c
      then match cur with
           | [] => split_ws_go l' []
           | _ => text (rev cur) :: split_ws_go l' []
           end
      else split_ws_go l' (c :: cur)
  end.

Definition split (s : string) : list string := split_ws_go (chars s) [].

(** [s.split(sep)] for a one-character separator: empty fields are kept. *)
Fixpoint split_on_go (sep : ascii) (l : list ascii) (cur : list ascii) : list string :=
  match l with
  | [] => [text (rev cur)]
  | c :: l' =>
      if Ascii.eqb c sep
      then text (rev cur) :: split_on_go sep l' []
      else split_on_go sep l' (c :: cur)
  end.

Definition split_on (sep : ascii) (s : string) : list string :=
  split_on_go sep (chars s) [].

(** [sep.join(parts)]. *)
Fixpoint join (sep : string) (parts : list string) : string :=
  match parts with
  | [] => ""
  | [p] => p
  | p :: rest => p +:+ sep +:+ join sep rest
  end.

(** [re.findall(r'\d+', s)]: the maximal digit runs, in order. *)
Fixpoint digit_runs_go (l : list ascii) (cur : list ascii) : list string :=
  match l with
  | [] => match cur with [] => [] | _ => [text (rev cur)] end
  | c :: l' =>
      if is_digit c
      then digit_runs_go l' (c :: cur)
      else match cur with
           | [] => digit_runs_go l' []
           | _ => text (rev cur) :: digit_runs_go l' []
           end
  end.

Definition findall_digits (s : string) : list string := digit_runs_go (chars s) [].

(** [re.sub(r'\d+', '', s)]. *)
Definition sub_digits (s : string) : string :=
  text (List.filter (fun c => negb (is_digit c)) (chars s)).

(** [s.startswith(p)]. *)
Definition startswith (p s : string) : bool := String.prefix p s.

(** [s.endswith(p)] on character lists. *)
Definition ends_with (p l : list ascii) : bool :=
  bool_decide (drop (length l - length p) l = p).

(** [re.sub(r'\.0$', '', s)]: one trailing ".0" is removed; [$] also
    matches just before a final line feed, which is then kept. *)
Definition sub_dot0 (s : string) : string :=
  let l := chars s in
  let dot0 := chars ".0" in
  let dot0nl := dot0 ++ ["010"%char] in
  if ends_with dot0 l then text (take (length l - 2) l)
  else if ends_with dot0nl l then text (take (length l - 3) l ++ ["010"%char])
  else s.

(** [s.replace(old, '')] for a non-empty [old]: every occurrence of [old],
    scanning from the left without overlap, is removed. [skip] counts the
    characters of the occurrence being removed that are still to drop. *)
Fixpoint remove_all_go (old : list ascii) (l : list ascii) (skip : nat) : list ascii :=
  match l with
  | [] => []
  | c :: l' =>
      match skip with
      | S k => remove_all_go old l' k
      | O =>
          if bool_decide (take (length old) l = old)
          then remove_all_go old l' (length old - 1)
          else c :: remove_all_go old l' 0
      end
  end.

Definition remove_all (old s : string) : string :=
  text (remove_all_go (chars old) (chars s) 0).

(** [s.isdigit()]: non-empty and every character a digit. *)
Definition isdigit (s : string) : bool :=
  match chars s with
  | [] => false
  | l => forallb is_digit l
  end.

(** [int(s)] for a text that [isdigit] accepts. *)
Definition int (s : string) : nat :=
  match NilEmpty.uint_of_string s with
  | Some d => Nat.of_uint d
  | None => 0
  end.

(** [str(n)] and the [{n}] of an f-string, for a natural number. *)
Definition str_of_nat (n : nat) : string := NilEmpty.string_of_uint (Nat.to_uint n).

Definition is_empty (s : string) : bool := bool_decide (s = "").

End Py.

(** ** Cells *)

Inductive cell : Type :=
| NaN
| Str (s : string).

#[global] Instance cell_eq_dec : EqDecision cell.
Proof. solve_decision. Defined.

(** [pd.isna(x)] and [pd.notna(x)]. *)
Definition isna (x : cell) : bool := match x with NaN => true | Str _ => false end.
Definition notna (x : cell) : bool := negb (isna x).

(** [str(x)]; pandas' [astype(str)] agrees with it: the missing value
    prints as "nan". *)
Definition str (x : cell) : string :=
  match x with NaN => "nan" | Str s => s end.

(** Python's truth value of a cell: the missing value, a float, is true. *)
Definition truthy (x : cell) : bool :=
  match x with NaN => true | Str s => negb (Py.is_empty s) end.

(** ** [difflib.SequenceMatcher(None, a, b).ratio()]

    The library routine the scorer calls, written out so that the scorer
    can be run. No junk predicate is given, so the junk set is empty; the
    "popular" purge of [autojunk] is kept. *)

Module difflib.

(** [autojunk]: for [b] of 200 characters or more, a character that
    occurs more than [len(b)//100 + 1] times is dropped from [b2j]. *)
Definition popular (b : list ascii) (c : ascii) : bool :=
  (200 <=? length b) && (length b / 100 + 1 <? count_occ ascii_dec b c).

(** One pass of the inner loop of [find_longest_match] for the character
    [ai = a[i]]: the new [j2len], as a list indexed by [j] where 0 stands
    for an absent key. [diag] is [j2len.get(j-1, 0)] of the previous row. *)
Fixpoint new_j2len (pop : ascii -> bool) (ai : ascii) (blo bhi : nat)
    (b : list ascii) (prev : list nat) (j diag : nat) : list nat :=
  match b, prev with
  | bj :: b', p :: prev' =>
      (if (blo <=? j) && (j <? bhi) && Ascii.eqb ai bj && negb (pop bj)
       then S diag else 0)
      :: new_j2len pop ai blo bhi b' prev' (S j) p
  | _, _ => []
  end.

(** The update of [(besti, bestj, bestsize)] over one row, [j] ascending. *)
Fixpoint update_best (i : nat) (row : list nat) (j : nat) (best : nat * nat * nat)
    : nat * nat * nat :=
  match row with
  | [] => best
  | k :: row' =>
      let '(_, _, bestsize) := best in
      update_best i row' (S j)
        (if bestsize <? k then (i + 1 - k, j + 1 - k, k) else best)
  end.

(** The outer loop over [i] in [range(alo, ahi)]; [a] is [a[alo:]]. *)
Fixpoint longest_go (pop : ascii -> bool) (blo bhi : nat) (b : list ascii)
    (a : list ascii) (i ahi : nat) (j2len : list nat) (best : nat * nat * nat)
    : nat * nat * nat :=
  match a with
  | [] => best
  | ai :: a' =>
      if i <? ahi then
        let row := new_j2len pop ai blo bhi b j2len 0 0 in
        longest_go pop blo bhi b a' (S i) ahi row (update_best i row 0 best)
      else best
  end.

Definition nth_char (l : list ascii) (i : nat) : ascii := nth i l "000"%char.

(** The two loops that extend the best match by equal characters (every
    character is non-junk). *)
Fixpoint extend_left (fuel : nat) (a b : list ascii) (alo blo : nat)
    (best : nat * nat * nat) : nat * nat * nat :=
  match fuel with
  | O => best
  | S fuel' =>
      let '(besti, bestj, bestsize) := best in
      if (alo <? besti) && (blo <? bestj)
         && Ascii.eqb (nth_char a (besti - 1)) (nth_char b (bestj - 1))
      then extend_left fuel' a b alo blo (besti - 1, bestj - 1, bestsize + 1)
      else best
  end.

Fixpoint extend_right (fuel : nat) (a b : list ascii) (ahi bhi : nat)
    (best : nat * nat * nat) : nat * nat * nat :=
  match fuel with
  | O => best
  | S fuel' =>
      let '(besti, bestj, bestsize) := best in
      if (besti + bestsize <? ahi) && (bestj + bestsize <? bhi)
         && Ascii.eqb (nth_char a (besti + bestsize)) (nth_char b (bestj + bestsize))
      then extend_right fuel' a b ahi bhi (besti, bestj, bestsize + 1)
      else best
  end.

Definition find_longest_match (a b : list ascii) (alo ahi blo bhi : nat)
    : nat * nat * nat :=
  let best :=
    longest_go (popular b) blo bhi b (drop alo a) alo ahi
      (repeat 0 (length b)) (alo, blo, 0) in
  let best := extend_left (length a) a b alo blo best in
  extend_right (length a) a b ahi bhi best.

(** [get_matching_blocks]: the work list is a stack, the head of the list
    being the entry that [queue.pop()] returns. The sizes of the blocks
    found are collected; [ratio] only needs their sum. *)
Fixpoint matching_sizes (fuel : nat) (a b : list ascii)
    (queue : list (nat * nat * nat * nat)) (sizes : list nat) : list nat :=
  match fuel with
  | O => sizes
  | S fuel' =>
      match queue with
      | [] => sizes
      | (alo, ahi, blo, bhi) :: queue' =>
          let '(i, j, k) := find_longest_match a b alo ahi blo bhi in
          if k =? 0 then matching_sizes fuel' a b queue' sizes
          else
            let q1 := if (alo <? i) && (blo <? j)
                      then (alo, i, blo, j) :: queue' else queue' in
            let q2 := if (i + k <? ahi) && (j + k <? bhi)
                      then (i + k, ahi, j + k, bhi) :: q1 else q1 in
            matching_sizes fuel' a b q2 (sizes ++ [k])
      end
  end.

Definition matches (a b : list ascii) : nat :=
  list_sum (matching_sizes (2 * length a + 1) a b [(0, length a, 0, length b)] []).

(** [_calculate_ratio(matches, len(a) + len(b))]. *)
Definition ratio (a b : string) : Q :=
  let la := Py.chars a in
  let lb := Py.chars b in
  match (length la + length lb)%nat with
  | O => 1%Q
  | S _ as len => Qmake (Z.of_nat (2 * matches la lb)) (Pos.of_nat len)
  end.

End difflib.

(** ** The normalizer and the similarity scorer *)

(** [normalize_string(s)]. *)
Definition normalize_string (s : cell) : string :=
  match s with
  | NaN => ""
  | Str s =>
      if Py.is_empty s then ""
      else Py.join " " (Py.split (Py.lower (Py.strip s)))
  end.

(** [extract_numbers(s)]. *)
Definition extract_numbers (s : cell) : list string :=
  match s with
  | NaN => []
  | Str s => if Py.is_empty s then [] else Py.findall_digits s
  end.

Definition nonempty {A} (l : list A) : bool :=
  match l with [] => false | _ => true end.

#[global] Arguments normalize_string : simpl never.
#[global] Arguments extract_numbers : simpl never.

Section Scorer.

(** The similarity ratio of the library, [difflib.ratio] when run. *)
Variable ratio : string -> string -> Q.

(** [fuzzy_match_score(str1, str2, threshold)], the definition in force:
    the second one of the module, which replaces the first at import. *)
Definition fuzzy_match_score (str1 str2 : cell) (threshold : Q) : bool :=
  let str1_norm := normalize_string str1 in
  let str2_norm := normalize_string str2 in
  if Py.is_empty str1_norm || Py.is_empty str2_norm then false
  else
    let numbers1 := extract_numbers str1 in
    let numbers2 := extract_numbers str2 in
    if nonempty numbers1 && nonempty numbers2
       && bool_decide (numbers1 ≠ numbers2)
    then false
    else
      let str1_no_numbers := Py.strip (Py.sub_digits str1_norm) in
      let str2_no_numbers := Py.strip (Py.sub_digits str2_norm) in
      let str1_no_numbers := Py.join " " (Py.split str1_no_numbers) in
      let str2_no_numbers := Py.join " " (Py.split str2_no_numbers) in
      if Py.is_empty str1_no_numbers || Py.is_empty str2_no_numbers
      then bool_decide (str1_norm = str2_norm)
      else if bool_decide (str1_no_numbers = str2_no_numbers) then true
      else Qle_bool threshold (ratio str1_no_numbers str2_no_numbers).

End Scorer.

(** ** The catalog and the address matcher *)

(** One row of the Locations sheet of Practice_Locations.xlsx, with the
    columns the engine reads. *)
Record CatalogLocationRecord : Type := {
  location_id : cell;
  monolith_location_id : cell;
  address_1 : cell;
  address_2 : cell;
  city : cell;
  state : cell;
  zip : cell;
  Location_Type : cell;
  Practice_Monolith_ID : cell;
  Practice_Cloud_ID : cell
}.

#[global] Instance CatalogLocationRecord_eq_dec : EqDecision CatalogLocationRecord.
Proof. solve_decision. Defined.

(** One entry of a match list: the tuple
    [(monolith_id_str, cloud_id, location_type_str, practice_monolith_id_str,
    practice_cloud_id_str)]. *)
Record MatchTuple : Type := {
  m_monolith_id : string;
  m_cloud_id : string;
  m_location_type : string;
  m_practice_monolith_id : string;
  m_practice_cloud_id : string
}.

#[global] Instance MatchTuple_eq_dec : EqDecision MatchTuple.
Proof. solve_decision. Defined.

(** [row.get(key, '') if key in row else ''] on a row of the input sheet. *)
Definition get (row : gmap string cell) (key : string) : cell :=
  default (Str "") (row !! key).

(** The list a loop builds with [append] under a test, scanning [l]. *)
Definition collect {A} (p : A -> bool) (l : list A) : list A :=
  fold_left (fun acc x => if p x then acc ++ [x] else acc) l [].

(** The practice identifier handed to the matcher, cleaned; [None] when it
    is absent, missing or blank. *)
Definition clean_id_arg (v : option cell) : option string :=
  match v with
  | Some v =>
      if notna v then
        let s := Py.sub_dot0 (Py.strip (str v)) in
        if Py.is_empty s then None else Some s
      else None
  | None => None
  end.

Definition has_practice_monolith_id (practice_id_str : string) (r : CatalogLocationRecord) : bool :=
  bool_decide (Py.sub_dot0 (Py.strip (str (Practice_Monolith_ID r))) = practice_id_str).

Definition has_practice_cloud_id (practice_cloud_id_str : string) (r : CatalogLocationRecord) : bool :=
  bool_decide (Py.strip (str (Practice_Cloud_ID r)) = practice_cloud_id_str).

(** The catalog restricted to the practice of the row. *)
Definition filter_by_practice (api_locations_df : list CatalogLocationRecord)
    (practice_id_str practice_cloud_id_str : option string) : list CatalogLocationRecord :=
  match practice_id_str, practice_cloud_id_str with
  | Some p, Some c =>
      List.filter (fun r => has_practice_monolith_id p r || has_practice_cloud_id c r)
        api_locations_df
  | Some p, None => List.filter (has_practice_monolith_id p) api_locations_df
  | None, Some c => List.filter (has_practice_cloud_id c) api_locations_df
  | None, None => api_locations_df
  end.

(** One address component of a catalog record as the concatenation takes
    it: [if v and str(v).strip(): parts.append(str(v).strip())]. *)
Definition address_part (v : cell) : list string :=
  if truthy v && negb (Py.is_empty (Py.strip (str v)))
  then [Py.strip (str v)] else [].

Definition api_address_combined (r : CatalogLocationRecord) : string :=
  Py.join " "
    (address_part (address_1 r) ++ address_part (address_2 r)
     ++ address_part (city r) ++ address_part (state r) ++ address_part (zip r)).

(** The tuple read off a surviving record; a record without monolith id
    or without location id gives none. *)
Definition result_tuple (r : CatalogLocationRecord) : option MatchTuple :=
  if notna (monolith_location_id r) && notna (location_id r) then
    Some {| m_monolith_id := Py.sub_dot0 (Py.strip (str (monolith_location_id r)));
            m_cloud_id := str (location_id r);
            m_location_type :=
              if notna (Location_Type r) then Py.strip (str (Location_Type r)) else "";
            m_practice_monolith_id :=
              if notna (Practice_Monolith_ID r)
                 && negb (bool_decide (Practice_Monolith_ID r = Str ""))
              then Py.strip (str (Practice_Monolith_ID r)) else "";
            m_practice_cloud_id :=
              if notna (Practice_Cloud_ID r)
                 && negb (bool_decide (Practice_Cloud_ID r = Str ""))
              then Py.strip (str (Practice_Cloud_ID r)) else "" |}
  else None.

(** The final loop of the matcher: [result.append(...)] per survivor. *)
Definition extract_result (matches : list CatalogLocationRecord) : list MatchTuple :=
  fold_left
    (fun result r =>
       match result_tuple r with
       | Some t => result ++ [t]
       | None => result
       end)
    matches [].

(** Which list object the name [matches] is bound to while the
    Address Line 2 loop runs: the list the loop iterates over, or the list
    [filtered_matches] that the loop is still appending to. *)
Inductive Binding : Type :=
| LineOneList
| FilteredList.

Section Matcher.

Variable ratio : string -> string -> Q.

(** The concatenated-address test of one record. *)
Definition concat_test (addr_line1_norm : string) (r : CatalogLocationRecord) : bool :=
  let api_address_combined_norm := normalize_string (Str (api_address_combined r)) in
  negb (Py.is_empty api_address_combined_norm)
  && fuzzy_match_score ratio (Str addr_line1_norm) (Str api_address_combined_norm) (7 # 10).

(** Step 1: Address Line 1. *)
Definition line1_test (addr_line1_norm : string) (r : CatalogLocationRecord) : bool :=
  fuzzy_match_score ratio (Str addr_line1_norm)
    (Str (normalize_string (address_1 r))) (7 # 10).

(** Step 2: the test on Address Line 2 inside the loop. *)
Definition line2_test (addr_line2_norm : string) (r : CatalogLocationRecord) : bool :=
  let api_addr2_norm := normalize_string (address_2 r) in
  if Py.is_empty addr_line2_norm then Py.is_empty api_addr2_norm
  else if negb (Py.is_empty api_addr2_norm)
       then fuzzy_match_score ratio (Str addr_line2_norm) (Str api_addr2_norm) (7 # 10)
       else false.

(** Step 2 as written: the assignment [matches = filtered_matches] is the
    last statement of the loop body. The loop state is the content of the
    list object [filtered_matches] and the binding of the name [matches];
    the loop itself runs over the list of step 1. *)
Definition line2_loop (addr_line2_norm : string) (matches : list CatalogLocationRecord)
    : list CatalogLocationRecord * Binding :=
  fold_left
    (fun '(filtered_matches, _) r =>
       ((if line2_test addr_line2_norm r
         then filtered_matches ++ [r] else filtered_matches),
        FilteredList))
    matches ([], LineOneList).

Definition line2_stage (addr_line2_norm : string) (matches : list CatalogLocationRecord)
    : list CatalogLocationRecord :=
  match line2_loop addr_line2_norm matches with
  | (filtered_matches, FilteredList) => filtered_matches
  | (_, LineOneList) => matches
  end.

(** Steps 3 to 5: a filter on one component that is skipped when the row
    has no value for it and is dropped when nothing passes it. *)
Definition component_test (value_norm : string) (field : CatalogLocationRecord -> cell)
    (r : CatalogLocationRecord) : bool :=
  fuzzy_match_score ratio (Str value_norm) (Str (normalize_string (field r))) (8 # 10).

Definition narrow_stage (value_norm : string) (field : CatalogLocationRecord -> cell)
    (matches : list CatalogLocationRecord) : list CatalogLocationRecord :=
  if negb (Py.is_empty value_norm) then
    let filtered_matches := collect (component_test value_norm field) matches in
    if nonempty filtered_matches then filtered_matches else matches
  else matches.

(** The branch taken when the row has more than Address Line 1. *)
Definition multi_field_candidates
    (addr_line1_norm addr_line2_norm city_norm state_norm zip_norm : string)
    (filtered_df : list CatalogLocationRecord) : list CatalogLocationRecord :=
  let matches := collect (line1_test addr_line1_norm) filtered_df in
  if negb (nonempty matches) then []
  else
    let matches := line2_stage addr_line2_norm matches in
    let matches := narrow_stage city_norm city matches in
    let matches := narrow_stage state_norm state matches in
    narrow_stage zip_norm zip matches.

(** [match_location_by_address(locations_row, api_locations_df, practice_id,
    practice_cloud_id)]. *)
Definition match_location_by_address (locations_row : gmap string cell)
    (api_locations_df : list CatalogLocationRecord)
    (practice_id practice_cloud_id : option cell) : list MatchTuple :=
  let practice_id_str := clean_id_arg practice_id in
  let practice_cloud_id_str := clean_id_arg practice_cloud_id in
  let filtered_df := filter_by_practice api_locations_df practice_id_str practice_cloud_id_str in
  if negb (nonempty filtered_df) then []
  else
    let addr_line1_norm := normalize_string (get locations_row "Address Line 1") in
    let addr_line2_norm := normalize_string (get locations_row "Address Line 2") in
    let city_norm := normalize_string (get locations_row "City") in
    let state_norm := normalize_string (get locations_row "State") in
    let zip_norm := normalize_string (get locations_row "ZIP") in
    if Py.is_empty addr_line1_norm then []
    else
      let only_address_line1_mapped :=
        Py.is_empty addr_line2_norm && Py.is_empty city_norm
        && Py.is_empty state_norm && Py.is_empty zip_norm in
      let matches :=
        if only_address_line1_mapped
        then collect (concat_test addr_line1_norm) filtered_df
        else multi_field_candidates addr_line1_norm addr_line2_norm
               city_norm state_norm zip_norm filtered_df in
      extract_result matches.

End Matcher.

(** ** The input sheet as a frame *)

Record DataFrame : Type := {
  columns : list string;
  rows : list (gmap string cell)
}.

Definition has_column (df : DataFrame) (col : string) : bool :=
  bool_decide (col ∈ columns df).

(** [df.at[idx, col]]. *)
Definition at_get (df : DataFrame) (idx : nat) (col : string) : cell :=
  match rows df !! idx with
  | Some r => default NaN (r !! col)
  | None => NaN
  end.

(** [df.at[idx, col] = v], for a column that exists. *)
Definition at_set (df : DataFrame) (idx : nat) (col : string) (v : cell) : DataFrame :=
  {| columns := columns df; rows := alter (fun r => <[col := v]> r) idx (rows df) |}.

(** [df.columns.get_loc(col)]. *)
Fixpoint index_of (col : string) (l : list string) : nat :=
  match l with
  | [] => 0
  | c :: l' => if bool_decide (c = col) then 0 else S (index_of col l')
  end.

Definition get_loc (df : DataFrame) (col : string) : nat := index_of col (columns df).

(** [df.insert(loc, col, [''] * len(df))]. *)
Definition insert_column (df : DataFrame) (loc : nat) (col : string) : DataFrame :=
  {| columns := take loc (columns df) ++ col :: drop loc (columns df);
     rows := (fun r => <[col := Str ""]> r) <$> rows df |}.

(** [df[col] = [''] * len(df)] for a new label. *)
Definition append_column (df : DataFrame) (col : string) : DataFrame :=
  insert_column df (length (columns df)) col.

(** [df.drop(columns=[col])]. *)
Definition drop_column (df : DataFrame) (col : string) : DataFrame :=
  {| columns := List.filter (fun c => negb (bool_decide (c = col))) (columns df);
     rows := (fun r => delete col r) <$> rows df |}.

(** [sorted(l, key=key)]: stable. *)
Fixpoint insert_by {A} (key : A -> nat) (x : A) (l : list A) : list A :=
  match l with
  | [] => [x]
  | y :: l' => if key x <=? key y then x :: l else y :: insert_by key x l'
  end.

Definition sorted_by {A} (key : A -> nat) (l : list A) : list A :=
  foldr (insert_by key) [] l.

(** A cell that holds a value: [pd.notna(v) and str(v).strip() != '']. *)
Definition has_value (v : cell) : bool :=
  notna v && negb (Py.is_empty (Py.strip (str v))).

(** The f-string [f'{label} {n}']. *)
Definition numbered (label : string) (n : nat) : string :=
  label +:+ " " +:+ Py.str_of_nat n.

(** ** The virtual-location backfiller *)

(** [str(v).strip()] followed by [re.sub(r'\.0$', '', ...)]. *)
Definition clean_id (v : cell) : string := Py.sub_dot0 (Py.strip (str v)).

(** The sentinel records of a state: [state] equal after normalization and
    [address_1] equal to "--". *)
Definition virtual_locations (state_norm : string)
    (api_locations_df : list CatalogLocationRecord) : list CatalogLocationRecord :=
  let matching_states :=
    List.filter
      (fun r => bool_decide (normalize_string (Str (Py.strip (str (state r)))) = state_norm))
      api_locations_df in
  List.filter (fun r => bool_decide (Py.strip (str (address_1 r)) = "--")) matching_states.

(** The loop that looks for the sentinel's id in the row: every column
    whose label starts with "Location Cloud ID" is read. *)
Definition virtual_already_exists (df : DataFrame) (idx : nat)
    (virtual_location_id_str : string) : bool :=
  existsb
    (fun col =>
       Py.startswith "Location Cloud ID" col
       && (let existing_value := at_get df idx col in
           notna existing_value
           && bool_decide (clean_id existing_value = virtual_location_id_str)))
    (columns df).

(** The number in the label of a Location Cloud ID column, when it has
    one: [col.replace('Location Cloud ID', '').strip()]. *)
Definition number_str (col : string) : string :=
  Py.strip (Py.remove_all "Location Cloud ID" col).

(** The highest numbered Location Cloud ID column with a value in the row. *)
Definition max_number_for_row (df : DataFrame) (idx : nat)
    (all_location_cloud_id_columns : list string) : nat :=
  fold_left
    (fun max_number col =>
       if has_value (at_get df idx col) then
         if bool_decide (col = "Location Cloud ID") then Nat.max max_number 1
         else if Py.isdigit (number_str col)
              then Nat.max max_number (Py.int (number_str col))
              else max_number
       else max_number)
    all_location_cloud_id_columns 0.

Definition sort_key (col : string) : nat :=
  if Py.isdigit (number_str col) then Py.int (number_str col) else 0.

(** [df.insert(insert_idx, col, ...)] when the label is new; the position
    moves on after the first three insertions. *)
Definition ensure_column (st : DataFrame * nat) (col : string) : DataFrame * nat :=
  let '(df, insert_idx) := st in
  if has_column df col then (df, insert_idx)
  else (insert_column df insert_idx col, S insert_idx).

(** The row qualifies and the catalog has a sentinel with an id for its
    state: the part of the loop body before the sentinel's fields are
    read. *)
Definition virtual_location_for_row (api_locations_df : list CatalogLocationRecord)
    (df : DataFrame) (idx : nat) : option CatalogLocationRecord :=
  let location_type_value := at_get df idx "Location Type" in
  if isna location_type_value then None else
  let location_type_str := Py.strip (str location_type_value) in
  if negb (bool_decide (location_type_str ∈ ["Both"; "Virtual"])) then None else
  let state_value := at_get df idx "State" in
  if isna state_value || Py.is_empty (Py.strip (str state_value)) then None else
  let state_norm := normalize_string (Str (Py.strip (str state_value))) in
  if Py.is_empty state_norm then None else
  match virtual_locations state_norm api_locations_df with
  | [] => None
  | virtual_location :: _ =>
      if isna (location_id virtual_location) then None else Some virtual_location
  end.

(** The sentinel goes into the slot after the highest one in use: the
    part of the loop body from [max_number_for_row = 0] on. The list
    [all_location_cloud_id_columns] is the one computed before the loop. *)
Definition append_virtual_location (all_location_cloud_id_columns : list string)
    (df : DataFrame) (idx : nat) (virtual_location : CatalogLocationRecord) : DataFrame :=
  let virtual_location_id_str := clean_id (location_id virtual_location) in
  let virtual_monolith_id_str :=
    if notna (monolith_location_id virtual_location)
    then clean_id (monolith_location_id virtual_location) else "" in
  let virtual_location_type_str :=
    if notna (Location_Type virtual_location)
    then Py.strip (str (Location_Type virtual_location)) else "" in
  let virtual_practice_cloud_id_str :=
    if notna (Practice_Cloud_ID virtual_location)
       && negb (bool_decide (Practice_Cloud_ID virtual_location = Str ""))
    then Py.strip (str (Practice_Cloud_ID virtual_location)) else "" in
  let new_column_number :=
    max_number_for_row df idx all_location_cloud_id_columns + 1 in
  let location_id_col_name := numbered "Location ID" new_column_number in
  let location_cloud_id_col_name := numbered "Location Cloud ID" new_column_number in
  let location_type_col_name := numbered "Location Type" new_column_number in
  let practice_cloud_id_col_name := numbered "Practice Cloud ID" new_column_number in
  let insert_idx :=
    match last (sorted_by sort_key all_location_cloud_id_columns) with
    | Some last_col => get_loc df last_col + 1
    | None => length (columns df)
    end in
  let st := ensure_column (df, insert_idx) location_id_col_name in
  let st := ensure_column st location_cloud_id_col_name in
  let st := ensure_column st practice_cloud_id_col_name in
  let st := ensure_column st location_type_col_name in
  let df := fst st in
  let df := at_set df idx location_id_col_name (Str virtual_monolith_id_str) in
  let df := at_set df idx location_cloud_id_col_name (Str virtual_location_id_str) in
  let df := at_set df idx location_type_col_name (Str virtual_location_type_str) in
  at_set df idx practice_cloud_id_col_name (Str virtual_practice_cloud_id_str).

(** The body of the loop over the rows. *)
Definition backfill_row (api_locations_df : list CatalogLocationRecord)
    (all_location_cloud_id_columns : list string)
    (df : DataFrame) (idx : nat) : DataFrame :=
  match virtual_location_for_row api_locations_df df idx with
  | None => df
  | Some virtual_location =>
      if virtual_already_exists df idx (clean_id (location_id virtual_location)) then df
      else append_virtual_location all_location_cloud_id_columns df idx virtual_location
  end.

(** [add_virtual_locations_after_matching(locations_df, api_locations_df)].
    The catalog record type carries the columns whose absence the function
    tests for first. *)
Definition add_virtual_locations_after_matching (locations_df : DataFrame)
    (api_locations_df : list CatalogLocationRecord) : DataFrame :=
  if negb (has_column locations_df "Location Type") then locations_df else
  if negb (has_column locations_df "State") then locations_df else
  let all_location_cloud_id_columns :=
    List.filter (Py.startswith "Location Cloud ID") (columns locations_df) in
  let has_location_cloud_id_1 :=
    has_column locations_df "Location Cloud ID 1"
    || has_column locations_df "Location Cloud ID" in
  if negb (has_location_cloud_id_1 || nonempty all_location_cloud_id_columns)
  then locations_df
  else
    fold_left (backfill_row api_locations_df all_location_cloud_id_columns)
      (seq 0 (length (rows locations_df))) locations_df.

(** ** Replacing the address of a row by the address of its first match *)

(** [s.zfill(5)] for a text of digits. *)
Definition zfill5 (s : string) : string :=
  Py.text (repeat "0"%char (5 - String.length s)) +:+ s.

(** An address component as it is written into the row. *)
Definition address_value (v : cell) : cell :=
  Str (if notna v && negb (bool_decide (v = Str "")) then Py.strip (str v) else "").

Definition set_if_column (df : DataFrame) (idx : nat) (col : string) (v : cell) : DataFrame :=
  if has_column df col then at_set df idx col v else df.

(** [replace_address_values_from_matched_location(locations_df,
    api_locations_df, row_idx, location_cloud_id)]; the frame is the
    effect, the returned flag is not used by the callers. For a ZIP held
    as text; the branch for a ZIP held as a number is outside the cell
    model. *)
Definition replace_address_values_from_matched_location (locations_df : DataFrame)
    (api_locations_df : list CatalogLocationRecord) (row_idx : nat)
    (location_cloud_id : cell) : DataFrame :=
  if negb (truthy location_cloud_id) || isna location_cloud_id
     || Py.is_empty (Py.strip (str location_cloud_id))
  then locations_df
  else
    let location_cloud_id_str := clean_id location_cloud_id in
    match List.filter
            (fun r => bool_decide (clean_id (location_id r) = location_cloud_id_str))
            api_locations_df with
    | [] => locations_df
    | location_row :: _ =>
        let df := set_if_column locations_df row_idx "Address Line 1"
                    (address_value (address_1 location_row)) in
        let df := set_if_column df row_idx "Address Line 2"
                    (address_value (address_2 location_row)) in
        let df := set_if_column df row_idx "City" (address_value (city location_row)) in
        let df := set_if_column df row_idx "State" (address_value (state location_row)) in
        let zip_code := zip location_row in
        if has_column df "ZIP" && notna zip_code && negb (bool_decide (zip_code = Str ""))
        then
          let zip_str := Py.strip (str zip_code) in
          at_set df row_idx "ZIP"
            (Str (if Py.isdigit zip_str && (String.length zip_str <? 5)
                  then zfill5 zip_str else zip_str))
        else df
    end.

(** ** The matching blocks of [add_location_cloud_ids_to_locations_input] *)

Inductive Case : Type :=
| Case1
| Case2
| Case3
| Case4.

#[global] Instance Case_eq_dec : EqDecision Case.
Proof. solve_decision. Defined.

(** The cells of a column, top to bottom. *)
Definition column_cells (df : DataFrame) (col : string) : list cell :=
  (fun r => default NaN (r !! col)) <$> rows df.

(** [not df[col].isna().all() and not (df[col].astype(str).str.strip() ==
    '').all()]. *)
Definition has_values (df : DataFrame) (col : string) : bool :=
  negb (forallb isna (column_cells df col))
  && negb (forallb (fun v => Py.is_empty (Py.strip (str v))) (column_cells df col)).

(** [df[col].isna().all() or (df[col].astype(str).str.strip() == '').all()]. *)
Definition all_empty (df : DataFrame) (col : string) : bool :=
  forallb isna (column_cells df col)
  || forallb (fun v => Py.is_empty (Py.strip (str v))) (column_cells df col).

(** The test on one Location ID column: more than 20% of its cells hold a
    value, [total_count > 0 and non_empty_count / total_count > 0.2]. *)
Definition non_empty_count (df : DataFrame) (col : string) : nat :=
  length (List.filter has_value (column_cells df col)).

Definition column_is_mapped (df : DataFrame) (location_id_col : string) : bool :=
  let total_count := length (rows df) in
  (0 <? total_count) && (total_count <? 5 * non_empty_count df location_id_col).

Definition location_id_columns_of (df : DataFrame) : list string :=
  List.filter (Py.startswith "Location ID") (columns df).

(** The flag [needs_fuzzy_matching] after the loop over the Location ID
    columns. *)
Definition needs_fuzzy_matching (df : DataFrame) : bool :=
  negb (existsb (column_is_mapped df) (location_id_columns_of df)).

(** The flag [only_state_mapped]. *)
Definition only_state_mapped (df : DataFrame) : bool :=
  if has_column df "State" && needs_fuzzy_matching df then
    let state_has_values := has_values df "State" in
    if negb state_has_values then false
    else
      let addr1_has_values := has_column df "Address Line 1" && has_values df "Address Line 1" in
      let addr2_has_values := has_column df "Address Line 2" && has_values df "Address Line 2" in
      let city_has_values := has_column df "City" && has_values df "City" in
      let zip_has_values := has_column df "ZIP" && has_values df "ZIP" in
      state_has_values && negb addr1_has_values && negb addr2_has_values
      && negb city_has_values && negb zip_has_values
  else false.

(** The flag [only_address_line1_mapped] of the frame, which picks the
    label Case 4 or Case 3 that is announced. *)
Definition only_address_line1_mapped (df : DataFrame) : bool :=
  let addr1_has_values := has_column df "Address Line 1" && has_values df "Address Line 1" in
  let addr2_empty := if has_column df "Address Line 2" then all_empty df "Address Line 2" else true in
  let city_empty := if has_column df "City" then all_empty df "City" else true in
  let state_empty := if has_column df "State" then all_empty df "State" else true in
  let zip_empty := if has_column df "ZIP" then all_empty df "ZIP" else true in
  addr1_has_values && addr2_empty && city_empty && state_empty && zip_empty.

(** *** Case 2: state only *)

(** [[s.strip() for s in state_value_str.split(',') if s.strip()]]. *)
Definition state_list (state_value_str : string) : list string :=
  List.filter (fun s => negb (Py.is_empty s)) (Py.strip <$> Py.split_on ","%char state_value_str).

(** The dictionary appended for the first catalog record of a state. *)
Definition state_match_info (first_match : CatalogLocationRecord) : option MatchTuple :=
  if notna (location_id first_match) then
    Some {| m_cloud_id := clean_id (location_id first_match);
            m_monolith_id :=
              if notna (monolith_location_id first_match)
              then clean_id (monolith_location_id first_match) else "";
            m_location_type :=
              if notna (Location_Type first_match)
              then Py.strip (str (Location_Type first_match)) else "";
            m_practice_monolith_id :=
              if notna (Practice_Monolith_ID first_match)
                 && negb (bool_decide (Practice_Monolith_ID first_match = Str ""))
              then clean_id (Practice_Monolith_ID first_match) else "";
            m_practice_cloud_id :=
              if notna (Practice_Cloud_ID first_match)
                 && negb (bool_decide (Practice_Cloud_ID first_match = Str ""))
              then Py.strip (str (Practice_Cloud_ID first_match)) else "" |}
  else None.

(** The list [matches_for_row] built over the states of a row. *)
Definition matches_for_row (state_list : list string)
    (api_locations_df : list CatalogLocationRecord) : list MatchTuple :=
  fold_left
    (fun matches_for_row state_item =>
       let state_item_norm := normalize_string (Str state_item) in
       if Py.is_empty state_item_norm then matches_for_row
       else
         match List.filter
                 (fun r => bool_decide
                    (normalize_string (Str (Py.strip (str (state r)))) = state_item_norm))
                 api_locations_df with
         | first_match :: _ =>
             match state_match_info first_match with
             | Some info => matches_for_row ++ [info]
             | None => matches_for_row
             end
         | [] => matches_for_row
         end)
    state_list [].

(** The sort key of the existing Location ID columns:
    [int(x.split()[-1]) if x.split()[-1].isdigit() else 0]. *)
Definition last_word_key (x : string) : nat :=
  let w := default "" (last (Py.split x)) in
  if Py.isdigit w then Py.int w else 0.

(** Creating a column of Case 2: inserted at [insert_idx] when new, and
    otherwise the position moves behind the existing column. *)
Definition ensure_column_after (st : DataFrame * nat) (col : string) : DataFrame * nat :=
  let '(df, insert_idx) := st in
  if has_column df col then (df, get_loc df col + 1)
  else (insert_column df insert_idx col, S insert_idx).

(** The columns of the [i]-th match of a row and their cells. *)
Definition write_state_match (df : DataFrame) (idx : nat) (i : nat) (match_info : MatchTuple)
    : DataFrame :=
  let location_monolith_id_col := numbered "Location Monolith ID" i in
  let location_cloud_id_col := numbered "Location Cloud ID" i in
  let location_type_col := numbered "Location Type" i in
  let practice_monolith_id_col := numbered "Practice Monolith ID" i in
  let practice_cloud_id_col := numbered "Practice Cloud ID" i in
  let insert_idx :=
    if i =? 1 then
      let existing_location_id_cols :=
        List.filter
          (fun col => Py.startswith "Location ID" col
                      && negb (Py.startswith "Location Cloud ID" col)
                      && negb (Py.startswith "Location Monolith ID" col))
          (columns df) in
      match last (sorted_by last_word_key existing_location_id_cols) with
      | Some last_col => get_loc df last_col + 1
      | None => length (columns df)
      end
    else
      let prev_location_type_col := numbered "Location Type" (i - 1) in
      if has_column df prev_location_type_col
      then get_loc df prev_location_type_col + 1
      else length (columns df) in
  let st := ensure_column_after (df, insert_idx) location_monolith_id_col in
  let st := ensure_column_after st location_cloud_id_col in
  let st := ensure_column_after st location_type_col in
  let st := ensure_column_after st practice_monolith_id_col in
  let st := ensure_column_after st practice_cloud_id_col in
  let df := fst st in
  let df := at_set df idx location_monolith_id_col (Str (m_monolith_id match_info)) in
  let df := at_set df idx location_cloud_id_col (Str (m_cloud_id match_info)) in
  let df := at_set df idx location_type_col (Str "") in
  let df := at_set df idx practice_monolith_id_col (Str (m_practice_monolith_id match_info)) in
  at_set df idx practice_cloud_id_col (Str (m_practice_cloud_id match_info)).

(** [for i, match_info in enumerate(matches_for_row, start=1)]. *)
Fixpoint write_state_matches (df : DataFrame) (idx : nat) (i : nat)
    (matches : list MatchTuple) : DataFrame :=
  match matches with
  | [] => df
  | match_info :: rest =>
      write_state_matches (write_state_match df idx i match_info) idx (S i) rest
  end.

(** The body of the loop over the rows; [state_value] is the State of the
    row as [iterrows] read it when the loop began. *)
Definition case2_row (api_locations_df : list CatalogLocationRecord)
    (df : DataFrame) (idx : nat) (state_value : cell) : DataFrame :=
  if isna state_value || Py.is_empty (Py.strip (str state_value)) then df
  else
    let states := state_list (Py.strip (str state_value)) in
    if negb (nonempty states) then df
    else
      let matches := matches_for_row states api_locations_df in
      if negb (nonempty matches) then df
      else
        let df := write_state_matches df idx 1 matches in
        let df := set_if_column df idx "Location Type" (Str "") in
        match matches with
        | first :: _ =>
            if negb (Py.is_empty (m_cloud_id first))
            then replace_address_values_from_matched_location df api_locations_df idx
                   (Str (m_cloud_id first))
            else df
        | [] => df
        end.

Fixpoint case2_rows (api_locations_df : list CatalogLocationRecord)
    (df : DataFrame) (idx : nat) (state_values : list cell) : DataFrame :=
  match state_values with
  | [] => df
  | state_value :: rest =>
      case2_rows api_locations_df (case2_row api_locations_df df idx state_value) (S idx) rest
  end.

Definition case2_block (locations_df : DataFrame)
    (api_locations_df : list CatalogLocationRecord) : DataFrame :=
  case2_rows api_locations_df locations_df 0
    ((fun r => get r "State") <$> rows locations_df).

(** *** Cases 3 and 4: fuzzy matching, and the numbered columns *)

(** [a or b] on two results of [row.get]. *)
Definition py_or (a b : option cell) : option cell :=
  match a with
  | Some v => if truthy v then a else b
  | None => b
  end.

(** The identifier passed to the matcher: itself when it holds a value. *)
Definition valid_or_none (v : option cell) : option cell :=
  match v with
  | Some c => if has_value c then Some c else None
  | None => None
  end.

(** The five cells of the match in slot [col_num]. *)
Definition write_match (df : DataFrame) (idx : nat) (col_num : nat) (m : MatchTuple)
    : DataFrame :=
  let df := at_set df idx (numbered "Location ID" col_num) (Str (m_monolith_id m)) in
  let df := at_set df idx (numbered "Location Cloud ID" col_num) (Str (m_cloud_id m)) in
  let df := at_set df idx (numbered "Location Type" col_num) (Str (m_location_type m)) in
  let df := at_set df idx (numbered "Practice Monolith ID" col_num)
              (Str (m_practice_monolith_id m)) in
  at_set df idx (numbered "Practice Cloud ID" col_num) (Str (m_practice_cloud_id m)).

(** [for match_idx in range(len(...))] with [col_num = match_idx + 1]. *)
Fixpoint write_matches (df : DataFrame) (idx : nat) (col_num : nat)
    (matches : list MatchTuple) : DataFrame :=
  match matches with
  | [] => df
  | m :: rest => write_matches (write_match df idx col_num m) idx (S col_num) rest
  end.

(** The columns of slot [match_num], each added at the end when new. *)
Definition ensure_slot_columns (df : DataFrame) (match_num : nat) : DataFrame :=
  fold_left
    (fun df col => if has_column df col then df else append_column df col)
    [numbered "Location ID" match_num; numbered "Location Cloud ID" match_num;
     numbered "Location Type" match_num; numbered "Practice Monolith ID" match_num;
     numbered "Practice Cloud ID" match_num]
    df.

(** The filling of one row, then the address of its first match. *)
Definition fill_row (api_locations_df : list CatalogLocationRecord)
    (df : DataFrame) (idx : nat) (matches : list MatchTuple) : DataFrame :=
  match matches with
  | [] => df
  | first :: _ =>
      let df := write_matches df idx 1 matches in
      if negb (Py.is_empty (m_cloud_id first))
      then replace_address_values_from_matched_location df api_locations_df idx
             (Str (m_cloud_id first))
      else df
  end.

Fixpoint fill_rows (api_locations_df : list CatalogLocationRecord)
    (df : DataFrame) (idx : nat) (all_matches : list (list MatchTuple)) : DataFrame :=
  match all_matches with
  | [] => df
  | matches :: rest =>
      fill_rows api_locations_df (fill_row api_locations_df df idx matches) (S idx) rest
  end.

Section FuzzyBlock.

Variable ratio : string -> string -> Q.

(** The matches of one row of the sheet. *)
Definition row_matches (api_locations_df : list CatalogLocationRecord)
    (row : gmap string cell) : list MatchTuple :=
  let practice_id := py_or (row !! "Practice ID") (row !! "Practice Monolith ID") in
  let practice_cloud_id := row !! "Practice Cloud ID" in
  match_location_by_address ratio row api_locations_df
    (valid_or_none practice_id) (valid_or_none practice_cloud_id).

(** The block under [if needs_fuzzy_matching], after the case label is
    announced. The five lists of the source, one per output column, are
    filled in step and are kept here as one list of tuples per row. When
    Address Line 1 is no column the function returns and the sheet stays
    as it was. *)
Definition fuzzy_block (locations_df : DataFrame)
    (api_locations_df : list CatalogLocationRecord) : DataFrame :=
  let df := if has_column locations_df "Location ID"
            then drop_column locations_df "Location ID" else locations_df in
  let df := if has_column df "Location Cloud ID"
            then drop_column df "Location Cloud ID" else df in
  if negb (has_column locations_df "Address Line 1") then locations_df
  else
    let all_matches := row_matches api_locations_df <$> rows df in
    let max_matches := fold_left (fun m l => Nat.max m (length l)) all_matches 1 in
    let df := fold_left ensure_slot_columns (seq 1 max_matches) df in
    fill_rows api_locations_df df 0 all_matches.

End FuzzyBlock.

(** *** Case 1: direct mapping *)

(** What the dictionaries keyed by monolith location id hold for a key. *)
Record MapEntry : Type := {
  e_cloud_id : string;
  e_practice_monolith_id : string;
  e_practice_cloud_id : string;
  e_location_type : string
}.

(** The dictionaries built from the catalog: the first record of a key
    is the one kept. *)
Definition location_id_map (api_locations_df : list CatalogLocationRecord)
    : gmap string MapEntry :=
  fold_left
    (fun m row =>
       let monolith_id := if notna (monolith_location_id row)
                          then Py.strip (str (monolith_location_id row)) else "" in
       if negb (Py.is_empty monolith_id) && notna (location_id row)
          && truthy (location_id row)
       then
         let monolith_id := Py.sub_dot0 monolith_id in
         match m !! monolith_id with
         | Some _ => m
         | None =>
             <[monolith_id :=
                 {| e_cloud_id := str (location_id row);
                    e_practice_monolith_id :=
                      if notna (Practice_Monolith_ID row)
                         && negb (bool_decide (Practice_Monolith_ID row = Str ""))
                      then Py.strip (str (Practice_Monolith_ID row)) else "";
                    e_practice_cloud_id :=
                      if notna (Practice_Cloud_ID row)
                         && negb (bool_decide (Practice_Cloud_ID row = Str ""))
                      then Py.strip (str (Practice_Cloud_ID row)) else "";
                    e_location_type :=
                      if notna (Location_Type row)
                      then Py.strip (str (Location_Type row)) else "" |}]> m
         end
       else m)
    api_locations_df ∅.

(** The label that goes with a Location ID column: the same number, or
    none. *)
Definition companion (label : string) (location_id_col : string) : string :=
  if bool_decide (location_id_col = "Location ID") then label
  else
    let number := Py.strip (Py.remove_all "Location ID" location_id_col) in
    if negb (Py.is_empty number) then label +:+ " " +:+ number else label.

(** [if col not in df.columns: df.insert(df.columns.get_loc(after) + 1, col, ...)]. *)
Definition ensure_column_behind (df : DataFrame) (after col : string) : DataFrame :=
  if has_column df col then df else insert_column df (get_loc df after + 1) col.

(** The cells written for one row and one Location ID column. *)
Definition map_row (m : gmap string MapEntry) (location_id_col : string)
    (df : DataFrame) (idx : nat) : DataFrame :=
  let loc_id := at_get df idx location_id_col in
  if has_value loc_id then
    let loc_id_str := clean_id loc_id in
    let e := m !! loc_id_str in
    let df := at_set df idx (companion "Location Cloud ID" location_id_col)
                (Str (default "" (e_cloud_id <$> e))) in
    let df := at_set df idx (companion "Practice Cloud ID" location_id_col)
                (Str (default "" (e_practice_cloud_id <$> e))) in
    let df := at_set df idx (companion "Practice Monolith ID" location_id_col)
                (Str (default "" (e_practice_monolith_id <$> e))) in
    at_set df idx (companion "Location Type" location_id_col)
      (Str (default "" (e_location_type <$> e)))
  else df.

(** One turn of the loop over the Location ID columns. *)
Definition map_column (m : gmap string MapEntry) (df : DataFrame)
    (location_id_col : string) : DataFrame :=
  let cloud_id_col_name := companion "Location Cloud ID" location_id_col in
  let practice_cloud_id_col_name := companion "Practice Cloud ID" location_id_col in
  let practice_monolith_id_col_name := companion "Practice Monolith ID" location_id_col in
  let location_type_col_name := companion "Location Type" location_id_col in
  let df := ensure_column_behind df location_id_col cloud_id_col_name in
  let df := ensure_column_behind df cloud_id_col_name location_type_col_name in
  let df := ensure_column_behind df location_type_col_name practice_monolith_id_col_name in
  let df := ensure_column_behind df practice_monolith_id_col_name practice_cloud_id_col_name in
  fold_left (map_row m location_id_col) (seq 0 (length (rows df))) df.

(** The address of a row is replaced from the first Location ID of the
    row that the catalog knows. *)
Definition first_matched_cloud_id (m : gmap string MapEntry) (df : DataFrame) (idx : nat)
    (location_id_columns : list string) : option string :=
  e_cloud_id <$>
    head
      (omap
         (fun col =>
            let loc_id := at_get df idx col in
            if has_value loc_id then m !! clean_id loc_id else None)
         location_id_columns).

Definition replace_row_address (m : gmap string MapEntry)
    (api_locations_df : list CatalogLocationRecord) (location_id_columns : list string)
    (df : DataFrame) (idx : nat) : DataFrame :=
  match first_matched_cloud_id m df idx location_id_columns with
  | Some matched_cloud_id =>
      if negb (Py.is_empty matched_cloud_id)
      then replace_address_values_from_matched_location df api_locations_df idx
             (Str matched_cloud_id)
      else df
  | None => df
  end.

(** The block under [else], up to the renaming of the Location ID
    columns. [location_id_columns] is the list taken from the sheet as it
    was read. *)
Definition case1_block (location_id_columns : list string) (locations_df : DataFrame)
    (api_locations_df : list CatalogLocationRecord) : DataFrame :=
  let m := location_id_map api_locations_df in
  let df := fold_left (map_column m) location_id_columns locations_df in
  fold_left (replace_row_address m api_locations_df location_id_columns)
    (seq 0 (length (rows df))) df.

(** *** The matching pass *)

Section MatchingPass.

Variable ratio : string -> string -> Q.

(** [add_location_cloud_ids_to_locations_input] from the sheet as read to
    the frame handed to the renaming and reordering of columns, which
    relabel and permute columns and write no cell. The result carries the
    case labels the function announces, in order. The catalog record type
    has the columns whose absence the function tests for. *)
Definition matching_pass (locations_df : DataFrame)
    (api_locations_df : list CatalogLocationRecord) : list Case * DataFrame :=
  let location_id_columns := location_id_columns_of locations_df in
  if negb (nonempty location_id_columns) then ([], locations_df)
  else
    let needs_fuzzy := needs_fuzzy_matching locations_df in
    let '(log, df, needs_fuzzy) :=
      if only_state_mapped locations_df
      then ([Case2], case2_block locations_df api_locations_df, false)
      else ([], locations_df, needs_fuzzy) in
    if needs_fuzzy
    then
      (log ++ [if only_address_line1_mapped df then Case4 else Case3],
       fuzzy_block ratio df api_locations_df)
    else
      (log ++ [Case1], case1_block location_id_columns df api_locations_df).

End MatchingPass.

(** The numbers of the slots of a row that hold an external id: the
    Location Cloud ID columns with a value in the row, read as the
    backfiller reads them. *)
Definition slot_number (col : string) : option nat :=
  if bool_decide (col = "Location Cloud ID") then Some 1
  else if Py.isdigit (number_str col) then Some (Py.int (number_str col))
       else None.

(** What a column adds to [max_number_for_row]: its number when the row
    has a value in it. *)
Definition slot_value (df : DataFrame) (idx : nat) (col : string) : option nat :=
  if has_value (at_get df idx col) then slot_number col else None.

Definition populated_slots (df : DataFrame) (idx : nat) : list nat :=
  omap slot_number
    (List.filter
       (fun col => Py.startswith "Location Cloud ID" col && has_value (at_get df idx col))
       (columns df)).

(** ** Reading the claims *)

(** The external ids of the catalog, in catalog order: as the records
    hold them, and as the state-only matcher and the backfiller clean
    them. *)
Definition external_ids (api_locations_df : list CatalogLocationRecord) : list string :=
  omap (fun r => if notna (location_id r) then Some (str (location_id r)) else None)
    api_locations_df.

Definition cleaned_external_ids (api_locations_df : list CatalogLocationRecord) : list string :=
  omap (fun r => if notna (location_id r) then Some (clean_id (location_id r)) else None)
    api_locations_df.

(** What one of the steps 3 to 5 did to the candidate list. *)
Definition narrowed (ratio : string -> string -> Q) (value_norm : string)
    (field : CatalogLocationRecord -> cell)
    (before after : list CatalogLocationRecord) : Prop :=
  let filtered := List.filter (component_test ratio value_norm field) before in
  (value_norm ≠ ""%string /\ filtered ≠ [] /\ after = filtered)
  \/ ((value_norm = ""%string \/ filtered = []) /\ after = before).

(** The state-only matcher: one entry per state of the list that the
    catalog knows with an id, in the order of the list. *)
Definition first_of_state (api_locations_df : list CatalogLocationRecord)
    (state_item : string) : option MatchTuple :=
  let state_item_norm := normalize_string (Str state_item) in
  if Py.is_empty state_item_norm then None
  else
    match List.filter
            (fun r => bool_decide
               (normalize_string (Str (Py.strip (str (state r)))) = state_item_norm))
            api_locations_df with
    | first_match :: _ => state_match_info first_match
    | [] => None
    end.

(** The tests a record passes when no step of the matcher can drop it for
    the row: the concatenated test when the row has Address Line 1 only;
    otherwise the tests on both address lines and, for each of city, state
    and zip the row has a value for, the test on that component. *)
Definition passes_every_test (ratio : string -> string -> Q)
    (locations_row : gmap string cell) (r : CatalogLocationRecord) : bool :=
  let addr_line1_norm := normalize_string (get locations_row "Address Line 1") in
  let addr_line2_norm := normalize_string (get locations_row "Address Line 2") in
  let city_norm := normalize_string (get locations_row "City") in
  let state_norm := normalize_string (get locations_row "State") in
  let zip_norm := normalize_string (get locations_row "ZIP") in
  if Py.is_empty addr_line2_norm && Py.is_empty city_norm
     && Py.is_empty state_norm && Py.is_empty zip_norm
  then concat_test ratio addr_line1_norm r
  else line1_test ratio addr_line1_norm r
       && line2_test ratio addr_line2_norm r
       && (Py.is_empty city_norm || component_test ratio city_norm city r)
       && (Py.is_empty state_norm || component_test ratio state_norm state r)
       && (Py.is_empty zip_norm || component_test ratio zip_norm zip r).

(** A sheet from its labels and the cells of its rows. *)
Definition sheet (labels : list string) (cells : list (list cell)) : DataFrame :=
  {| columns := labels;
     rows := (fun r => list_to_map (combine labels r)) <$> cells |}.

(** Scenario A. The fields the scenario leaves open are arguments. *)
Definition scenario_A_row : gmap string cell :=
  list_to_map
    [("Address Line 1", Str "165 Broadway, 23rd floor"); ("Address Line 2", Str "");
     ("City", Str ""); ("State", Str ""); ("ZIP", Str ""); ("Practice ID", Str "555")]%string.

Definition scenario_A_row_with_zip : gmap string cell :=
  <["Address Line 1"%string := Str "165 Broadway, 23rd floor, 10006"]> scenario_A_row.

Definition scenario_A_record (monolith_id location_type practice_cloud_id : cell)
    : CatalogLocationRecord :=
  {| location_id := Str "loc_1"; monolith_location_id := monolith_id;
     address_1 := Str "165 Broadway"; address_2 := Str "23rd Floor";
     city := Str "New York"; state := Str "NY"; zip := Str "10006";
     Location_Type := location_type; Practice_Monolith_ID := Str "555";
     Practice_Cloud_ID := practice_cloud_id |}.

(** A catalog in which two records of the practice at 165 Broadway have
    the same external id. *)
Definition shared_id_catalog : list CatalogLocationRecord :=
  [scenario_A_record (Str "9001") (Str "In Person") (Str "pt_1");
   scenario_A_record (Str "9002") (Str "Virtual") (Str "pt_1")].

(** Scenario B. *)
Definition scenario_B_row : gmap string cell :=
  list_to_map
    [("Address Line 1", Str "4 Century Dr"); ("Address Line 2", Str "");
     ("City", Str "Parsippany"); ("State", Str "NJ"); ("ZIP", Str "07054")]%string.

Definition scenario_B_record (external_id monolith_id location_type practice_id
    practice_cloud_id : cell) : CatalogLocationRecord :=
  {| location_id := external_id; monolith_location_id := monolith_id;
     address_1 := Str "4 Century Dr"; address_2 := Str "Ste 100";
     city := Str "Parsippany"; state := Str "NJ"; zip := Str "07054";
     Location_Type := location_type; Practice_Monolith_ID := practice_id;
     Practice_Cloud_ID := practice_cloud_id |}.

(** A catalog of Texas: an office and the sentinel of the state. *)
Definition texas_office : CatalogLocationRecord :=
  {| location_id := Str "loc_b"; monolith_location_id := Str "9002";
     address_1 := Str "1 Main St"; address_2 := NaN;
     city := Str "Austin"; state := Str "TX"; zip := Str "73301";
     Location_Type := Str "In Person"; Practice_Monolith_ID := Str "555";
     Practice_Cloud_ID := Str "pt_1" |}.

Definition texas_sentinel (external_id : string) : CatalogLocationRecord :=
  {| location_id := Str external_id; monolith_location_id := Str "77";
     address_1 := Str "--"; address_2 := NaN;
     city := NaN; state := Str "TX"; zip := NaN;
     Location_Type := Str "Virtual"; Practice_Monolith_ID := Str "555";
     Practice_Cloud_ID := Str "pt_1" |}.

(** A sheet without rows, and a sheet of five rows of which one has a
    Location ID and nothing else. *)
Definition zero_row_sheet : DataFrame :=
  sheet ["Address Line 1"; "State"; "Location ID 1"]%string [].

Definition sparse_id_sheet : DataFrame :=
  sheet ["Address Line 1"; "State"; "Location ID 1"]%string
    [[NaN; NaN; Str "9002"]; [NaN; NaN; NaN]; [NaN; NaN; NaN];
     [NaN; NaN; NaN]; [NaN; NaN; NaN]].

(** A sheet of one row whose second Location ID is set and whose first
    is not. *)
Definition second_id_only_sheet : DataFrame :=
  sheet ["State"; "Location Type"; "Location ID 1"; "Location ID 2"]%string
    [[Str "TX"; Str "Both"; NaN; Str "9002"]].

(** A sheet of one matched row, classified Both, in Texas. *)
Definition matched_texas_sheet : DataFrame :=
  sheet ["State"; "Location Type"; "Location ID 1"; "Location Cloud ID 1"]%string
    [[Str "TX"; Str "Both"; Str "9002"; Str "loc_b"]].

(** A state-only sheet of five rows; the first row also carries a
    Location ID. *)
Definition state_only_sheet : DataFrame :=
  sheet ["State"; "Location ID 1"; "Location Type"]%string
    [[Str "TX"; Str "9002"; Str "Both"]; [Str "TX"; NaN; Str "In Person"];
     [Str "TX"; NaN; Str "In Person"]; [Str "TX"; NaN; Str "In Person"];
     [Str "TX"; NaN; Str "In Person"]].

(** The same sheet with the Location ID column not numbered. *)
Definition state_only_sheet_unnumbered : DataFrame :=
  sheet ["State"; "Location ID"; "Location Type"]%string
    [[Str "TX"; Str "9002"; Str "Both"]; [Str "TX"; NaN; Str "In Person"];
     [Str "TX"; NaN; Str "In Person"]; [Str "TX"; NaN; Str "In Person"];
     [Str "TX"; NaN; Str "In Person"]].

(** The labels [replace_address_values_from_matched_location] writes to. *)
Definition address_labels : list string :=
  ["Address Line 1"; "Address Line 2"; "City"; "State"; "ZIP"]%string.

(** A step of the backfiller that works on another row leaves row [i]
    alone: the row keeps its cells in the columns there were, and is not
    given a value in a column that is new. *)
Definition row_preserved (i : nat) (d d' : DataFrame) : Prop :=
  length (rows d') = length (rows d)
  /\ (forall col, col ∈ columns d ->
        col ∈ columns d' /\ at_get d' i col = at_get d i col)
  /\ (forall col, col ∈ columns d' -> col ∉ columns d ->
        has_value (at_get d' i col) = false)
  /\ (NoDup (columns d) -> NoDup (columns d')).

(** The classification and the state of every row stay as they are. *)
Definition keeps_classification (d d' : DataFrame) : Prop :=
  forall i,
    at_get d' i "Location Type" = at_get d i "Location Type"
    /\ at_get d' i "State" = at_get d i "State".

(** The external ids of the catalog are not changed by a second cleanup:
    what is left after trimming and after removing one ".0" from the end
    has no white space at its ends and no further ".0" at its end. *)
Definition ids_stable (api_locations_df : list CatalogLocationRecord) : Prop :=
  forall r, r ∈ api_locations_df -> notna (location_id r) = true ->
    clean_id (Str (clean_id (location_id r))) = clean_id (location_id r).

(** ** The classification of a row from its raw location type *)

(** [a in b] on two texts: [a] occurs in [b]. *)
Fixpoint contains (a b : string) : bool :=
  String.prefix a b
  || match b with
     | EmptyString => false
     | String _ b' => contains a b'
     end.

(** The characters that [re.sub(r'[^a-z0-9\s]', '', s)] keeps. *)
Definition is_plain (c : ascii) : bool :=
  let n := nat_of_ascii c in
  ((97 <=? n) && (n <=? 122)) || Py.is_digit c || Py.is_space c.

(** [re.sub(r'\s+', ' ', s)]: every maximal run of white space becomes one
    space. [in_run] says that the character before was white space. *)
Fixpoint collapse_spaces (l : list ascii) (in_run : bool) : list ascii :=
  match l with
  | [] => []
  | c :: l' =>
      if Py.is_space c
      then if in_run then collapse_spaces l' true else " "%char :: collapse_spaces l' true
      else c :: collapse_spaces l' false
  end.

(** [normalize_string_for_matching(text)]. *)
Definition normalize_string_for_matching (text : cell) : string :=
  match text with
  | NaN => ""
  | Str s =>
      if Py.is_empty s then ""
      else
        let text_str := Py.strip (Py.lower s) in
        let text_str := Py.text (List.filter is_plain (Py.chars text_str)) in
        let text_str := Py.text (collapse_spaces (Py.chars text_str) false) in
        Py.strip text_str
  end.

Definition in_person_phrases : list string :=
  ["in person"; "in office"; "inperson"; "inoffice"]%string.

Definition virtual_keywords : list string :=
  ["vv"; "virtual"; "telehealth"; "video"; "online"]%string.

Definition virtual_patterns : list string :=
  ["vv"; "virtual visit"; "virtual"; "telehealth"; "video visit"; "video"; "online"]%string.

Definition both_patterns : list string :=
  ["in person/vv"; "in office and video"; "both"; "in person and virtual";
   "in office and virtual"]%string.

(** [any(keyword in normalized_input for keyword in keywords)]. *)
Definition any_in (keywords : list string) (normalized_input : string) : bool :=
  existsb (fun keyword => contains keyword normalized_input) keywords.

(** The text the classifier works on, [normalized_input]. *)
Definition normalized_input_of (location_type_raw_value : cell) : string :=
  normalize_string_for_matching (Str (Py.strip (str location_type_raw_value))).

Section Classifier.

Variable ratio : string -> string -> Q.

(** The tests of the loop over the virtual patterns. When the classifier
    is called the name [fuzzy_match_score] is bound to the second
    definition of the module, which returns a truth value; [True >= 0.7]
    holds and [False >= 0.7] does not. *)
Definition virtual_pattern_matches (normalized_input pattern : string) : bool :=
  let pattern_norm := normalize_string_for_matching (Str pattern) in
  bool_decide (pattern_norm = normalized_input)
  || (contains pattern_norm normalized_input || contains normalized_input pattern_norm)
  || fuzzy_match_score ratio (Str normalized_input) (Str pattern_norm) (7 # 10).

(** The tests of the loop over the explicit patterns for Both. *)
Definition both_pattern_matches (normalized_input pattern : string) : bool :=
  let pattern_norm := normalize_string_for_matching (Str pattern) in
  (contains pattern_norm normalized_input || contains normalized_input pattern_norm)
  || (negb (bool_decide (pattern_norm = "in person"%string))
      && fuzzy_match_score ratio (Str normalized_input) (Str pattern_norm) (7 # 10)).

(** [determine_location_type(location_type_raw_value)]. *)
Definition determine_location_type (location_type_raw_value : cell) : string :=
  if isna location_type_raw_value || bool_decide (location_type_raw_value = Str "")
  then "In Person"
  else
    let location_type_raw_str := Py.strip (str location_type_raw_value) in
    let normalized_input := normalize_string_for_matching (Str location_type_raw_str) in
    if bool_decide (normalized_input ∈ in_person_phrases) then "In Person"
    else if (contains "in person" normalized_input || contains "in office" normalized_input)
            && negb (any_in virtual_keywords normalized_input)
    then "In Person"
    else if existsb (virtual_pattern_matches normalized_input) virtual_patterns
    then "Virtual"
    else
      let has_in_person_phrase := any_in in_person_phrases normalized_input in
      let has_virtual_keyword := any_in virtual_keywords normalized_input in
      if has_in_person_phrase && has_virtual_keyword then "Both"
      else if existsb (both_pattern_matches normalized_input) both_patterns then "Both"
      else if existsb
                (fun keyword =>
                   contains (normalize_string_for_matching (Str keyword)) normalized_input)
                in_person_phrases
      then "In Person"
      else "In Person".

End Classifier.

(** ** The lookup of the sentinel of a state *)

(** [find_virtual_location_by_state(state_value, api_locations_df)]. The
    dictionary it returns has the five entries of the dictionary of the
    state-only matcher, cleaned the same way. The catalog record type
    carries the two columns whose absence the function tests for. *)
Definition find_virtual_location_by_state (state_value : cell)
    (api_locations_df : list CatalogLocationRecord) : option MatchTuple :=
  if isna state_value || Py.is_empty (Py.strip (str state_value)) then None else
  let state_str := Py.strip (str state_value) in
  let state_norm := normalize_string (Str state_str) in
  if Py.is_empty state_norm then None else
  let virtual_locations :=
    List.filter
      (fun r =>
         bool_decide (Py.strip (str (address_1 r)) = "--")
         && bool_decide (normalize_string (Str (Py.strip (str (state r)))) = state_norm))
      api_locations_df in
  match virtual_locations with
  | [] => None
  | virtual_location :: _ => state_match_info virtual_location
  end.

(** ** The order of the columns *)

(** The labels that lead the sheet. *)
Definition base_columns : list string :=
  ["NPI Number"; "First Name"; "Last Name"; "Address Line 1"; "Address Line 2";
   "City"; "State"; "ZIP"; "Practice ID"]%string.

(** The identifier columns:
    [col.startswith('Location Monolith ID') or col.startswith('Location ID')]. *)
Definition is_location_id_col (col : string) : bool :=
  Py.startswith "Location Monolith ID" col || Py.startswith "Location ID" col.

(** Their sort key: [int(x.split()[-1]) if x.split()[-1].isdigit() else 999].
    The labels it is applied to start with "Location", so they have a last
    word. *)
Definition location_id_sort_key (x : string) : nat :=
  let w := default ""%string (last (Py.split x)) in
  if Py.isdigit w then Py.int w else 999.

(** [if col not in column_order: column_order.append(col)]. *)
Definition append_new (column_order : list string) (col : string) : list string :=
  if bool_decide (col ∈ column_order) then column_order else column_order ++ [col].

(** [if col in locations_df.columns and col not in column_order:
    column_order.append(col)]. *)
Definition append_existing (cols column_order : list string) (col : string) : list string :=
  if bool_decide (col ∈ cols) && negb (bool_decide (col ∈ column_order))
  then column_order ++ [col] else column_order.

(** [f'{label} {number}' if number else label]. *)
Definition slot_label (label number : string) : string :=
  if negb (Py.is_empty number) then label +:+ " " +:+ number else label.

(** One turn of the loop over the sorted identifier columns. *)
Definition order_slot (cols column_order : list string) (location_id_col : string)
    : list string :=
  let number :=
    if bool_decide (location_id_col = "Location ID"%string)
       || bool_decide (location_id_col = "Location Monolith ID"%string)
    then ""%string
    else if Py.startswith "Location Monolith ID" location_id_col
         then Py.strip (Py.remove_all "Location Monolith ID" location_id_col)
         else Py.strip (Py.remove_all "Location ID" location_id_col) in
  let column_order := append_new column_order location_id_col in
  let column_order :=
    append_existing cols column_order (slot_label "Location Cloud ID" number) in
  let column_order :=
    append_existing cols column_order (slot_label "Practice Cloud ID" number) in
  append_existing cols column_order (slot_label "Location Type" number).

(** The list [column_order] that the sheet is re-indexed by after the
    matching, from the labels of the sheet. The function builds it twice
    in a row, the second time as [final_column_order], with the same
    statements. *)
Definition column_order (cols : list string) : list string :=
  let location_id_cols := List.filter is_location_id_col cols in
  let location_id_cols_sorted := sorted_by location_id_sort_key location_id_cols in
  let column_order := List.filter (fun base_col => bool_decide (base_col ∈ cols)) base_columns in
  let column_order := fold_left (order_slot cols) location_id_cols_sorted column_order in
  fold_left append_new cols column_order.

(** ** Reading the code *)

(** The text the similarity ratio is taken of: the normal form without
    its digits. *)
Definition text_without_numbers (s : cell) : string :=
  Py.join " " (Py.split (Py.strip (Py.sub_digits (normalize_string s)))).

(** A word: not empty, and without white space. *)
Definition is_word (w : string) : Prop :=
  Py.chars w ≠ [] /\ forallb (fun c => negb (Py.is_space c)) (Py.chars w) = true.

(** The records of the practice of a row, as a test on one record. *)
Definition belongs_to_practice (practice_id_str practice_cloud_id_str : option string)
    (r : CatalogLocationRecord) : bool :=
  match practice_id_str, practice_cloud_id_str with
  | Some p, Some c => has_practice_monolith_id p r || has_practice_cloud_id c r
  | Some p, None => has_practice_monolith_id p r
  | None, Some c => has_practice_cloud_id c r
  | None, None => true
  end.

(** The address tests a record has to pass for a row, by the branch the
    row takes. *)
Definition passes_address_tests (ratio : string -> string -> Q)
    (locations_row : gmap string cell) (r : CatalogLocationRecord) : bool :=
  let addr_line1_norm := normalize_string (get locations_row "Address Line 1") in
  let addr_line2_norm := normalize_string (get locations_row "Address Line 2") in
  if Py.is_empty addr_line2_norm
     && Py.is_empty (normalize_string (get locations_row "City"))
     && Py.is_empty (normalize_string (get locations_row "State"))
     && Py.is_empty (normalize_string (get locations_row "ZIP"))
  then concat_test ratio addr_line1_norm r
  else line1_test ratio addr_line1_norm r && line2_test ratio addr_line2_norm r.

(** The rows of a sheet have cells under the labels of the sheet only. *)
Definition well_formed (df : DataFrame) : Prop :=
  forall row col, row ∈ rows df -> col ∉ columns df -> row !! col = None.

(** The sheet the fuzzy block matches: without the unnumbered columns
    Location ID and Location Cloud ID. *)
Definition fuzzy_input (locations_df : DataFrame) : DataFrame :=
  let df := if has_column locations_df "Location ID"
            then drop_column locations_df "Location ID" else locations_df in
  if has_column df "Location Cloud ID" then drop_column df "Location Cloud ID" else df.

(** The labels of a slot and what a match puts under them. *)
Definition slot_cells (m : MatchTuple) : list (string * string) :=
  [("Location ID", m_monolith_id m); ("Location Cloud ID", m_cloud_id m);
   ("Location Type", m_location_type m);
   ("Practice Monolith ID", m_practice_monolith_id m);
   ("Practice Cloud ID", m_practice_cloud_id m)]%string.

Definition slot_labels : list string :=
  ["Location ID"; "Location Cloud ID"; "Location Type"; "Practice Monolith ID";
   "Practice Cloud ID"]%string.

(** A step on another row keeps the cells of row [i] in the columns
    there are. *)
Definition cells_kept (i : nat) (d d' : DataFrame) : Prop :=
  length (rows d') = length (rows d)
  /\ forall col, col ∈ columns d -> col ∈ columns d' /\ at_get d' i col = at_get d i col.

(** The key under which a record of the catalog is offered to the
    dictionaries of the direct mapping, when it is offered at all. *)
Definition monolith_key (row : CatalogLocationRecord) : option string :=
  let monolith_id := if notna (monolith_location_id row)
                     then Py.strip (str (monolith_location_id row)) else ""%string in
  if negb (Py.is_empty monolith_id) && notna (location_id row) && truthy (location_id row)
  then Some (Py.sub_dot0 monolith_id) else None.

(** What the dictionaries hold for the record that is kept. *)
Definition entry_of (row : CatalogLocationRecord) : MapEntry :=
  {| e_cloud_id := str (location_id row);
     e_practice_monolith_id :=
       if notna (Practice_Monolith_ID row)
          && negb (bool_decide (Practice_Monolith_ID row = Str ""))
       then Py.strip (str (Practice_Monolith_ID row)) else "";
     e_practice_cloud_id :=
       if notna (Practice_Cloud_ID row)
          && negb (bool_decide (Practice_Cloud_ID row = Str ""))
       then Py.strip (str (Practice_Cloud_ID row)) else "";
     e_location_type :=
       if notna (Location_Type row) then Py.strip (str (Location_Type row)) else "" |}.

(** The labels written for a Location ID column, and a cell that none of
    the four writes of the turn of Location ID [n] is aimed at. *)
Definition companion_labels : list string :=
  ["Location Cloud ID"; "Practice Cloud ID"; "Practice Monolith ID"; "Location Type"]%string.

Definition untouched_by (n : nat) (c : string) : Prop :=
  forall label, label ∈ companion_labels -> c ≠ numbered label n.

(** The first record of the catalog with the external id
    [location_cloud_id], compared after the cleanup. *)
Definition first_with_id (api_locations_df : list CatalogLocationRecord)
    (location_cloud_id : cell) : option CatalogLocationRecord :=
  head (List.filter
          (fun r => bool_decide (clean_id (location_id r) = clean_id location_cloud_id))
          api_locations_df).

(** The backfiller reaches its loop: the sheet has the columns Location
    Type and State and a Location Cloud ID column. *)
Definition backfill_applies (df : DataFrame) : bool :=
  has_column df "Location Type" && has_column df "State"
  && nonempty (List.filter (Py.startswith "Location Cloud ID") (columns df)).

(** The turn of a row in the loop of the backfiller does nothing: the row
    does not qualify, or it has the id of its sentinel. *)
Definition backfill_skips (api_locations_df : list CatalogLocationRecord)
    (df : DataFrame) (idx : nat) : bool :=
  match virtual_location_for_row api_locations_df df idx with
  | None => true
  | Some virtual_location =>
      virtual_already_exists df idx (clean_id (location_id virtual_location))
  end.

(** An order of columns under construction: without repeats, and of
    labels of the sheet. *)
Definition partial_order (cols order : list string) : Prop :=
  NoDup order /\ forall c, c ∈ order -> c ∈ cols.

(** A list in the order of its keys. *)
Fixpoint sorted_keys {A} (key : A -> nat) (l : list A) : Prop :=
  match l with
  | [] => True
  | x :: l' =>
      match l' with
      | [] => True
      | y :: _ => key x <= key y
      end /\ sorted_keys key l'
  end.

(** A two-row sheet of Texas: a matched row classified Both and a matched
    row classified In Person. *)
Definition two_row_texas_sheet : DataFrame :=
  sheet ["State"; "Location Type"; "Location ID 1"; "Location Cloud ID 1"]%string
    [[Str "TX"; Str "Both"; Str "9002"; Str "loc_b"];
     [Str "TX"; Str "In Person"; Str "9002"; Str "loc_b"]].

(** A sheet of one row with an address of its own. *)
Definition addressed_sheet : DataFrame :=
  sheet ["Address Line 1"; "City"; "State"; "ZIP"; "Location Cloud ID 1"]%string
    [[Str "1 Main Street"; Str "Houston"; Str "TX"; Str "77001"; Str "virt_tx"]].

(** A record of Massachusetts whose ZIP has lost its leading zero. *)
Definition short_zip_record : CatalogLocationRecord :=
  {| location_id := Str "loc_ma"; monolith_location_id := Str "12";
     address_1 := Str "9 Elm St"; address_2 := NaN;
     city := Str "Boston"; state := Str "MA"; zip := Str "2110";
     Location_Type := Str "In Person"; Practice_Monolith_ID := Str "555";
     Practice_Cloud_ID := Str "pt_1" |}.

(** A sheet with nothing but Address Line 1 and the practice, and the
    record of its office. *)
Definition line1_only_row : list cell :=
  [Str "165 Broadway, 23rd floor, 10006"; Str "555"].

Definition line1_only_sheet : DataFrame :=
  sheet ["Address Line 1"; "Practice ID"]%string [line1_only_row].

Definition broadway_office : CatalogLocationRecord :=
  scenario_A_record (Str "777") (Str "In Person") (Str "pt_1").

(** * Properties *)

Section ScorerProperties.

Variable ratio : string -> string -> Q.

(** C2. Numeric-token invariant: when both texts carry digit runs and the
    two sequences of runs, read off the texts as given, differ, the scorer
    answers false at every threshold. *)
Theorem numeric_invariant (a b : cell) (t : Q) :
  extract_numbers a ≠ [] ->
  extract_numbers b ≠ [] ->
  extract_numbers a ≠ extract_numbers b ->
  fuzzy_match_score ratio a b t = false.
Proof.
  intros Ha Hb Hab. unfold fuzzy_match_score.
  destruct (Py.is_empty (normalize_string a) || Py.is_empty (normalize_string b));
    [reflexivity|].
  destruct (extract_numbers a) as [|x xs]; [congruence|].
  destruct (extract_numbers b) as [|y ys]; [congruence|].
  simpl. rewrite bool_decide_eq_true_2 by assumption. reflexivity.
Qed.

(** C10. Threshold monotonicity: a pair accepted at a threshold is
    accepted at every lower one. *)
Theorem threshold_monotone (a b : cell) (t t' : Q) :
  Qle t' t ->
  fuzzy_match_score ratio a b t = true ->
  fuzzy_match_score ratio a b t' = true.
Proof.
  intros Hle. unfold fuzzy_match_score.
  repeat match goal with
         | |- context [if ?c then _ else _] => destruct c; try (intros; assumption)
         end.
  rewrite !Qle_bool_iff. intros H. eapply Qle_trans; eassumption.
Qed.

End ScorerProperties.

(** ** The loops of the matcher as filters *)

Lemma fold_collect {A} (p : A -> bool) (l acc : list A) :
  fold_left (fun acc x => if p x then acc ++ [x] else acc) l acc = acc ++ List.filter p l.
Proof.
  revert acc. induction l as [|x l IH]; intros acc; simpl.
  - by rewrite app_nil_r.
  - rewrite IH. destruct (p x); [|done]. by rewrite <- app_assoc.
Qed.

Lemma collect_filter {A} (p : A -> bool) (l : list A) : collect p l = List.filter p l.
Proof. unfold collect. by rewrite fold_collect. Qed.

Lemma extract_result_omap (matches : list CatalogLocationRecord) :
  extract_result matches = omap result_tuple matches.
Proof.
  unfold extract_result.
  enough (H : forall acc,
             fold_left (fun result r =>
                          match result_tuple r with
                          | Some t => result ++ [t]
                          | None => result
                          end) matches acc = acc ++ omap result_tuple matches)
    by apply (H []).
  induction matches as [|r l IH]; intros acc; simpl.
  - by rewrite app_nil_r.
  - rewrite IH. destruct (result_tuple r); [|done]. by rewrite <- app_assoc.
Qed.

Lemma filter_sublist_of {A} (p : A -> bool) (l : list A) : List.filter p l `sublist_of` l.
Proof.
  induction l as [|x l IH]; simpl; [constructor|].
  destruct (p x); by constructor.
Qed.

Lemma filter_filter_and {A} (p q : A -> bool) (l : list A) :
  List.filter p (List.filter q l) = List.filter (fun x => p x && q x) l.
Proof.
  induction l as [|x l IH]; [done|]. simpl.
  destruct (q x); simpl; [|by rewrite andb_false_r].
  rewrite andb_true_r. destruct (p x); by rewrite IH.
Qed.

Lemma filter_sublist_mono {A} (p : A -> bool) (l1 l2 : list A) :
  l1 `sublist_of` l2 -> List.filter p l1 `sublist_of` List.filter p l2.
Proof.
  induction 1 as [|x l1 l2 _ IH|x l1 l2 _ IH]; simpl.
  - constructor.
  - destruct (p x); [by constructor|done].
  - destruct (p x); [by constructor|done].
Qed.

Lemma filter_nonempty_inv {A} (p : A -> bool) (l : list A) :
  List.filter p l ≠ [] -> l ≠ [].
Proof. by destruct l. Qed.

Lemma nonempty_true {A} (l : list A) : nonempty l = true <-> l ≠ [].
Proof. by destruct l. Qed.

Lemma nonempty_false {A} (l : list A) : nonempty l = false <-> l = [].
Proof. by destruct l. Qed.

Lemma is_empty_true (s : string) : Py.is_empty s = true <-> s = ""%string.
Proof. unfold Py.is_empty. apply bool_decide_eq_true. Qed.

Lemma is_empty_false (s : string) : Py.is_empty s = false <-> s ≠ ""%string.
Proof. unfold Py.is_empty. apply bool_decide_eq_false. Qed.

Section MatcherProperties.

Variable ratio : string -> string -> Q.

(** The loop of step 2, from any state of [filtered_matches]: once the
    body has run, [matches] names the list that is being appended to. *)
Lemma line2_loop_from (addr_line2_norm : string) (l acc : list CatalogLocationRecord)
    (b : Binding) :
  fold_left
    (fun '(filtered_matches, _) r =>
       ((if line2_test ratio addr_line2_norm r
         then filtered_matches ++ [r] else filtered_matches),
        FilteredList))
    l (acc, b)
  = (acc ++ List.filter (line2_test ratio addr_line2_norm) l,
     match l with [] => b | _ => FilteredList end).
Proof.
  revert acc b. induction l as [|r l IH]; intros acc b; simpl.
  - by rewrite app_nil_r.
  - rewrite IH. destruct (line2_test ratio addr_line2_norm r).
    + rewrite <- app_assoc. by destruct l.
    + by destruct l.
Qed.

Lemma line2_stage_filter (addr_line2_norm : string) (matches : list CatalogLocationRecord) :
  line2_stage ratio addr_line2_norm matches
  = List.filter (line2_test ratio addr_line2_norm) matches.
Proof.
  unfold line2_stage, line2_loop. rewrite line2_loop_from.
  by destruct matches.
Qed.

Lemma narrow_stage_cases (value_norm : string) (field : CatalogLocationRecord -> cell)
    (matches : list CatalogLocationRecord) :
  let filtered := List.filter (component_test ratio value_norm field) matches in
  (value_norm ≠ ""%string /\ filtered ≠ [] /\
   narrow_stage ratio value_norm field matches = filtered)
  \/ ((value_norm = ""%string \/ filtered = []) /\
      narrow_stage ratio value_norm field matches = matches).
Proof.
  unfold narrow_stage. rewrite collect_filter. simpl.
  destruct (Py.is_empty value_norm) eqn:He; simpl.
  - right. apply is_empty_true in He. auto.
  - apply is_empty_false in He.
    destruct (List.filter (component_test ratio value_norm field) matches) eqn:Hf; simpl.
    + right. auto.
    + left. auto.
Qed.

Lemma narrow_stage_nonempty (value_norm : string) (field : CatalogLocationRecord -> cell)
    (matches : list CatalogLocationRecord) :
  matches ≠ [] -> narrow_stage ratio value_norm field matches ≠ [].
Proof.
  intros Hne.
  destruct (narrow_stage_cases value_norm field matches) as [(_ & Hf & ->)|(_ & ->)]; done.
Qed.

Lemma narrow_stage_sublist (value_norm : string) (field : CatalogLocationRecord -> cell)
    (matches : list CatalogLocationRecord) :
  narrow_stage ratio value_norm field matches `sublist_of` matches.
Proof.
  destruct (narrow_stage_cases value_norm field matches) as [(_ & _ & ->)|(_ & ->)].
  - apply filter_sublist_of.
  - done.
Qed.

Lemma multi_field_candidates_sublist
    (addr_line1_norm addr_line2_norm city_norm state_norm zip_norm : string)
    (filtered_df : list CatalogLocationRecord) :
  multi_field_candidates ratio addr_line1_norm addr_line2_norm city_norm state_norm zip_norm
    filtered_df
  `sublist_of`
  List.filter (line2_test ratio addr_line2_norm)
    (List.filter (line1_test ratio addr_line1_norm) filtered_df).
Proof.
  unfold multi_field_candidates. rewrite collect_filter, line2_stage_filter.
  destruct (nonempty (List.filter (line1_test ratio addr_line1_norm) filtered_df)); simpl.
  - etrans; [apply narrow_stage_sublist|].
    etrans; [apply narrow_stage_sublist|]. apply narrow_stage_sublist.
  - apply sublist_nil_l.
Qed.

Lemma filter_by_practice_sublist (api_locations_df : list CatalogLocationRecord)
    (practice_id_str practice_cloud_id_str : option string) :
  filter_by_practice api_locations_df practice_id_str practice_cloud_id_str
  `sublist_of` api_locations_df.
Proof.
  unfold filter_by_practice.
  destruct practice_id_str, practice_cloud_id_str; try apply filter_sublist_of. done.
Qed.

(** The records behind the matches of a row: a sub-sequence of the
    catalog. *)
Lemma match_location_by_address_records (locations_row : gmap string cell)
    (api_locations_df : list CatalogLocationRecord)
    (practice_id practice_cloud_id : option cell) :
  exists survivors,
    survivors `sublist_of` api_locations_df /\
    match_location_by_address ratio locations_row api_locations_df practice_id practice_cloud_id
    = omap result_tuple survivors.
Proof.
  unfold match_location_by_address.
  set (filtered_df := filter_by_practice _ _ _).
  assert (Hsub : filtered_df `sublist_of` api_locations_df)
    by apply filter_by_practice_sublist.
  destruct (nonempty filtered_df); simpl; [|exists []; split; [apply sublist_nil_l|done]].
  destruct (Py.is_empty (normalize_string (get locations_row "Address Line 1")));
    [exists []; split; [apply sublist_nil_l|done]|].
  rewrite extract_result_omap.
  match goal with |- context [if ?c then _ else _] => destruct c end.
  - eexists; split; [|reflexivity].
    rewrite collect_filter. etrans; [apply filter_sublist_of|done].
  - eexists; split; [|reflexivity].
    etrans; [apply multi_field_candidates_sublist|].
    etrans; [apply filter_sublist_of|]. etrans; [apply filter_sublist_of|done].
Qed.

End MatcherProperties.

(** ** The concatenated-address matcher on scenario A *)

(** A row with nothing but Address Line 1 is matched against the
    concatenations of the records of its practice. *)
Lemma match_location_by_address_line1_only (ratio : string -> string -> Q)
    (line : string) (api_locations_df : list CatalogLocationRecord)
    (practice_id practice_cloud_id : option cell) :
  match_location_by_address ratio {["Address Line 1"%string := Str line]}
    api_locations_df practice_id practice_cloud_id
  = if Py.is_empty (normalize_string (Str line)) then []
    else omap result_tuple
           (List.filter (concat_test ratio (normalize_string (Str line)))
              (filter_by_practice api_locations_df
                 (clean_id_arg practice_id) (clean_id_arg practice_cloud_id))).
Proof.
  unfold match_location_by_address, get.
  rewrite lookup_singleton_eq. rewrite !lookup_singleton_ne by done. simpl.
  destruct (filter_by_practice _ _ _) eqn:Hf; simpl.
  - by destruct (Py.is_empty _).
  - destruct (Py.is_empty _); [done|].
    by rewrite extract_result_omap, collect_filter.
Qed.

(** C1, as the code has it. In scenario A the concatenation of the record
    is "165 Broadway 23rd Floor New York NY 10006"; its digit runs are
    165, 23, 10006 and those of the row's line are 165, 23, so the scorer
    rejects the pair whatever the similarity ratio is, and the row has no
    match. With the zip added to the row's line the row has the one match
    loc_1. *)
Theorem scenario_A_amended :
  api_address_combined (scenario_A_record NaN NaN NaN)
  = "165 Broadway 23rd Floor New York NY 10006"%string
  /\ extract_numbers (Str (normalize_string (get scenario_A_row "Address Line 1")))
     = ["165"; "23"]%string
  /\ extract_numbers (Str (normalize_string
                             (Str (api_address_combined (scenario_A_record NaN NaN NaN)))))
     = ["165"; "23"; "10006"]%string
  /\ (forall ratio monolith_id location_type practice_cloud_id,
        row_matches ratio [scenario_A_record monolith_id location_type practice_cloud_id]
          scenario_A_row = [])
  /\ (forall monolith_id location_type practice_cloud_id,
        exists m,
          row_matches difflib.ratio
            [scenario_A_record (Str monolith_id) location_type practice_cloud_id]
            scenario_A_row_with_zip = [m]
          /\ m_cloud_id m = "loc_1"%string).
Proof.
  split; [vm_compute; reflexivity|].
  split; [vm_compute; reflexivity|].
  split; [vm_compute; reflexivity|].
  split.
  - intros ratio monolith_id location_type practice_cloud_id.
    vm_compute. reflexivity.
  - intros monolith_id location_type practice_cloud_id.
    eexists. split; [vm_compute; reflexivity|reflexivity].
Qed.

(** C1 as stated fails: whatever the open fields of the record are, the
    matcher does not return exactly one match with external id loc_1. *)
Lemma scenario_A_counterexample :
  ~ (exists monolith_id location_type practice_cloud_id m,
       row_matches difflib.ratio
         [scenario_A_record monolith_id location_type practice_cloud_id]
         scenario_A_row = [m]
       /\ m_cloud_id m = "loc_1"%string).
Proof.
  intros (monolith_id & location_type & practice_cloud_id & m & H & _).
  vm_compute in H. discriminate H.
Qed.

Section MultiFieldProperties.

Variable ratio : string -> string -> Q.

(** C3. Address Line 2, presence exactness. The assignment
    [matches = filtered_matches] sits inside the loop, and the name
    [matches] then shares the list the loop goes on appending to: after
    the loop the candidates are those of step 1 that pass the test on
    line 2, also when none does. The test asks for an empty line 2 of the
    record when the row's line 2 is empty, and for a non-empty and similar
    (0.7) one otherwise. Every record the multi-field branch returns has
    passed step 1 and this test. In scenario B the record passes the
    tests on line 1, city, state and zip, and the row has no match. *)
Theorem line2_presence_exactness :
  (forall addr_line2_norm matches,
     line2_stage ratio addr_line2_norm matches
     = List.filter (line2_test ratio addr_line2_norm) matches)
  /\ (forall addr_line2_norm r,
        line2_test ratio addr_line2_norm r
        = if Py.is_empty addr_line2_norm
          then Py.is_empty (normalize_string (address_2 r))
          else negb (Py.is_empty (normalize_string (address_2 r)))
               && fuzzy_match_score ratio (Str addr_line2_norm)
                    (Str (normalize_string (address_2 r))) (7 # 10))
  /\ (forall addr_line1_norm addr_line2_norm city_norm state_norm zip_norm filtered_df,
        Forall (fun r => line1_test ratio addr_line1_norm r = true
                         /\ line2_test ratio addr_line2_norm r = true)
          (multi_field_candidates ratio addr_line1_norm addr_line2_norm
             city_norm state_norm zip_norm filtered_df))
  /\ (forall external_id monolith_id location_type practice_id practice_cloud_id,
        let r := scenario_B_record external_id monolith_id location_type
                   practice_id practice_cloud_id in
        line1_test ratio "4 century dr" r = true
        /\ component_test ratio "parsippany" city r = true
        /\ component_test ratio "nj" state r = true
        /\ component_test ratio "07054" zip r = true
        /\ row_matches ratio [r] scenario_B_row = []).
Proof.
  split; [apply line2_stage_filter|].
  split.
  { intros l2 r. unfold line2_test.
    destruct (Py.is_empty l2); [done|]. by destruct (Py.is_empty _). }
  split.
  { intros l1 l2 c s z fdf.
    apply Forall_forall. intros r Hr.
    pose proof (multi_field_candidates_sublist ratio l1 l2 c s z fdf) as Hsub.
    apply sublist_subseteq in Hsub. apply Hsub in Hr.
    apply list_elem_of_In in Hr.
    apply filter_In in Hr as [Hr H2]. apply filter_In in Hr as [_ H1]. done. }
  intros external_id monolith_id location_type practice_id practice_cloud_id.
  repeat split; vm_compute; reflexivity.
Qed.

(** C4. Conditional narrowing. From a non-empty candidate list left by
    step 2, the branch returns the list after the city, the state and the
    zip step, in this order; each step either replaces the list by the
    non-empty list of the candidates that pass its test at 0.8 or leaves
    it as it is (no value in the row, or no candidate passes); the result
    is not empty. *)
Theorem conditional_narrowing
    (addr_line1_norm addr_line2_norm city_norm state_norm zip_norm : string)
    (filtered_df : list CatalogLocationRecord) :
  let after_line2 :=
    List.filter (line2_test ratio addr_line2_norm)
      (List.filter (line1_test ratio addr_line1_norm) filtered_df) in
  after_line2 ≠ [] ->
  let after_city := narrow_stage ratio city_norm city after_line2 in
  let after_state := narrow_stage ratio state_norm state after_city in
  let after_zip := narrow_stage ratio zip_norm zip after_state in
  multi_field_candidates ratio addr_line1_norm addr_line2_norm city_norm state_norm zip_norm
    filtered_df = after_zip
  /\ narrowed ratio city_norm city after_line2 after_city
  /\ narrowed ratio state_norm state after_city after_state
  /\ narrowed ratio zip_norm zip after_state after_zip
  /\ after_city ≠ [] /\ after_state ≠ [] /\ after_zip ≠ [].
Proof.
  intros after_line2 Hne after_city after_state after_zip.
  assert (Hc : after_city ≠ []) by by apply narrow_stage_nonempty.
  assert (Hs : after_state ≠ []) by by apply narrow_stage_nonempty.
  assert (Hz : after_zip ≠ []) by by apply narrow_stage_nonempty.
  split; [|repeat split; try done; apply narrow_stage_cases].
  unfold multi_field_candidates. rewrite collect_filter, line2_stage_filter.
  apply filter_nonempty_inv in Hne. apply nonempty_true in Hne. by rewrite Hne.
Qed.

End MultiFieldProperties.

(** A run of [conditional_narrowing]: the record of scenario B without its
    suite, a city the catalog spells differently. The city step keeps
    the candidate because nothing passes it. *)
Lemma conditional_narrowing_witness :
  let r := {| location_id := Str "loc_2"; monolith_location_id := Str "9002";
              address_1 := Str "4 Century Dr"; address_2 := NaN;
              city := Str "Troy Hills"; state := Str "NJ"; zip := Str "07054";
              Location_Type := Str "In Person"; Practice_Monolith_ID := Str "555";
              Practice_Cloud_ID := Str "pt_1" |} in
  List.filter (line2_test difflib.ratio "")
    (List.filter (line1_test difflib.ratio "4 century dr") [r]) ≠ []
  /\ multi_field_candidates difflib.ratio "4 century dr" "" "parsippany" "nj" "07054" [r]
     = [r].
Proof.
  intros r.
  assert (H : List.filter (line2_test difflib.ratio "")
                (List.filter (line1_test difflib.ratio "4 century dr") [r]) ≠ [])
    by (vm_compute; discriminate).
  split; [exact H|].
  destruct (conditional_narrowing difflib.ratio "4 century dr" "" "parsippany" "nj" "07054"
              [r] H) as [-> _].
  vm_compute. reflexivity.
Defined.

(** ** Order and duplicates of the match list *)

Lemma sublist_omap {A B} (f : A -> option B) (l1 l2 : list A) :
  l1 `sublist_of` l2 -> omap f l1 `sublist_of` omap f l2.
Proof.
  induction 1 as [|x l1 l2 _ IH|x l1 l2 _ IH]; simpl.
  - constructor.
  - destruct (f x); [by constructor|done].
  - destruct (f x); [by constructor|done].
Qed.

Lemma omap_sublist_pointwise {A B} (f g : A -> option B) (l : list A) :
  (forall x y, f x = Some y -> g x = Some y) -> omap f l `sublist_of` omap g l.
Proof.
  intros Hfg. induction l as [|x l IH]; simpl; [constructor|].
  destruct (f x) as [y|] eqn:Hf.
  - rewrite (Hfg _ _ Hf). by constructor.
  - destruct (g x); [by constructor|done].
Qed.

Lemma omap_NoDup_inj {A B} (h : A -> option B) (l : list A) (x y : A) (v : B) :
  NoDup (omap h l) -> x ∈ l -> y ∈ l -> h x = Some v -> h y = Some v -> x = y.
Proof.
  induction l as [|a l IH]; intros Hnd Hx Hy Hhx Hhy; [by apply elem_of_nil in Hx|].
  simpl in Hnd.
  apply elem_of_cons in Hx as [->|Hx]; apply elem_of_cons in Hy as [->|Hy].
  - done.
  - rewrite Hhx in Hnd. apply NoDup_cons in Hnd as [Hnot _].
    exfalso. apply Hnot. apply list_elem_of_omap. eauto.
  - rewrite Hhy in Hnd. apply NoDup_cons in Hnd as [Hnot _].
    exfalso. apply Hnot. apply list_elem_of_omap. eauto.
  - apply IH; try done. destruct (h a); [by apply NoDup_cons in Hnd as [_ ?]|done].
Qed.

Lemma result_tuple_external_id (r : CatalogLocationRecord) (t : MatchTuple) :
  result_tuple r = Some t ->
  (if notna (location_id r) then Some (str (location_id r)) else None)
  = Some (m_cloud_id t).
Proof.
  unfold result_tuple.
  destruct (notna (monolith_location_id r)), (notna (location_id r)); simpl; try done.
  by intros [= <-].
Qed.

Lemma cleaned_external_ids_fmap (api_locations_df : list CatalogLocationRecord) :
  cleaned_external_ids api_locations_df
  = (fun s => Py.sub_dot0 (Py.strip s)) <$> external_ids api_locations_df.
Proof.
  unfold cleaned_external_ids, external_ids.
  induction api_locations_df as [|r l IH]; simpl; [done|].
  destruct (notna (location_id r)); simpl; [f_equal|]; exact IH.
Qed.

(** The external ids of the matches of a row are a sub-sequence of the
    external ids of the catalog. *)
Lemma match_location_by_address_order (ratio : string -> string -> Q)
    (locations_row : gmap string cell) (api_locations_df : list CatalogLocationRecord)
    (practice_id practice_cloud_id : option cell) :
  m_cloud_id <$>
    match_location_by_address ratio locations_row api_locations_df practice_id practice_cloud_id
  `sublist_of` external_ids api_locations_df.
Proof.
  destruct (match_location_by_address_records ratio locations_row api_locations_df
              practice_id practice_cloud_id) as (survivors & Hsub & ->).
  rewrite list_fmap_omap. unfold external_ids.
  etrans; [|apply sublist_omap, Hsub].
  apply omap_sublist_pointwise. intros r id Hr. unfold compose in Hr.
  destruct (result_tuple r) as [t|] eqn:Ht; simpl in Hr; [|done].
  injection Hr as <-. by apply result_tuple_external_id.
Qed.

Lemma fold_left_omap {A B} (F : list B -> A -> list B) (g : A -> option B)
    (l : list A) (acc : list B) :
  (forall acc x, F acc x = acc ++ option_list (g x)) ->
  fold_left F l acc = acc ++ omap g l.
Proof.
  intros HF. revert acc. induction l as [|x l IH]; intros acc; simpl.
  - by rewrite app_nil_r.
  - rewrite IH, HF, <- app_assoc. by destruct (g x).
Qed.

Lemma matches_for_row_omap (states : list string)
    (api_locations_df : list CatalogLocationRecord) :
  matches_for_row states api_locations_df = omap (first_of_state api_locations_df) states.
Proof.
  unfold matches_for_row.
  rewrite (fold_left_omap _ (first_of_state api_locations_df)); [done|].
  intros acc st. unfold first_of_state. cbv beta zeta.
  destruct (Py.is_empty (normalize_string (Str st)));
    [simpl; by rewrite app_nil_r|].
  destruct (List.filter _ api_locations_df) as [|first_match ?];
    [simpl; by rewrite app_nil_r|].
  destruct (state_match_info first_match); simpl; [done|by rewrite app_nil_r].
Qed.

Lemma first_of_state_record (api_locations_df : list CatalogLocationRecord)
    (state_item : string) (info : MatchTuple) :
  first_of_state api_locations_df state_item = Some info ->
  exists r,
    r ∈ api_locations_df
    /\ normalize_string (Str (Py.strip (str (state r)))) = normalize_string (Str state_item)
    /\ (if notna (location_id r) then Some (clean_id (location_id r)) else None)
       = Some (m_cloud_id info).
Proof.
  unfold first_of_state. cbv beta zeta.
  destruct (Py.is_empty (normalize_string (Str state_item))); [done|].
  destruct (List.filter _ api_locations_df) as [|r ?] eqn:Hf; [done|].
  intros Hinfo. exists r.
  assert (Hin : In r (List.filter
                        (fun r => bool_decide
                           (normalize_string (Str (Py.strip (str (state r))))
                            = normalize_string (Str state_item))) api_locations_df))
    by (rewrite Hf; by left).
  apply filter_In in Hin as [Hin Hst]. apply bool_decide_eq_true in Hst.
  split; [by apply list_elem_of_In|]. split; [done|].
  unfold state_match_info in Hinfo.
  destruct (notna (location_id r)); [|done]. by injection Hinfo as <-.
Qed.

Lemma matches_for_row_NoDup (states : list string)
    (api_locations_df : list CatalogLocationRecord) :
  NoDup ((fun s => normalize_string (Str s)) <$> states) ->
  NoDup (cleaned_external_ids api_locations_df) ->
  NoDup (m_cloud_id <$> matches_for_row states api_locations_df).
Proof.
  intros Hstates Hids. rewrite matches_for_row_omap.
  induction states as [|st l IH]; simpl; [constructor|].
  simpl in Hstates. apply NoDup_cons in Hstates as [Hnot Hstates].
  destruct (first_of_state api_locations_df st) as [info|] eqn:Hst; [|by apply IH].
  simpl. apply NoDup_cons. split; [|by apply IH].
  intros Hin. apply Hnot.
  apply list_elem_of_fmap in Hin as (info' & Heq & Hin).
  apply list_elem_of_omap in Hin as (st' & Hst'in & Hst').
  apply first_of_state_record in Hst as (r & Hr & Hrs & Hrid).
  apply first_of_state_record in Hst' as (r' & Hr' & Hrs' & Hrid').
  rewrite <- Heq in Hrid'.
  pose proof (omap_NoDup_inj _ _ _ _ _ Hids Hr Hr' Hrid Hrid') as ->.
  apply list_elem_of_fmap. exists st'. split; [congruence|done].
Qed.

Section MatchListProperties.

Variable ratio : string -> string -> Q.

(** A blank text on the left is similar to nothing. *)
Lemma fuzzy_match_score_blank_left (b : cell) (t : Q) :
  fuzzy_match_score ratio (Str "") b t = false.
Proof. reflexivity. Qed.

(** A narrowing step drops no candidate that passes its test, and none at
    all when the row has no value for the component. *)
Lemma narrow_stage_keeps (value_norm : string) (field : CatalogLocationRecord -> cell)
    (kept matches : list CatalogLocationRecord) :
  kept `sublist_of` matches ->
  List.filter (fun r => Py.is_empty value_norm || component_test ratio value_norm field r) kept
  `sublist_of` narrow_stage ratio value_norm field matches.
Proof.
  intros Hsub.
  destruct (narrow_stage_cases ratio value_norm field matches)
    as [(Hv & _ & ->)|(_ & ->)].
  - apply is_empty_false in Hv.
    rewrite (filter_ext _ (component_test ratio value_norm field))
      by (intros r; by rewrite Hv).
    by apply filter_sublist_mono.
  - etrans; [apply filter_sublist_of|done].
Qed.

(** The multi-field branch as its steps, also when step 1 leaves
    nothing. *)
Lemma multi_field_candidates_steps
    (addr_line1_norm addr_line2_norm city_norm state_norm zip_norm : string)
    (filtered_df : list CatalogLocationRecord) :
  multi_field_candidates ratio addr_line1_norm addr_line2_norm city_norm state_norm zip_norm
    filtered_df
  = narrow_stage ratio zip_norm zip
      (narrow_stage ratio state_norm state
         (narrow_stage ratio city_norm city
            (List.filter (line2_test ratio addr_line2_norm)
               (List.filter (line1_test ratio addr_line1_norm) filtered_df)))).
Proof.
  unfold multi_field_candidates. rewrite collect_filter, line2_stage_filter.
  destruct (List.filter (line1_test ratio addr_line1_norm) filtered_df) eqn:E; [|done].
  simpl. unfold narrow_stage. rewrite !collect_filter. simpl.
  by repeat match goal with |- context [if ?c then _ else _] => destruct c end.
Qed.

(** The records that pass every test of the row survive the matcher, each
    as often as the catalog has it and in catalog order. *)
Lemma match_location_by_address_keeps (locations_row : gmap string cell)
    (api_locations_df : list CatalogLocationRecord)
    (practice_id practice_cloud_id : option cell) :
  omap result_tuple
    (List.filter (passes_every_test ratio locations_row)
       (filter_by_practice api_locations_df
          (clean_id_arg practice_id) (clean_id_arg practice_cloud_id)))
  `sublist_of`
  match_location_by_address ratio locations_row api_locations_df
    practice_id practice_cloud_id.
Proof.
  unfold match_location_by_address. cbv zeta.
  set (filtered_df := filter_by_practice _ _ _).
  destruct (nonempty filtered_df) eqn:En; cbn [negb];
    [|apply nonempty_false in En; by rewrite En].
  unfold passes_every_test. cbv zeta.
  set (a1 := normalize_string (get locations_row "Address Line 1")).
  set (a2 := normalize_string (get locations_row "Address Line 2")).
  set (cn := normalize_string (get locations_row "City")).
  set (sn := normalize_string (get locations_row "State")).
  set (zn := normalize_string (get locations_row "ZIP")).
  destruct (Py.is_empty a1) eqn:Ea.
  { apply is_empty_true in Ea. rewrite Ea.
    rewrite (filter_ext _ (fun _ => false)).
    - clear. by induction filtered_df.
    - intros r. unfold concat_test, line1_test. cbv zeta.
      rewrite !fuzzy_match_score_blank_left, andb_false_r.
      by destruct (_ && _). }
  rewrite extract_result_omap. apply sublist_omap.
  destruct (Py.is_empty a2 && Py.is_empty cn && Py.is_empty sn && Py.is_empty zn).
  - by rewrite collect_filter.
  - rewrite multi_field_candidates_steps.
    rewrite (filter_ext _
               (fun r => (Py.is_empty zn || component_test ratio zn zip r)
                         && ((Py.is_empty sn || component_test ratio sn state r)
                             && ((Py.is_empty cn || component_test ratio cn city r)
                                 && (line2_test ratio a2 r && line1_test ratio a1 r)))))
      by (intros r; destruct (line1_test ratio a1 r), (line2_test ratio a2 r),
            (Py.is_empty cn || component_test ratio cn city r),
            (Py.is_empty sn || component_test ratio sn state r),
            (Py.is_empty zn || component_test ratio zn zip r); reflexivity).
    rewrite <- (filter_filter_and
                  (fun r => Py.is_empty zn || component_test ratio zn zip r)).
    rewrite <- (filter_filter_and
                  (fun r => Py.is_empty sn || component_test ratio sn state r)).
    rewrite <- (filter_filter_and
                  (fun r => Py.is_empty cn || component_test ratio cn city r)).
    rewrite <- (filter_filter_and (line2_test ratio a2) (line1_test ratio a1)).
    apply narrow_stage_keeps, narrow_stage_keeps, narrow_stage_keeps. done.
Qed.

End MatchListProperties.

(** Two listed states with the same normal form get the same entry. *)
Lemma first_of_state_normal_form (api_locations_df : list CatalogLocationRecord)
    (state_item state_item' : string) :
  normalize_string (Str state_item) = normalize_string (Str state_item') ->
  first_of_state api_locations_df state_item = first_of_state api_locations_df state_item'.
Proof. intros H. unfold first_of_state. cbv zeta. by rewrite H. Qed.

(** C5, as the code has it. The match list preserves discovery order and
    no strategy removes duplicates. Address matcher: the external ids of
    the matches are a sub-sequence of the external ids of the catalog;
    every record of the practice of the row that passes every test of the
    row has its tuple in the list, once for each time the catalog has it
    and in catalog order, whatever external id another record has; the
    ids of the matches are pairwise distinct when no two records of the
    catalog have the same external id after the cleanup of ids.
    State-only matcher: the list has one entry for each listed state that
    the catalog has a first record with an id for, in the order of the
    listed states; two listed states with the same normal form get the
    same entry; the ids of the matches are pairwise distinct when the
    listed states are distinct after normalization and no two records of
    the catalog have the same cleaned external id. *)
Theorem match_list_without_duplicates (ratio : string -> string -> Q)
    (locations_row : gmap string cell) (api_locations_df : list CatalogLocationRecord)
    (practice_id practice_cloud_id : option cell) (states : list string) :
  let matches :=
    match_location_by_address ratio locations_row api_locations_df
      practice_id practice_cloud_id in
  (m_cloud_id <$> matches `sublist_of` external_ids api_locations_df
   /\ omap result_tuple
        (List.filter (passes_every_test ratio locations_row)
           (filter_by_practice api_locations_df
              (clean_id_arg practice_id) (clean_id_arg practice_cloud_id)))
      `sublist_of` matches
   /\ (NoDup (cleaned_external_ids api_locations_df) -> NoDup (m_cloud_id <$> matches)))
  /\ (matches_for_row states api_locations_df
      = omap (first_of_state api_locations_df) states
      /\ (forall state_item state_item',
            normalize_string (Str state_item) = normalize_string (Str state_item') ->
            first_of_state api_locations_df state_item
            = first_of_state api_locations_df state_item')
      /\ (NoDup (cleaned_external_ids api_locations_df) ->
          NoDup ((fun s => normalize_string (Str s)) <$> states) ->
          NoDup (m_cloud_id <$> matches_for_row states api_locations_df))).
Proof.
  intros matches.
  pose proof (match_location_by_address_order ratio locations_row api_locations_df
                practice_id practice_cloud_id) as Hsub.
  split; [split; [exact Hsub|split]|split; [|split]].
  - apply match_location_by_address_keeps.
  - intros Hids. eapply sublist_NoDup; [|exact Hsub].
    rewrite cleaned_external_ids_fmap in Hids. by apply NoDup_fmap_1 in Hids.
  - apply matches_for_row_omap.
  - apply first_of_state_normal_form.
  - intros Hids Hstates. by apply matches_for_row_NoDup.
Qed.

(** A run of [match_list_without_duplicates]: the row with the zip of
    scenario A, and the states of Texas and New York. *)
Lemma match_list_without_duplicates_witness :
  let api := [scenario_A_record (Str "9001") (Str "In Person") (Str "pt_1");
              texas_office] in
  NoDup (cleaned_external_ids api)
  /\ NoDup ((fun s => normalize_string (Str s)) <$> ["TX"; "NY"]%string)
  /\ NoDup (m_cloud_id <$>
              match_location_by_address difflib.ratio scenario_A_row_with_zip api
                (Some (Str "555")) None)
  /\ NoDup (m_cloud_id <$> matches_for_row ["TX"; "NY"]%string api).
Proof.
  intros api.
  assert (H1 : NoDup (cleaned_external_ids api))
    by (apply (bool_decide_unpack _); vm_compute; exact I).
  assert (H2 : NoDup ((fun s => normalize_string (Str s)) <$> ["TX"; "NY"]%string))
    by (apply (bool_decide_unpack _); vm_compute; exact I).
  split; [exact H1|]. split; [exact H2|].
  destruct (match_list_without_duplicates difflib.ratio scenario_A_row_with_zip api
              (Some (Str "555")) None ["TX"; "NY"]%string)
    as ((_ & _ & H3) & (_ & _ & H4)).
  split; [exact (H3 H1)|exact (H4 H1 H2)].
Defined.

(** C5 as stated fails in both strategies. A state-only row that names
    Texas twice gets the first record of Texas twice; and the address
    matcher returns both records of a catalog in which two records at the
    address of the row have the same external id. *)
Lemma duplicates_kept_counterexample :
  (m_cloud_id <$> matches_for_row (state_list "TX, TX") [texas_office]
   = ["loc_b"; "loc_b"]%string
   /\ ~ NoDup (m_cloud_id <$> matches_for_row (state_list "TX, TX") [texas_office]))
  /\ (m_cloud_id <$>
        match_location_by_address difflib.ratio scenario_A_row_with_zip shared_id_catalog
          (Some (Str "555")) None
      = ["loc_1"; "loc_1"]%string
      /\ ~ NoDup (m_cloud_id <$>
                    match_location_by_address difflib.ratio scenario_A_row_with_zip
                      shared_id_catalog (Some (Str "555")) None)).
Proof.
  assert (H : m_cloud_id <$> matches_for_row (state_list "TX, TX") [texas_office]
              = ["loc_b"; "loc_b"]%string) by (vm_compute; reflexivity).
  assert (H' : m_cloud_id <$>
                 match_location_by_address difflib.ratio scenario_A_row_with_zip
                   shared_id_catalog (Some (Str "555")) None
               = ["loc_1"; "loc_1"]%string) by (vm_compute; reflexivity).
  split; (split; [done|]).
  - rewrite H. intros Hnd. apply NoDup_cons in Hnd as [Hnot _]. apply Hnot. by left.
  - rewrite H'. intros Hnd. apply NoDup_cons in Hnd as [Hnot _]. apply Hnot. by left.
Qed.

(** ** Runs of the scorer *)

(** A run of [numeric_invariant]: two street numbers one digit apart. *)
Lemma numeric_invariant_witness :
  extract_numbers (Str "12 Main St") ≠ []
  /\ extract_numbers (Str "13 Main St") ≠ []
  /\ extract_numbers (Str "12 Main St") ≠ extract_numbers (Str "13 Main St")
  /\ fuzzy_match_score difflib.ratio (Str "12 Main St") (Str "13 Main St") (1 # 2) = false.
Proof.
  assert (H1 : extract_numbers (Str "12 Main St") ≠ []) by (vm_compute; discriminate).
  assert (H2 : extract_numbers (Str "13 Main St") ≠ []) by (vm_compute; discriminate).
  assert (H3 : extract_numbers (Str "12 Main St") ≠ extract_numbers (Str "13 Main St"))
    by (vm_compute; discriminate).
  split; [exact H1|]. split; [exact H2|]. split; [exact H3|].
  exact (numeric_invariant difflib.ratio (Str "12 Main St") (Str "13 Main St") (1 # 2)
           H1 H2 H3).
Defined.

(** A run of [threshold_monotone]: accepted at 0.8, hence at 0.7. *)
Lemma threshold_monotone_witness :
  Qle (7 # 10) (8 # 10)
  /\ fuzzy_match_score difflib.ratio (Str "Parkway Drive") (Str "Parkway Dr") (8 # 10) = true
  /\ fuzzy_match_score difflib.ratio (Str "Parkway Drive") (Str "Parkway Dr") (7 # 10) = true.
Proof.
  assert (H1 : Qle (7 # 10) (8 # 10)) by (vm_compute; discriminate).
  assert (H2 : fuzzy_match_score difflib.ratio (Str "Parkway Drive") (Str "Parkway Dr")
                 (8 # 10) = true) by (vm_compute; reflexivity).
  split; [exact H1|]. split; [exact H2|].
  exact (threshold_monotone difflib.ratio (Str "Parkway Drive") (Str "Parkway Dr")
           (8 # 10) (7 # 10) H1 H2).
Defined.

(** The examples of the scorer's contract. *)
Example exact_match :
  fuzzy_match_score difflib.ratio (Str "123 Main St") (Str "123 MAIN ST") (99 # 100) = true.
Proof. vm_compute. reflexivity. Qed.

Example threshold_boundary :
  fuzzy_match_score difflib.ratio (Str "Parkway") (Str "Pkwy") (9 # 10) = false
  /\ fuzzy_match_score difflib.ratio (Str "Parkway Drive") (Str "Parkway Dr") (7 # 10) = true.
Proof. split; vm_compute; reflexivity. Qed.

(** ** The choice of the strategy *)

Lemma column_is_mapped_iff (df : DataFrame) (col : string) :
  column_is_mapped df col = true <-> length (rows df) < 5 * non_empty_count df col.
Proof.
  unfold column_is_mapped. rewrite andb_true_iff, !Nat.ltb_lt.
  assert (non_empty_count df col <= length (rows df)).
  { unfold non_empty_count, column_cells.
    etrans; [apply filter_length_le|]. by rewrite length_fmap. }
  lia.
Qed.

Lemma needs_fuzzy_matching_false_iff (df : DataFrame) :
  needs_fuzzy_matching df = false
  <-> exists col, col ∈ location_id_columns_of df
                  /\ length (rows df) < 5 * non_empty_count df col.
Proof.
  unfold needs_fuzzy_matching. rewrite negb_false_iff, existsb_exists.
  split; intros (col & Hin & Hc); exists col.
  - split; [by apply list_elem_of_In|by apply column_is_mapped_iff].
  - split; [by apply list_elem_of_In|by apply column_is_mapped_iff].
Qed.

(** C6, as the code has it. For a sheet with a Location ID column: the
    flag [needs_fuzzy_matching] is cleared exactly when some Location ID
    column holds a value in more than 20% of the rows; then Case 1 is
    announced and no other case runs; otherwise, which is so for every
    sheet without rows and for a sheet whose Location ID columns are the
    only populated ones but hold values in at most 20% of the rows, the
    first case run is Case 2, 3 or 4. *)
Theorem case1_selection (ratio : string -> string -> Q) (df : DataFrame)
    (api_locations_df : list CatalogLocationRecord) :
  location_id_columns_of df ≠ [] ->
  (needs_fuzzy_matching df = false
   <-> exists col, col ∈ location_id_columns_of df
                   /\ length (rows df) < 5 * non_empty_count df col)
  /\ (if needs_fuzzy_matching df
      then exists c rest,
             fst (matching_pass ratio df api_locations_df) = c :: rest /\ c ≠ Case1
      else fst (matching_pass ratio df api_locations_df) = [Case1]).
Proof.
  intros Hcols. split; [apply needs_fuzzy_matching_false_iff|].
  unfold matching_pass. apply nonempty_true in Hcols. rewrite Hcols. simpl.
  unfold only_state_mapped.
  destruct (needs_fuzzy_matching df) eqn:Hnf.
  - destruct (has_column df "State" && true); simpl.
    + match goal with |- context [if ?c then _ else _] => destruct c end; simpl.
      * by exists Case2, [Case1].
      * eexists _, []. split; [reflexivity|].
        by destruct (only_address_line1_mapped df).
    + eexists _, []. split; [reflexivity|].
      by destruct (only_address_line1_mapped df).
  - by rewrite andb_false_r.
Qed.

(** A run of [case1_selection]: one row with a Location ID. *)
Lemma case1_selection_witness :
  location_id_columns_of second_id_only_sheet ≠ []
  /\ fst (matching_pass difflib.ratio second_id_only_sheet [texas_office]) = [Case1].
Proof.
  assert (H : location_id_columns_of second_id_only_sheet ≠ [])
    by (vm_compute; discriminate).
  split; [exact H|].
  exact (proj2 (case1_selection difflib.ratio second_id_only_sheet [texas_office] H)).
Defined.

(** C6 as stated fails: on a sheet without rows, and on a sheet whose
    only value is one Location ID in five rows, Case 3 is chosen. *)
Lemma zero_row_counterexample :
  fst (matching_pass difflib.ratio zero_row_sheet [texas_office]) = [Case3]
  /\ fst (matching_pass difflib.ratio sparse_id_sheet [texas_office]) = [Case3].
Proof. split; vm_compute; reflexivity. Qed.

(** ** Numbered labels *)

Lemma text_chars (s : string) : Py.text (Py.chars s) = s.
Proof. apply string_of_list_ascii_of_string. Qed.

Lemma chars_text (l : list ascii) : Py.chars (Py.text l) = l.
Proof. apply list_ascii_of_string_of_list_ascii. Qed.

Lemma int_str_of_nat (n : nat) : Py.int (Py.str_of_nat n) = n.
Proof.
  unfold Py.int, Py.str_of_nat. rewrite NilEmpty.usu. apply Unsigned.of_to.
Qed.

Lemma str_of_nat_inj (a b : nat) : Py.str_of_nat a = Py.str_of_nat b -> a = b.
Proof. intros H. by rewrite <- (int_str_of_nat a), <- (int_str_of_nat b), H. Qed.

Lemma string_of_uint_digits (d : Decimal.uint) :
  forallb Py.is_digit (Py.chars (NilEmpty.string_of_uint d)) = true.
Proof. induction d; simpl; auto. Qed.

Lemma to_uint_nonnil (n : nat) : Nat.to_uint n ≠ Decimal.Nil.
Proof.
  rewrite <- (Unsigned.of_to n) at 1. rewrite Unsigned.to_of.
  apply DecimalFacts.unorm_nonnil.
Qed.

Lemma str_of_nat_digits (n : nat) :
  forallb Py.is_digit (Py.chars (Py.str_of_nat n)) = true.
Proof. apply string_of_uint_digits. Qed.

Lemma str_of_nat_nonempty (n : nat) : Py.chars (Py.str_of_nat n) ≠ [].
Proof.
  unfold Py.str_of_nat. pose proof (to_uint_nonnil n) as H.
  destruct (Nat.to_uint n); simpl; done.
Qed.

Lemma isdigit_str_of_nat (n : nat) : Py.isdigit (Py.str_of_nat n) = true.
Proof.
  unfold Py.isdigit. pose proof (str_of_nat_nonempty n) as Hne.
  pose proof (str_of_nat_digits n) as Hd.
  destruct (Py.chars (Py.str_of_nat n)); [done|exact Hd].
Qed.

Lemma is_digit_not_space (c : ascii) : Py.is_digit c = true -> Py.is_space c = false.
Proof.
  unfold Py.is_digit, Py.is_space. cbv zeta.
  rewrite andb_true_iff, !Nat.leb_le, orb_false_iff, !andb_false_iff, !Nat.leb_gt. lia.
Qed.

Lemma lstrip_digits (l : list ascii) :
  forallb Py.is_digit l = true -> Py.lstrip_chars l = l.
Proof.
  destruct l as [|c l]; [done|]. simpl. intros H.
  apply andb_true_iff in H as [H _]. by rewrite (is_digit_not_space c H).
Qed.

Lemma forallb_rev {A} (p : A -> bool) (l : list A) :
  forallb p l = true -> forallb p (rev l) = true.
Proof.
  rewrite !forallb_forall. intros H x Hx. apply H. by apply in_rev.
Qed.

Lemma strip_space_digits (l : list ascii) :
  forallb Py.is_digit l = true -> Py.strip_chars (" "%char :: l) = l.
Proof.
  intros H. unfold Py.strip_chars. simpl.
  rewrite (lstrip_digits l H), (lstrip_digits (rev l) (forallb_rev _ _ H)).
  apply rev_involutive.
Qed.

Lemma remove_all_go_digits (old0 : ascii) (old l : list ascii) :
  Py.is_digit old0 = false ->
  forallb Py.is_digit l = true ->
  Py.remove_all_go (old0 :: old) l 0 = l.
Proof.
  intros Hold. induction l as [|c l IH]; [done|]. simpl.
  intros H. apply andb_true_iff in H as [Hc Hl].
  rewrite bool_decide_eq_false_2; [by rewrite IH|].
  intros [= -> _]. congruence.
Qed.

(** The number the backfiller reads off the label of a numbered
    Location Cloud ID column is the number the label was made from. *)
Lemma number_str_numbered (n : nat) :
  number_str (numbered "Location Cloud ID" n) = Py.str_of_nat n.
Proof.
  unfold number_str, numbered, Py.remove_all, Py.strip, Py.chars, Py.text.
  cbv [String.append]. simpl.
  rewrite remove_all_go_digits; [|reflexivity|apply str_of_nat_digits].
  rewrite list_ascii_of_string_of_list_ascii.
  pose proof (strip_space_digits _ (str_of_nat_digits n)) as Hstrip.
  unfold Py.chars in Hstrip. rewrite Hstrip.
  apply string_of_list_ascii_of_string.
Qed.

Lemma slot_number_numbered (n : nat) :
  slot_number (numbered "Location Cloud ID" n) = Some n.
Proof.
  unfold slot_number. rewrite number_str_numbered, isdigit_str_of_nat, int_str_of_nat.
  unfold numbered. cbv [String.append]. by simpl.
Qed.

Lemma startswith_cloud_numbered (n : nat) :
  Py.startswith "Location Cloud ID" (numbered "Location Cloud ID" n) = true.
Proof. unfold Py.startswith, numbered. cbv [String.append]. by simpl. Qed.

Lemma startswith_cloud_location_id (n : nat) :
  Py.startswith "Location Cloud ID" (numbered "Location ID" n) = false.
Proof. unfold Py.startswith, numbered. cbv [String.append]. by simpl. Qed.

Lemma startswith_cloud_location_type (n : nat) :
  Py.startswith "Location Cloud ID" (numbered "Location Type" n) = false.
Proof. unfold Py.startswith, numbered. cbv [String.append]. by simpl. Qed.

Lemma startswith_cloud_practice_cloud (n : nat) :
  Py.startswith "Location Cloud ID" (numbered "Practice Cloud ID" n) = false.
Proof. unfold Py.startswith, numbered. cbv [String.append]. by simpl. Qed.

Lemma append_inj_r (p s1 s2 : string) : (p +:+ s1 = p +:+ s2)%string -> s1 = s2.
Proof.
  induction p as [|c p IH]; cbv [String.append]; [done|].
  intros [= H]. by apply IH.
Qed.

Lemma numbered_inj (label : string) (a b : nat) :
  numbered label a = numbered label b -> a = b.
Proof.
  unfold numbered. intros H.
  apply append_inj_r, append_inj_r in H. by apply str_of_nat_inj.
Qed.

(** ** Frames: reading after writing *)

Lemma at_get_at_set_eq (df : DataFrame) (idx : nat) (col : string) (v : cell) :
  idx < length (rows df) -> at_get (at_set df idx col v) idx col = v.
Proof.
  intros Hidx. unfold at_get, at_set. simpl. rewrite list_lookup_alter_eq.
  destruct (rows df !! idx) eqn:E; simpl.
  - by rewrite lookup_insert_eq.
  - apply lookup_ge_None in E. lia.
Qed.

Lemma at_get_at_set_ne (df : DataFrame) (idx idx' : nat) (col col' : string) (v : cell) :
  col ≠ col' -> at_get (at_set df idx col v) idx' col' = at_get df idx' col'.
Proof.
  intros Hne. unfold at_get, at_set. simpl.
  destruct (decide (idx = idx')) as [->|Hi].
  - rewrite list_lookup_alter_eq. destruct (rows df !! idx'); simpl; [|done].
    by rewrite lookup_insert_ne.
  - by rewrite list_lookup_alter_ne.
Qed.

Lemma at_get_at_set_other_row (df : DataFrame) (idx idx' : nat) (col col' : string)
    (v : cell) :
  idx ≠ idx' -> at_get (at_set df idx col v) idx' col' = at_get df idx' col'.
Proof.
  intros Hi. unfold at_get, at_set. simpl. by rewrite list_lookup_alter_ne.
Qed.

Lemma rows_length_at_set (df : DataFrame) (idx : nat) (col : string) (v : cell) :
  length (rows (at_set df idx col v)) = length (rows df).
Proof. unfold at_set. simpl. apply length_alter. Qed.

Lemma columns_at_set (df : DataFrame) (idx : nat) (col : string) (v : cell) :
  columns (at_set df idx col v) = columns df.
Proof. done. Qed.

Lemma at_get_insert_column_ne (df : DataFrame) (loc idx : nat) (col col' : string) :
  col ≠ col' -> at_get (insert_column df loc col) idx col' = at_get df idx col'.
Proof.
  intros Hne. unfold at_get, insert_column. simpl. rewrite list_lookup_fmap.
  destruct (rows df !! idx); simpl; [|done]. by rewrite lookup_insert_ne.
Qed.

Lemma at_get_insert_column_eq (df : DataFrame) (loc idx : nat) (col : string) :
  idx < length (rows df) -> at_get (insert_column df loc col) idx col = Str "".
Proof.
  intros Hidx. unfold at_get, insert_column. simpl. rewrite list_lookup_fmap.
  destruct (rows df !! idx) eqn:E; simpl.
  - by rewrite lookup_insert_eq.
  - apply lookup_ge_None in E. lia.
Qed.

Lemma rows_length_insert_column (df : DataFrame) (loc : nat) (col : string) :
  length (rows (insert_column df loc col)) = length (rows df).
Proof. unfold insert_column. simpl. apply length_fmap. Qed.

Lemma columns_insert_column (df : DataFrame) (loc : nat) (col : string) :
  columns (insert_column df loc col) ≡ₚ col :: columns df.
Proof.
  unfold insert_column. simpl. rewrite <- Permutation_middle.
  by rewrite take_drop.
Qed.

Lemma has_column_true (df : DataFrame) (col : string) :
  has_column df col = true <-> col ∈ columns df.
Proof. unfold has_column. apply bool_decide_eq_true. Qed.

Lemma has_column_false (df : DataFrame) (col : string) :
  has_column df col = false <-> col ∉ columns df.
Proof. unfold has_column. apply bool_decide_eq_false. Qed.

(** A column is created when its label is new: the labels, the number of
    rows and the other cells after [ensure_column]. *)
Lemma ensure_column_columns (st : DataFrame * nat) (col : string) :
  columns (fst (ensure_column st col))
  ≡ₚ (if has_column (fst st) col then [] else [col]) ++ columns (fst st).
Proof.
  destruct st as [df i]. unfold ensure_column. simpl.
  destruct (has_column df col); simpl; [done|apply columns_insert_column].
Qed.

Lemma ensure_column_rows (st : DataFrame * nat) (col : string) :
  length (rows (fst (ensure_column st col))) = length (rows (fst st)).
Proof.
  destruct st as [df i]. unfold ensure_column. simpl.
  destruct (has_column df col); simpl; [done|].
  unfold insert_column. simpl. apply length_fmap.
Qed.

Lemma ensure_column_at_get (st : DataFrame * nat) (col : string) (idx : nat) (c : string) :
  col ≠ c -> at_get (fst (ensure_column st col)) idx c = at_get (fst st) idx c.
Proof.
  intros Hne. destruct st as [df i]. unfold ensure_column. simpl.
  destruct (has_column df col); simpl; [done|by apply at_get_insert_column_ne].
Qed.

Lemma filter_Permutation {A} (p : A -> bool) (l l' : list A) :
  l ≡ₚ l' -> List.filter p l ≡ₚ List.filter p l'.
Proof.
  induction 1 as [|x l l' _ IH|x y l|l1 l2 l3 _ IH1 _ IH2]; simpl.
  - done.
  - destruct (p x); [by constructor|done].
  - destruct (p x), (p y); try done. constructor.
  - by etrans.
Qed.

(** Two tests that differ on one element of a duplicate-free list. *)
Lemma filter_flip_one {A} (p p' : A -> bool) (l : list A) (x : A) :
  NoDup l -> x ∈ l -> p x = false -> p' x = true ->
  (forall y, y ∈ l -> y ≠ x -> p' y = p y) ->
  List.filter p' l ≡ₚ x :: List.filter p l.
Proof.
  induction l as [|a l IH]; intros Hnd Hx Hp Hp' Hother; [by apply elem_of_nil in Hx|].
  apply NoDup_cons in Hnd as [Hnot Hnd]. simpl.
  apply elem_of_cons in Hx as [->|Hx].
  - rewrite Hp, Hp'. constructor.
    rewrite (filter_ext_in p' p); [done|].
    intros y Hy. apply list_elem_of_In in Hy. apply Hother; [by right|].
    intros ->. done.
  - assert (Hax : a ≠ x) by (intros ->; done).
    rewrite (Hother a); [|by left|done].
    assert (IH' : List.filter p' l ≡ₚ x :: List.filter p l).
    { apply IH; try done. intros y Hy Hyx. apply Hother; [by right|done]. }
    destruct (p a); [|done].
    rewrite IH'. apply perm_swap.
Qed.

(** ** The slot the backfiller takes *)

Lemma max_number_for_row_fold (df : DataFrame) (idx : nat) (l : list string) (acc : nat) :
  fold_left
    (fun max_number col =>
       if has_value (at_get df idx col) then
         if bool_decide (col = "Location Cloud ID"%string) then Nat.max max_number 1
         else if Py.isdigit (number_str col)
              then Nat.max max_number (Py.int (number_str col))
              else max_number
       else max_number)
    l acc
  = fold_left (fun m col => Nat.max m (default 0 (slot_value df idx col))) l acc.
Proof.
  revert acc. induction l as [|col l IH]; intros acc; simpl; [done|].
  rewrite IH. f_equal. unfold slot_value, slot_number.
  destruct (has_value (at_get df idx col)); simpl; [|lia].
  destruct (bool_decide (col = "Location Cloud ID"%string)); simpl; [done|].
  destruct (Py.isdigit (number_str col)); simpl; lia.
Qed.

Lemma fold_max_ge {A} (g : A -> nat) (l : list A) (acc : nat) :
  acc <= fold_left (fun m x => Nat.max m (g x)) l acc
  /\ forall x, x ∈ l -> g x <= fold_left (fun m x => Nat.max m (g x)) l acc.
Proof.
  revert acc. induction l as [|a l IH]; intros acc; simpl.
  - split; [lia|]. intros x Hx. by apply elem_of_nil in Hx.
  - destruct (IH (Nat.max acc (g a))) as [H1 H2]. split; [lia|].
    intros x Hx. apply elem_of_cons in Hx as [->|Hx]; [lia|by apply H2].
Qed.

Lemma fold_max_attained {A} (g : A -> nat) (l : list A) (acc : nat) :
  fold_left (fun m x => Nat.max m (g x)) l acc = acc
  \/ exists x, x ∈ l /\ fold_left (fun m x => Nat.max m (g x)) l acc = g x.
Proof.
  revert acc. induction l as [|a l IH]; intros acc; simpl; [by left|].
  destruct (IH (Nat.max acc (g a))) as [H|(x & Hx & H)].
  - destruct (Nat.max_spec acc (g a)) as [[_ Hm]|[_ Hm]]; rewrite Hm in H.
    + right. exists a. split; [by left|]. by rewrite Hm.
    + left. by rewrite Hm.
  - right. exists x. split; [by right|done].
Qed.

Lemma populated_slots_elem (df : DataFrame) (idx m : nat) :
  m ∈ populated_slots df idx
  <-> exists col, col ∈ columns df
                  /\ Py.startswith "Location Cloud ID" col = true
                  /\ slot_value df idx col = Some m.
Proof.
  unfold populated_slots, slot_value. rewrite list_elem_of_omap. split.
  - intros (col & Hin & Hm). apply list_elem_of_In, filter_In in Hin as [Hin Hp].
    apply andb_true_iff in Hp as [Hs Hv]. exists col.
    split; [by apply list_elem_of_In|]. split; [done|]. by rewrite Hv.
  - intros (col & Hin & Hs & Hm). exists col.
    destruct (has_value (at_get df idx col)) eqn:Hv; [|done]. split; [|done].
    apply list_elem_of_In, filter_In. split; [by apply list_elem_of_In|].
    by rewrite Hs, Hv.
Qed.

Section Backfill.

(** A row [idx] of a frame [df] with distinct labels, and a list of
    Location Cloud ID labels of the frame, as taken before the loop, that
    has every Location Cloud ID column in which the row holds a value: the
    columns the loop has added since are blank in the rows it has not
    reached. *)
Variable df : DataFrame.
Variable idx : nat.
Variable all_location_cloud_id_columns : list string.
Variable virtual_location : CatalogLocationRecord.

Hypothesis idx_in_range : idx < length (rows df).
Hypothesis labels_distinct : NoDup (columns df).
Hypothesis listed_are_columns :
  forall col, col ∈ all_location_cloud_id_columns ->
    col ∈ columns df /\ Py.startswith "Location Cloud ID" col = true.
Hypothesis populated_are_listed :
  forall col, col ∈ columns df ->
    Py.startswith "Location Cloud ID" col = true ->
    has_value (at_get df idx col) = true ->
    col ∈ all_location_cloud_id_columns.

Let new_column_number := max_number_for_row df idx all_location_cloud_id_columns + 1.
Let df' := append_virtual_location all_location_cloud_id_columns df idx virtual_location.
Let cloud_col := numbered "Location Cloud ID" new_column_number.

Lemma populated_below_new (m : nat) :
  m ∈ populated_slots df idx -> m < new_column_number.
Proof.
  intros Hm. apply populated_slots_elem in Hm as (col & Hin & Hs & Hv).
  unfold new_column_number, max_number_for_row. rewrite max_number_for_row_fold.
  destruct (fold_max_ge (fun col => default 0 (slot_value df idx col))
              all_location_cloud_id_columns 0) as [_ Hge].
  assert (Hl : col ∈ all_location_cloud_id_columns).
  { apply populated_are_listed; try done. unfold slot_value in Hv.
    by destruct (has_value (at_get df idx col)). }
  specialize (Hge col Hl). cbv beta in Hge. rewrite Hv in Hge. simpl in Hge. lia.
Qed.

Lemma max_is_populated :
  new_column_number = 1 \/ new_column_number - 1 ∈ populated_slots df idx.
Proof.
  unfold new_column_number, max_number_for_row. rewrite max_number_for_row_fold.
  destruct (fold_max_attained (fun col => default 0 (slot_value df idx col))
              all_location_cloud_id_columns 0) as [->|(col & Hl & ->)]; [by left|].
  destruct (slot_value df idx col) as [m|] eqn:Hv; simpl; [|by left].
  right. replace (m + 1 - 1) with m by lia.
  apply populated_slots_elem. exists col.
  destruct (listed_are_columns col Hl) as [Hin Hs]. done.
Qed.

Lemma cloud_col_not_populated :
  cloud_col ∈ columns df -> has_value (at_get df idx cloud_col) = false.
Proof.
  intros Hin. destruct (has_value (at_get df idx cloud_col)) eqn:Hv; [|done].
  exfalso. assert (Hm : new_column_number ∈ populated_slots df idx).
  { apply populated_slots_elem. exists cloud_col. split; [done|].
    split; [apply startswith_cloud_numbered|].
    unfold slot_value. rewrite Hv. apply slot_number_numbered. }
  apply populated_below_new in Hm. lia.
Qed.

(** The cells of the row in the Location Cloud ID columns after the
    append. *)
Lemma append_virtual_location_cloud_cell :
  at_get df' idx cloud_col = Str (clean_id (location_id virtual_location)).
Proof.
  unfold df', append_virtual_location. cbv zeta.
  fold new_column_number. fold cloud_col.
  rewrite at_get_at_set_ne
    by (unfold cloud_col, numbered; cbv [String.append]; discriminate).
  rewrite at_get_at_set_ne
    by (unfold cloud_col, numbered; cbv [String.append]; discriminate).
  rewrite at_get_at_set_eq; [done|].
  rewrite rows_length_at_set, !ensure_column_rows. done.
Qed.

Lemma append_virtual_location_other_cells (col : string) :
  Py.startswith "Location Cloud ID" col = true ->
  col ≠ cloud_col ->
  at_get df' idx col = at_get df idx col.
Proof.
  intros Hs Hne.
  assert (H1 : numbered "Location ID" new_column_number ≠ col)
    by (intros <-; by rewrite startswith_cloud_location_id in Hs).
  assert (H3 : numbered "Practice Cloud ID" new_column_number ≠ col)
    by (intros <-; by rewrite startswith_cloud_practice_cloud in Hs).
  assert (H4 : numbered "Location Type" new_column_number ≠ col)
    by (intros <-; by rewrite startswith_cloud_location_type in Hs).
  unfold df', append_virtual_location. cbv zeta.
  fold new_column_number. fold cloud_col.
  rewrite !at_get_at_set_ne by done.
  rewrite !ensure_column_at_get by done. done.
Qed.

Lemma append_virtual_location_columns :
  exists extra,
    columns df' ≡ₚ extra ++ (if has_column df cloud_col then [] else [cloud_col])
                   ++ columns df
    /\ forall col, col ∈ extra -> Py.startswith "Location Cloud ID" col = false.
Proof.
  unfold df', append_virtual_location. cbv zeta.
  fold new_column_number. fold cloud_col.
  rewrite !columns_at_set.
  set (i0 := match last (sorted_by sort_key all_location_cloud_id_columns) with
             | Some last_col => get_loc df last_col + 1
             | None => length (columns df)
             end).
  set (st1 := ensure_column (df, i0) (numbered "Location ID" new_column_number)).
  set (st2 := ensure_column st1 cloud_col).
  set (st3 := ensure_column st2 (numbered "Practice Cloud ID" new_column_number)).
  set (st4 := ensure_column st3 (numbered "Location Type" new_column_number)).
  pose proof (ensure_column_columns (df, i0)
                (numbered "Location ID" new_column_number)) as P1.
  pose proof (ensure_column_columns st1 cloud_col) as P2.
  pose proof (ensure_column_columns st2
                (numbered "Practice Cloud ID" new_column_number)) as P3.
  pose proof (ensure_column_columns st3
                (numbered "Location Type" new_column_number)) as P4.
  fold st1 in P1. fold st2 in P2. fold st3 in P3. fold st4 in P4.
  simpl fst in P1.
  assert (Hc : has_column (fst st1) cloud_col = has_column df cloud_col).
  { unfold has_column. apply bool_decide_ext. rewrite P1.
    destruct (has_column df (numbered "Location ID" new_column_number)); simpl; [done|].
    rewrite elem_of_cons. split; [|by right].
    intros [H|H]; [|done]. exfalso. revert H.
    unfold cloud_col, numbered. cbv [String.append]. discriminate. }
  rewrite Hc in P2.
  exists ((if has_column (fst st3) (numbered "Location Type" new_column_number)
           then [] else [numbered "Location Type" new_column_number])
          ++ (if has_column (fst st2) (numbered "Practice Cloud ID" new_column_number)
              then [] else [numbered "Practice Cloud ID" new_column_number])
          ++ (if has_column df (numbered "Location ID" new_column_number)
              then [] else [numbered "Location ID" new_column_number])).
  split.
  - rewrite P4, P3, P2, P1.
    rewrite <- !app_assoc. do 2 f_equiv.
    rewrite !app_assoc. f_equiv. apply Permutation_app_comm.
  - intros col Hcol. rewrite !elem_of_app in Hcol.
    destruct Hcol as [H|[H|H]].
    + match type of H with context [if ?c then _ else _] => destruct c end;
        [by apply elem_of_nil in H|].
      apply list_elem_of_singleton in H as ->. apply startswith_cloud_location_type.
    + match type of H with context [if ?c then _ else _] => destruct c end;
        [by apply elem_of_nil in H|].
      apply list_elem_of_singleton in H as ->. apply startswith_cloud_practice_cloud.
    + match type of H with context [if ?c then _ else _] => destruct c end;
        [by apply elem_of_nil in H|].
      apply list_elem_of_singleton in H as ->. apply startswith_cloud_location_id.
Qed.

Hypothesis sentinel_id_not_blank :
  has_value (Str (clean_id (location_id virtual_location))) = true.

Lemma append_virtual_location_test (col : string) :
  Py.startswith "Location Cloud ID" col && has_value (at_get df' idx col)
  = if bool_decide (col = cloud_col) then true
    else Py.startswith "Location Cloud ID" col && has_value (at_get df idx col).
Proof.
  case_bool_decide as Hc.
  - subst col. rewrite append_virtual_location_cloud_cell, sentinel_id_not_blank.
    unfold cloud_col. by rewrite startswith_cloud_numbered.
  - destruct (Py.startswith "Location Cloud ID" col) eqn:Hs; [|done]. simpl.
    by rewrite append_virtual_location_other_cells.
Qed.

(** The slots in use after the append: the new one and those in use
    before. *)
Lemma append_virtual_location_slots :
  populated_slots df' idx ≡ₚ new_column_number :: populated_slots df idx.
Proof.
  unfold populated_slots.
  destruct append_virtual_location_columns as (extra & Hcols & Hextra).
  fold df' in Hcols. fold new_column_number in Hcols. fold cloud_col in Hcols.
  rewrite (filter_Permutation _ _ _ Hcols), !List.filter_app.
  assert (He : List.filter
                 (fun col => Py.startswith "Location Cloud ID" col
                             && has_value (at_get df' idx col)) extra = []).
  { clear Hcols. induction extra as [|c extra IH]; [done|]. simpl.
    rewrite (Hextra c) by by left.
    simpl. apply IH. intros col Hcol. apply Hextra. by right. }
  rewrite He, app_nil_l.
  assert (Hslot : slot_number cloud_col = Some new_column_number)
    by apply slot_number_numbered.
  destruct (has_column df cloud_col) eqn:Hhas.
  - apply has_column_true in Hhas. rewrite app_nil_l.
    rewrite (filter_flip_one
               (fun col => Py.startswith "Location Cloud ID" col
                           && has_value (at_get df idx col)) _ (columns df) cloud_col);
      try done.
    + cbn [omap list_omap]. by rewrite Hslot.
    + by rewrite cloud_col_not_populated, andb_false_r.
    + rewrite append_virtual_location_test. by rewrite bool_decide_eq_true_2.
    + intros y _ Hy. rewrite append_virtual_location_test.
      by rewrite bool_decide_eq_false_2.
  - apply has_column_false in Hhas.
    cbn [List.filter app].
    rewrite append_virtual_location_test, bool_decide_eq_true_2 by done.
    cbn [omap list_omap app]. rewrite Hslot.
    rewrite (filter_ext_in _
               (fun col => Py.startswith "Location Cloud ID" col
                           && has_value (at_get df idx col))); [done|].
    intros y Hy. apply list_elem_of_In in Hy.
    rewrite append_virtual_location_test. rewrite bool_decide_eq_false_2; [done|].
    by intros ->.
Qed.

(** A row whose slots in use are 1 to [k] has the slots 1 to [k + 1] in
    use after the append. *)
Lemma append_virtual_location_contiguous (k : nat) :
  populated_slots df idx ≡ₚ seq 1 k ->
  new_column_number = S k /\ populated_slots df' idx ≡ₚ seq 1 (S k).
Proof.
  intros Hk.
  assert (Hn : new_column_number = S k).
  { assert (Hlow : k < new_column_number).
    { destruct k as [|k]; [unfold new_column_number; lia|].
      apply populated_below_new. rewrite Hk. apply list_elem_of_In, in_seq. lia. }
    destruct max_is_populated as [H1|Hmax]; [lia|].
    rewrite Hk in Hmax. apply list_elem_of_In, in_seq in Hmax. lia. }
  split; [done|].
  rewrite append_virtual_location_slots, Hn, Hk.
  rewrite seq_S. apply Permutation_cons_append.
Qed.

End Backfill.

(** ** The slots the matchers fill *)

Ltac label_ne :=
  first [ by (unfold numbered; cbv [String.append]; discriminate)
        | by (let H := fresh in intros H; apply numbered_inj in H; lia) ].

Lemma rows_length_write_match (df : DataFrame) (idx col_num : nat) (m : MatchTuple) :
  length (rows (write_match df idx col_num m)) = length (rows df).
Proof. unfold write_match. by rewrite !rows_length_at_set. Qed.

Lemma write_match_cloud_cell (df : DataFrame) (idx col_num : nat) (m : MatchTuple) :
  idx < length (rows df) ->
  at_get (write_match df idx col_num m) idx (numbered "Location Cloud ID" col_num)
  = Str (m_cloud_id m).
Proof.
  intros Hidx. unfold write_match.
  rewrite !at_get_at_set_ne by label_ne.
  rewrite at_get_at_set_eq; [done|]. by rewrite rows_length_at_set.
Qed.

Lemma write_match_earlier_slot (df : DataFrame) (idx col_num c0 : nat) (m : MatchTuple) :
  c0 < col_num ->
  at_get (write_match df idx col_num m) idx (numbered "Location Cloud ID" c0)
  = at_get df idx (numbered "Location Cloud ID" c0).
Proof.
  intros Hlt. unfold write_match. by rewrite !at_get_at_set_ne by label_ne.
Qed.

Lemma write_matches_earlier_slot (matches : list MatchTuple) (df : DataFrame)
    (idx col_num c0 : nat) :
  c0 < col_num ->
  at_get (write_matches df idx col_num matches) idx (numbered "Location Cloud ID" c0)
  = at_get df idx (numbered "Location Cloud ID" c0).
Proof.
  revert df col_num. induction matches as [|m rest IH]; intros df col_num Hlt; [done|].
  simpl. rewrite IH by lia. by apply write_match_earlier_slot.
Qed.

(** The fuzzy expander: the match at position [i] of the list of a row
    is in slot [col_num + i]. *)
Lemma write_matches_slots (matches : list MatchTuple) (df : DataFrame)
    (idx col_num i : nat) (m : MatchTuple) :
  idx < length (rows df) ->
  matches !! i = Some m ->
  at_get (write_matches df idx col_num matches) idx
    (numbered "Location Cloud ID" (col_num + i))
  = Str (m_cloud_id m).
Proof.
  revert df col_num i. induction matches as [|m0 rest IH]; intros df col_num i Hidx Hi;
    [done|].
  destruct i as [|i]; simpl in *.
  - injection Hi as ->. rewrite Nat.add_0_r.
    rewrite write_matches_earlier_slot by lia. by apply write_match_cloud_cell.
  - replace (col_num + S i) with (S col_num + i) by lia.
    apply IH; [|done]. by rewrite rows_length_write_match.
Qed.

Lemma ensure_column_after_rows (st : DataFrame * nat) (col : string) :
  length (rows (fst (ensure_column_after st col))) = length (rows (fst st)).
Proof.
  destruct st as [df i]. unfold ensure_column_after. simpl.
  destruct (has_column df col); simpl; [done|].
  unfold insert_column. simpl. apply length_fmap.
Qed.

Lemma ensure_column_after_at_get (st : DataFrame * nat) (col : string) (idx : nat)
    (c : string) :
  col ≠ c -> at_get (fst (ensure_column_after st col)) idx c = at_get (fst st) idx c.
Proof.
  intros Hne. destruct st as [df i]. unfold ensure_column_after. simpl.
  destruct (has_column df col); simpl; [done|by apply at_get_insert_column_ne].
Qed.

Lemma rows_length_write_state_match (df : DataFrame) (idx i : nat) (info : MatchTuple) :
  length (rows (write_state_match df idx i info)) = length (rows df).
Proof.
  unfold write_state_match. cbv zeta.
  by rewrite !rows_length_at_set, !ensure_column_after_rows.
Qed.

Lemma write_state_match_cloud_cell (df : DataFrame) (idx i : nat) (info : MatchTuple) :
  idx < length (rows df) ->
  at_get (write_state_match df idx i info) idx (numbered "Location Cloud ID" i)
  = Str (m_cloud_id info)
  /\ at_get (write_state_match df idx i info) idx (numbered "Location Type" i) = Str "".
Proof.
  intros Hidx. unfold write_state_match. cbv zeta. split.
  - rewrite !at_get_at_set_ne by label_ne.
    rewrite at_get_at_set_eq; [done|].
    by rewrite rows_length_at_set, !ensure_column_after_rows.
  - rewrite !at_get_at_set_ne by label_ne.
    rewrite at_get_at_set_eq; [done|].
    by rewrite !rows_length_at_set, !ensure_column_after_rows.
Qed.

Lemma write_state_match_earlier_slot (df : DataFrame) (idx i c0 : nat)
    (info : MatchTuple) (label : string) :
  c0 < i ->
  label = "Location Cloud ID"%string \/ label = "Location Type"%string ->
  at_get (write_state_match df idx i info) idx (numbered label c0)
  = at_get df idx (numbered label c0).
Proof.
  intros Hlt Hlabel. unfold write_state_match. cbv zeta.
  destruct Hlabel as [->| ->].
  - rewrite !at_get_at_set_ne by label_ne.
    by rewrite !ensure_column_after_at_get by label_ne.
  - rewrite !at_get_at_set_ne by label_ne.
    by rewrite !ensure_column_after_at_get by label_ne.
Qed.

Lemma write_state_matches_earlier_slot (matches : list MatchTuple) (df : DataFrame)
    (idx i c0 : nat) (label : string) :
  c0 < i ->
  label = "Location Cloud ID"%string \/ label = "Location Type"%string ->
  at_get (write_state_matches df idx i matches) idx (numbered label c0)
  = at_get df idx (numbered label c0).
Proof.
  revert df i. induction matches as [|m rest IH]; intros df i Hlt Hlabel; [done|].
  simpl. rewrite IH by (done || lia). by apply write_state_match_earlier_slot.
Qed.

(** The state-only matcher: the match at position [j] of the list of a
    row is in slot [i + j], and the Location Type of the slot is blank. *)
Lemma write_state_matches_slots (matches : list MatchTuple) (df : DataFrame)
    (idx i j : nat) (info : MatchTuple) :
  idx < length (rows df) ->
  matches !! j = Some info ->
  at_get (write_state_matches df idx i matches) idx (numbered "Location Cloud ID" (i + j))
  = Str (m_cloud_id info)
  /\ at_get (write_state_matches df idx i matches) idx (numbered "Location Type" (i + j))
     = Str "".
Proof.
  revert df i j. induction matches as [|m0 rest IH]; intros df i j Hidx Hj; [done|].
  destruct j as [|j]; simpl in *.
  - injection Hj as ->. rewrite Nat.add_0_r.
    rewrite !write_state_matches_earlier_slot by (auto || lia).
    by apply write_state_match_cloud_cell.
  - replace (i + S j) with (S i + j) by lia.
    apply IH; [|done]. by rewrite rows_length_write_state_match.
Qed.

(** ** What the replacement of the address leaves alone *)

Lemma set_if_column_at_get (df : DataFrame) (idx idx' : nat) (col col' : string) (v : cell) :
  col ≠ col' -> at_get (set_if_column df idx col v) idx' col' = at_get df idx' col'.
Proof.
  intros Hne. unfold set_if_column.
  destruct (has_column df col); [by apply at_get_at_set_ne|done].
Qed.

Lemma set_if_column_rows (df : DataFrame) (idx : nat) (col : string) (v : cell) :
  length (rows (set_if_column df idx col v)) = length (rows df).
Proof.
  unfold set_if_column. destruct (has_column df col); [apply rows_length_at_set|done].
Qed.

Lemma set_if_column_columns (df : DataFrame) (idx : nat) (col : string) (v : cell) :
  columns (set_if_column df idx col v) = columns df.
Proof. unfold set_if_column. by destruct (has_column df col). Qed.

Lemma replace_address_at_get (df : DataFrame) (api_locations_df : list CatalogLocationRecord)
    (row_idx idx' : nat) (location_cloud_id : cell) (col : string) :
  col ∉ address_labels ->
  at_get (replace_address_values_from_matched_location df api_locations_df row_idx
            location_cloud_id) idx' col
  = at_get df idx' col.
Proof.
  intros Hcol. unfold address_labels in Hcol.
  rewrite !not_elem_of_cons in Hcol. destruct Hcol as (H1 & H2 & H3 & H4 & H5 & _).
  unfold replace_address_values_from_matched_location.
  destruct (_ || _); [done|]. cbv zeta.
  destruct (List.filter _ api_locations_df) as [|location_row ?]; [done|].
  match goal with |- context [if ?c then _ else _] => destruct c end.
  - rewrite at_get_at_set_ne by done. by rewrite !set_if_column_at_get by done.
  - by rewrite !set_if_column_at_get by done.
Qed.

Lemma has_column_insert_column (df : DataFrame) (loc : nat) (col c : string) :
  c ∈ columns df -> c ∈ columns (insert_column df loc col).
Proof. intros H. rewrite columns_insert_column. by right. Qed.

Lemma ensure_column_after_columns (st : DataFrame * nat) (col c : string) :
  c ∈ columns (fst st) -> c ∈ columns (fst (ensure_column_after st col)).
Proof.
  destruct st as [df i]. unfold ensure_column_after. simpl.
  destruct (has_column df col); simpl; [done|apply has_column_insert_column].
Qed.

Lemma write_state_match_columns (df : DataFrame) (idx i : nat) (info : MatchTuple)
    (c : string) :
  c ∈ columns df -> c ∈ columns (write_state_match df idx i info).
Proof.
  intros H. unfold write_state_match. cbv zeta. rewrite !columns_at_set.
  by do 5 apply ensure_column_after_columns.
Qed.

Lemma write_state_matches_columns (matches : list MatchTuple) (df : DataFrame)
    (idx i : nat) (c : string) :
  c ∈ columns df -> c ∈ columns (write_state_matches df idx i matches).
Proof.
  revert df i. induction matches as [|m rest IH]; intros df i H; [done|].
  simpl. by apply IH, write_state_match_columns.
Qed.

Lemma rows_length_write_state_matches (matches : list MatchTuple) (df : DataFrame)
    (idx i : nat) :
  length (rows (write_state_matches df idx i matches)) = length (rows df).
Proof.
  revert df i. induction matches as [|m rest IH]; intros df i; [done|].
  simpl. by rewrite IH, rows_length_write_state_match.
Qed.

(** The state-only block on one row that it matches: when the body of
    the loop is done, the match at position [j] is in slot [j + 1], the
    Location Type of every slot it wrote is blank, and so is the Location
    Type of the row. *)
Lemma case2_row_policy (api_locations_df : list CatalogLocationRecord) (df : DataFrame)
    (idx : nat) (state_value : cell) (j : nat) (info : MatchTuple) :
  idx < length (rows df) ->
  has_value state_value = true ->
  matches_for_row (state_list (Py.strip (str state_value))) api_locations_df !! j
  = Some info ->
  let df' := case2_row api_locations_df df idx state_value in
  at_get df' idx (numbered "Location Cloud ID" (S j)) = Str (m_cloud_id info)
  /\ at_get df' idx (numbered "Location Type" (S j)) = Str ""
  /\ (has_column df "Location Type" = true -> at_get df' idx "Location Type" = Str "").
Proof.
  intros Hidx Hstate Hj df'. unfold df', case2_row.
  unfold has_value, notna in Hstate. apply andb_true_iff in Hstate as [Hna Hne].
  apply negb_true_iff in Hna, Hne. rewrite Hna, Hne. simpl.
  set (states := state_list (Py.strip (str state_value))) in *.
  set (matches := matches_for_row states api_locations_df) in *.
  assert (Hm : nonempty matches = true) by (destruct matches; [done|done]).
  assert (Hs : nonempty states = true).
  { destruct states; [|done]. subst matches. by rewrite matches_for_row_omap in Hj. }
  rewrite Hs, Hm. simpl.
  destruct (write_state_matches_slots matches df idx 1 j info Hidx Hj) as [Hc Ht].
  assert (Hres : forall d, 
    at_get (match matches with
            | [] => d
            | first :: _ =>
                if negb (Py.is_empty (m_cloud_id first))
                then replace_address_values_from_matched_location d api_locations_df idx
                       (Str (m_cloud_id first))
                else d
            end) idx (numbered "Location Cloud ID" (S j))
    = at_get d idx (numbered "Location Cloud ID" (S j))
    /\ at_get (match matches with
               | [] => d
               | first :: _ =>
                   if negb (Py.is_empty (m_cloud_id first))
                   then replace_address_values_from_matched_location d api_locations_df idx
                          (Str (m_cloud_id first))
                   else d
               end) idx (numbered "Location Type" (S j))
       = at_get d idx (numbered "Location Type" (S j))
    /\ at_get (match matches with
               | [] => d
               | first :: _ =>
                   if negb (Py.is_empty (m_cloud_id first))
                   then replace_address_values_from_matched_location d api_locations_df idx
                          (Str (m_cloud_id first))
                   else d
               end) idx "Location Type" = at_get d idx "Location Type").
  { intros d. destruct matches as [|first ?]; [done|].
    destruct (negb _); [|done].
    rewrite !replace_address_at_get; [done| | |];
      unfold address_labels; rewrite !not_elem_of_cons;
      repeat split; try apply not_elem_of_nil;
      try (unfold numbered; cbv [String.append]; discriminate); discriminate. }
  destruct (Hres (set_if_column (write_state_matches df idx 1 matches) idx
                    "Location Type" (Str ""))) as (-> & -> & ->).
  rewrite !set_if_column_at_get by label_ne.
  split; [exact Hc|]. split; [exact Ht|].
  intros Hcol. unfold set_if_column.
  assert (Hcol' : has_column (write_state_matches df idx 1 matches) "Location Type" = true).
  { apply has_column_true. apply write_state_matches_columns. by apply has_column_true. }
  rewrite Hcol'. apply at_get_at_set_eq. by rewrite rows_length_write_state_matches.
Qed.

(** ** Slot numbering *)

(** C7, as the code has it. For a row of a sheet with distinct labels:
    the fuzzy expander and the state-only matcher put the match at
    position [i] of the row's list into slot [i + 1]. When the backfiller
    appends a sentinel whose id is not blank, its slot number is one more
    than the highest slot in use in the row (1 when none is in use); the
    Location Cloud ID cells of the row in every other column, and so every
    slot in use, stay as they were; the slots in use afterwards are the
    new one and the ones before; and a row whose slots in use are 1 to
    [k] has 1 to [k + 1] afterwards. Rows of the direct mapping are not
    covered: there slot [n] belongs to the input column [n]. *)
Theorem slot_numbering (df : DataFrame) (idx : nat)
    (all_location_cloud_id_columns : list string)
    (virtual_location : CatalogLocationRecord) (k : nat) :
  idx < length (rows df) ->
  NoDup (columns df) ->
  (forall col, col ∈ all_location_cloud_id_columns ->
     col ∈ columns df /\ Py.startswith "Location Cloud ID" col = true) ->
  (forall col, col ∈ columns df ->
     Py.startswith "Location Cloud ID" col = true ->
     has_value (at_get df idx col) = true ->
     col ∈ all_location_cloud_id_columns) ->
  has_value (Str (clean_id (location_id virtual_location))) = true ->
  let new_column_number :=
    max_number_for_row df idx all_location_cloud_id_columns + 1 in
  let df' :=
    append_virtual_location all_location_cloud_id_columns df idx virtual_location in
  (forall matches i m,
     matches !! i = Some m ->
     at_get (write_matches df idx 1 matches) idx (numbered "Location Cloud ID" (S i))
     = Str (m_cloud_id m))
  /\ (forall matches i m,
        matches !! i = Some m ->
        at_get (write_state_matches df idx 1 matches) idx
          (numbered "Location Cloud ID" (S i))
        = Str (m_cloud_id m))
  /\ (forall m, m ∈ populated_slots df idx -> m < new_column_number)
  /\ (new_column_number = 1 \/ new_column_number - 1 ∈ populated_slots df idx)
  /\ at_get df' idx (numbered "Location Cloud ID" new_column_number)
     = Str (clean_id (location_id virtual_location))
  /\ (forall col,
        Py.startswith "Location Cloud ID" col = true ->
        col ≠ numbered "Location Cloud ID" new_column_number ->
        at_get df' idx col = at_get df idx col)
  /\ (forall col,
        col ∈ columns df ->
        Py.startswith "Location Cloud ID" col = true ->
        has_value (at_get df idx col) = true ->
        at_get df' idx col = at_get df idx col)
  /\ populated_slots df' idx ≡ₚ new_column_number :: populated_slots df idx
  /\ (populated_slots df idx ≡ₚ seq 1 k ->
      new_column_number = S k /\ populated_slots df' idx ≡ₚ seq 1 (S k)).
Proof.
  intros Hidx Hnd Hlisted Hpop Hid new_column_number df'.
  split; [intros matches i m Hi; by apply (write_matches_slots matches df idx 1 i m)|].
  split.
  { intros matches i m Hi.
    by destruct (write_state_matches_slots matches df idx 1 i m Hidx Hi). }
  split; [intros m; by apply populated_below_new|].
  split; [by apply max_is_populated|].
  split; [by apply append_virtual_location_cloud_cell|].
  split; [intros col; by apply append_virtual_location_other_cells|].
  split.
  { intros col Hin Hs Hv. apply append_virtual_location_other_cells; try done.
    intros ->.
    pose proof (cloud_col_not_populated df idx all_location_cloud_id_columns
                  Hidx Hpop Hin) as Hb.
    cbv zeta in Hb. congruence. }
  split; [by apply append_virtual_location_slots|].
  by apply append_virtual_location_contiguous.
Qed.

(** A run of [slot_numbering]: the matched row of Texas, with slot 1 in
    use, gets the sentinel of Texas in slot 2. *)
Lemma slot_numbering_witness :
  populated_slots matched_texas_sheet 0 ≡ₚ seq 1 1
  /\ populated_slots
       (append_virtual_location ["Location Cloud ID 1"%string] matched_texas_sheet 0
          (texas_sentinel "virt_tx")) 0
     ≡ₚ seq 1 2.
Proof.
  assert (H0 : 0 < length (rows matched_texas_sheet)) by (vm_compute; lia).
  assert (H1 : NoDup (columns matched_texas_sheet))
    by (apply (bool_decide_unpack _); vm_compute; exact I).
  assert (H2 : forall col, col ∈ ["Location Cloud ID 1"%string] ->
                 col ∈ columns matched_texas_sheet
                 /\ Py.startswith "Location Cloud ID" col = true).
  { intros col Hcol. apply list_elem_of_singleton in Hcol as ->.
    split; [apply (bool_decide_unpack _); vm_compute; exact I|reflexivity]. }
  assert (H3 : forall col, col ∈ columns matched_texas_sheet ->
                 Py.startswith "Location Cloud ID" col = true ->
                 has_value (at_get matched_texas_sheet 0 col) = true ->
                 col ∈ ["Location Cloud ID 1"%string]).
  { intros col Hcol Hs _. simpl in Hcol.
    repeat (apply elem_of_cons in Hcol as [->|Hcol]); try discriminate Hs.
    - by apply list_elem_of_singleton.
    - by apply elem_of_nil in Hcol. }
  assert (H4 : has_value (Str (clean_id (location_id (texas_sentinel "virt_tx")))) = true)
    by (vm_compute; reflexivity).
  assert (H5 : populated_slots matched_texas_sheet 0 ≡ₚ seq 1 1)
    by (vm_compute; reflexivity).
  split; [exact H5|].
  destruct (slot_numbering matched_texas_sheet 0 ["Location Cloud ID 1"%string]
              (texas_sentinel "virt_tx") 1 H0 H1 H2 H3 H4)
    as (_ & _ & _ & _ & _ & _ & _ & _ & Hk).
  exact (proj2 (Hk H5)).
Defined.

(** C7 as stated fails: a row of the direct mapping whose second
    Location ID is set and whose first is not has slot 2 in use and slot 1
    not, and the backfiller adds slot 3. *)
Lemma partial_ids_counterexample :
  let api := [texas_office; texas_sentinel "virt_tx"] in
  let matched := snd (matching_pass difflib.ratio second_id_only_sheet api) in
  fst (matching_pass difflib.ratio second_id_only_sheet api) = [Case1]
  /\ populated_slots matched 0 = [2]
  /\ populated_slots (add_virtual_locations_after_matching matched api) 0 = [2; 3]
  /\ ~ (exists k, populated_slots matched 0 ≡ₚ seq 1 k)
  /\ ~ (exists k,
          populated_slots (add_virtual_locations_after_matching matched api) 0
          ≡ₚ seq 1 k).
Proof.
  intros api matched.
  assert (H1 : populated_slots matched 0 = [2]) by (vm_compute; reflexivity).
  assert (H2 : populated_slots (add_virtual_locations_after_matching matched api) 0
               = [2; 3]) by (vm_compute; reflexivity).
  split; [vm_compute; reflexivity|]. split; [exact H1|]. split; [exact H2|].
  split.
  - intros (k & Hk). rewrite H1 in Hk.
    assert (Hin : 2 ∈ seq 1 k) by (rewrite <- Hk; by left).
    apply Permutation_length in Hk. rewrite length_seq in Hk. simpl in Hk. subst k.
    apply list_elem_of_singleton in Hin. discriminate.
  - intros (k & Hk). rewrite H2 in Hk.
    apply Permutation_length in Hk as Hlen. rewrite length_seq in Hlen. simpl in Hlen.
    subst k. assert (Hin : 3 ∈ seq 1 2) by (rewrite <- Hk; right; by left).
    simpl in Hin. repeat (apply elem_of_cons in Hin as [Hin|Hin]; [discriminate|]).
    by apply elem_of_nil in Hin.
Qed.

(** ** The backfiller run twice *)

(** C8 at a sentinel whose id ends in ".0.0": the first run stores the
    id cleaned once, "7.0", in slot 2; the second run cleans the stored
    id again, "7", does not find "7.0" in the row and appends the
    sentinel a second time, in slot 3. With the id "virt_tx" the second
    run changes nothing. *)
Theorem backfill_twice_double_suffix :
  let api := [texas_office; texas_sentinel "7.0.0"] in
  let once := add_virtual_locations_after_matching matched_texas_sheet api in
  let twice := add_virtual_locations_after_matching once api in
  populated_slots matched_texas_sheet 0 = [1]
  /\ populated_slots once 0 = [1; 2]
  /\ at_get once 0 "Location Cloud ID 2" = Str "7.0"
  /\ populated_slots twice 0 = [1; 2; 3]
  /\ at_get twice 0 "Location Cloud ID 3" = Str "7.0"
  /\ twice ≠ once
  /\ (let api := [texas_office; texas_sentinel "virt_tx"] in
      let once := add_virtual_locations_after_matching matched_texas_sheet api in
      add_virtual_locations_after_matching once api = once).
Proof.
  intros api once twice.
  assert (H1 : populated_slots once 0 = [1; 2]) by (vm_compute; reflexivity).
  assert (H2 : populated_slots twice 0 = [1; 2; 3]) by (vm_compute; reflexivity).
  split; [vm_compute; reflexivity|]. split; [exact H1|].
  split; [vm_compute; reflexivity|]. split; [exact H2|].
  split; [vm_compute; reflexivity|]. split.
  - intros Heq. rewrite Heq, H1 in H2. discriminate H2.
  - vm_compute. reflexivity.
Qed.

(** ** The state-only block and the block that runs after it *)

(** C9 at a state-only sheet in which one row of five also carries a
    Location ID. The state-only block runs and leaves the Location Type
    of slot 1 and of the row blank. It then clears [needs_fuzzy_matching],
    and the [else] of the test on that flag, the direct mapping, runs as
    well: it looks up the row's Location ID and writes the catalog's
    Location Type, "In Person", into slot 1; with a Location ID column
    that has no number it writes it into the Location Type of the row. *)
Theorem state_only_then_direct_mapping :
  let api := [texas_office] in
  only_state_mapped state_only_sheet = true
  /\ fst (matching_pass difflib.ratio state_only_sheet api) = [Case2; Case1]
  /\ at_get (case2_block state_only_sheet api) 0 "Location Cloud ID 1" = Str "loc_b"
  /\ at_get (case2_block state_only_sheet api) 0 "Location Type 1" = Str ""
  /\ at_get (case2_block state_only_sheet api) 0 "Location Type" = Str ""
  /\ at_get (snd (matching_pass difflib.ratio state_only_sheet api)) 0 "Location Type 1"
     = Str "In Person"
  /\ fst (matching_pass difflib.ratio state_only_sheet_unnumbered api) = [Case2; Case1]
  /\ at_get (case2_block state_only_sheet_unnumbered api) 0 "Location Type" = Str ""
  /\ at_get (snd (matching_pass difflib.ratio state_only_sheet_unnumbered api)) 0
       "Location Type"
     = Str "In Person".
Proof. intros api. repeat split; vm_compute; reflexivity. Qed.

(** ** The backfiller over all rows *)

Lemma row_preserved_refl (i : nat) (d : DataFrame) : row_preserved i d d.
Proof. unfold row_preserved. repeat split; try done. Qed.

Lemma row_preserved_trans (i : nat) (d1 d2 d3 : DataFrame) :
  row_preserved i d1 d2 -> row_preserved i d2 d3 -> row_preserved i d1 d3.
Proof.
  intros (L1 & K1 & B1 & N1) (L2 & K2 & B2 & N2). unfold row_preserved.
  split; [congruence|]. split; [|split].
  - intros col Hcol. destruct (K1 col Hcol) as [Hin1 E1].
    destruct (K2 col Hin1) as [Hin2 E2]. split; [done|congruence].
  - intros col Hcol Hnot.
    destruct (decide (col ∈ columns d2)) as [Hin2|Hnot2].
    + destruct (K2 col Hin2) as [_ ->]. by apply B1.
    + by apply B2.
  - auto.
Qed.

Lemma row_preserved_at_set (i j : nat) (d : DataFrame) (col : string) (v : cell) :
  i ≠ j -> row_preserved i d (at_set d j col v).
Proof.
  intros Hij. unfold row_preserved. rewrite rows_length_at_set, columns_at_set.
  repeat split; try done.
  by rewrite at_get_at_set_other_row.
Qed.

Lemma row_preserved_ensure_column (i : nat) (st : DataFrame * nat) (col : string) :
  row_preserved i (fst st) (fst (ensure_column st col)).
Proof.
  destruct st as [d n]. unfold ensure_column. simpl.
  destruct (has_column d col) eqn:Hhas; simpl; [apply row_preserved_refl|].
  apply has_column_false in Hhas. unfold row_preserved.
  split; [apply rows_length_insert_column|]. split; [|split].
  - intros c Hc. split; [by apply has_column_insert_column|].
    apply at_get_insert_column_ne. by intros ->.
  - intros c Hc Hnot. rewrite columns_insert_column in Hc.
    apply elem_of_cons in Hc as [->|Hc]; [|done].
    unfold at_get, insert_column. simpl. rewrite list_lookup_fmap.
    destruct (rows d !! i); simpl; [|done]. by rewrite lookup_insert_eq.
  - intros Hnd. rewrite columns_insert_column. by apply NoDup_cons.
Qed.

Lemma row_preserved_append (i j : nat) (all_cols : list string) (d : DataFrame)
    (v : CatalogLocationRecord) :
  i ≠ j -> row_preserved i d (append_virtual_location all_cols d j v).
Proof.
  intros Hij. unfold append_virtual_location. cbv zeta.
  repeat (eapply row_preserved_trans; [|by apply row_preserved_at_set]).
  set (i0 := match last (sorted_by sort_key all_cols) with
             | Some last_col => get_loc d last_col + 1
             | None => length (columns d)
             end).
  eapply row_preserved_trans; [|apply row_preserved_ensure_column].
  eapply row_preserved_trans; [|apply row_preserved_ensure_column].
  eapply row_preserved_trans; [|apply row_preserved_ensure_column].
  apply (row_preserved_ensure_column i (d, i0)).
Qed.

Lemma row_preserved_backfill_row (api_locations_df : list CatalogLocationRecord)
    (all_cols : list string) (i j : nat) (d : DataFrame) :
  i ≠ j -> row_preserved i d (backfill_row api_locations_df all_cols d j).
Proof.
  intros Hij. unfold backfill_row.
  destruct (virtual_location_for_row api_locations_df d j); [|apply row_preserved_refl].
  destruct (virtual_already_exists d j _); [apply row_preserved_refl|].
  by apply row_preserved_append.
Qed.

Lemma row_preserved_fold (api_locations_df : list CatalogLocationRecord)
    (all_cols : list string) (i : nat) (l : list nat) (d : DataFrame) :
  i ∉ l ->
  row_preserved i d (fold_left (backfill_row api_locations_df all_cols) l d).
Proof.
  revert d. induction l as [|j l IH]; intros d Hnot; [apply row_preserved_refl|].
  simpl. apply not_elem_of_cons in Hnot as [Hij Hnot].
  eapply row_preserved_trans; [by apply row_preserved_backfill_row|by apply IH].
Qed.

Lemma filter_NoDup {A} (p : A -> bool) (l : list A) :
  NoDup l -> NoDup (List.filter p l).
Proof. rewrite !NoDup_ListNoDup. apply List.NoDup_filter. Qed.

(** The slots in use in a row that a step has left alone. *)
Lemma row_preserved_slots (i : nat) (d d' : DataFrame) :
  NoDup (columns d) -> row_preserved i d d' ->
  populated_slots d' i ≡ₚ populated_slots d i.
Proof.
  intros Hnd (_ & Hkeep & Hblank & Hnd'). unfold populated_slots.
  apply omap_Permutation.
  apply NoDup_Permutation.
  - apply filter_NoDup. auto.
  - by apply filter_NoDup.
  - intros col. rewrite !list_elem_of_In, !filter_In, <- !list_elem_of_In. split.
    + intros [Hin Hp]. apply andb_true_iff in Hp as [Hs Hv].
      destruct (decide (col ∈ columns d)) as [Hd|Hd].
      * split; [done|]. destruct (Hkeep col Hd) as [_ <-]. by rewrite Hs, Hv.
      * rewrite (Hblank col Hin Hd) in Hv. done.
    + intros [Hin Hp]. destruct (Hkeep col Hin) as [Hin' ->]. done.
Qed.

Lemma keeps_classification_refl (d : DataFrame) : keeps_classification d d.
Proof. by intros i. Qed.

Lemma keeps_classification_trans (d1 d2 d3 : DataFrame) :
  keeps_classification d1 d2 -> keeps_classification d2 d3 ->
  keeps_classification d1 d3.
Proof.
  intros H1 H2 i. destruct (H1 i) as [A1 B1]. destruct (H2 i) as [A2 B2].
  split; congruence.
Qed.

Lemma keeps_classification_append (all_cols : list string) (d : DataFrame) (j : nat)
    (v : CatalogLocationRecord) :
  keeps_classification d (append_virtual_location all_cols d j v).
Proof.
  intros i. unfold append_virtual_location. cbv zeta.
  split.
  - rewrite !at_get_at_set_ne by label_ne.
    by rewrite !ensure_column_at_get by label_ne.
  - rewrite !at_get_at_set_ne by label_ne.
    by rewrite !ensure_column_at_get by label_ne.
Qed.

Lemma keeps_classification_backfill_row (api_locations_df : list CatalogLocationRecord)
    (all_cols : list string) (d : DataFrame) (j : nat) :
  keeps_classification d (backfill_row api_locations_df all_cols d j).
Proof.
  unfold backfill_row.
  destruct (virtual_location_for_row api_locations_df d j);
    [|apply keeps_classification_refl].
  destruct (virtual_already_exists d j _); [apply keeps_classification_refl|].
  apply keeps_classification_append.
Qed.

Lemma keeps_classification_fold (api_locations_df : list CatalogLocationRecord)
    (all_cols : list string) (l : list nat) (d : DataFrame) :
  keeps_classification d (fold_left (backfill_row api_locations_df all_cols) l d).
Proof.
  revert d. induction l as [|j l IH]; intros d; [apply keeps_classification_refl|].
  simpl. eapply keeps_classification_trans;
    [apply keeps_classification_backfill_row|apply IH].
Qed.

Lemma virtual_location_for_row_keeps (api_locations_df : list CatalogLocationRecord)
    (d d' : DataFrame) (i : nat) :
  keeps_classification d d' ->
  virtual_location_for_row api_locations_df d' i
  = virtual_location_for_row api_locations_df d i.
Proof.
  intros H. destruct (H i) as [Ht Hs]. unfold virtual_location_for_row.
  by rewrite Ht, Hs.
Qed.

Lemma rows_length_backfill_row (api_locations_df : list CatalogLocationRecord)
    (all_cols : list string) (d : DataFrame) (j : nat) :
  length (rows (backfill_row api_locations_df all_cols d j)) = length (rows d).
Proof.
  destruct (row_preserved_backfill_row api_locations_df all_cols (S j) j d) as [H _];
    [lia|done].
Qed.

Lemma NoDup_backfill_row (api_locations_df : list CatalogLocationRecord)
    (all_cols : list string) (d : DataFrame) (j : nat) :
  NoDup (columns d) -> NoDup (columns (backfill_row api_locations_df all_cols d j)).
Proof.
  destruct (row_preserved_backfill_row api_locations_df all_cols (S j) j d)
    as (_ & _ & _ & H); [lia|done].
Qed.

Lemma rows_length_backfill_fold (api_locations_df : list CatalogLocationRecord)
    (all_cols : list string) (l : list nat) (d : DataFrame) :
  length (rows (fold_left (backfill_row api_locations_df all_cols) l d))
  = length (rows d).
Proof.
  revert d. induction l as [|j l IH]; intros d; [done|].
  simpl. by rewrite IH, rows_length_backfill_row.
Qed.

Lemma virtual_location_for_row_Some (api_locations_df : list CatalogLocationRecord)
    (d : DataFrame) (i : nat) (v : CatalogLocationRecord) :
  virtual_location_for_row api_locations_df d i = Some v ->
  v ∈ api_locations_df /\ notna (location_id v) = true.
Proof.
  unfold virtual_location_for_row.
  repeat match goal with
         | |- context [if ?c then None else _] => destruct c; [done|]
         end.
  cbv zeta.
  destruct (virtual_locations _ api_locations_df) as [|r ?] eqn:Hv; [done|].
  destruct (isna (location_id r)) eqn:Hna; [done|]. intros [= <-].
  split; [|unfold notna; by rewrite Hna].
  assert (Hin : In r (virtual_locations
                        (normalize_string (Str (Py.strip (str (at_get d i "State")))))
                        api_locations_df)) by (rewrite Hv; by left).
  unfold virtual_locations in Hin.
  apply filter_In in Hin as [Hin _]. apply filter_In in Hin as [Hin _].
  by apply list_elem_of_In.
Qed.

Lemma cloud_col_in_columns (all_cols : list string) (d : DataFrame) (j : nat)
    (v : CatalogLocationRecord) :
  numbered "Location Cloud ID" (max_number_for_row d j all_cols + 1)
  ∈ columns (append_virtual_location all_cols d j v).
Proof.
  unfold append_virtual_location. cbv zeta. rewrite !columns_at_set.
  set (i0 := match last (sorted_by sort_key all_cols) with
             | Some last_col => get_loc d last_col + 1
             | None => length (columns d)
             end).
  set (st1 := ensure_column (d, i0) _).
  set (cloud := numbered "Location Cloud ID" _).
  assert (H2 : cloud ∈ columns (fst (ensure_column st1 cloud))).
  { destruct st1 as [d1 n1]. unfold ensure_column.
    destruct (has_column d1 cloud) eqn:Hhas; cbn [fst].
    - by apply has_column_true.
    - rewrite columns_insert_column. by left. }
  destruct (row_preserved_ensure_column 0 (ensure_column st1 cloud)
              (numbered "Practice Cloud ID" (max_number_for_row d j all_cols + 1)))
    as (_ & K3 & _).
  destruct (K3 cloud H2) as [H3 _].
  destruct (row_preserved_ensure_column 0
              (ensure_column (ensure_column st1 cloud)
                 (numbered "Practice Cloud ID" (max_number_for_row d j all_cols + 1)))
              (numbered "Location Type" (max_number_for_row d j all_cols + 1)))
    as (_ & K4 & _).
  by destruct (K4 cloud H3) as [H4 _].
Qed.

Lemma exists_after_append (all_cols : list string) (d : DataFrame) (j : nat)
    (v : CatalogLocationRecord) :
  j < length (rows d) ->
  clean_id (Str (clean_id (location_id v))) = clean_id (location_id v) ->
  virtual_already_exists (append_virtual_location all_cols d j v) j
    (clean_id (location_id v)) = true.
Proof.
  intros Hj Hstable. unfold virtual_already_exists. apply existsb_exists.
  exists (numbered "Location Cloud ID" (max_number_for_row d j all_cols + 1)).
  split; [apply list_elem_of_In, cloud_col_in_columns|].
  rewrite startswith_cloud_numbered.
  rewrite append_virtual_location_cloud_cell; [|exact Hj].
  cbn [andb notna isna negb].
  by apply bool_decide_eq_true.
Qed.

Lemma exists_preserved (i : nat) (d d' : DataFrame) (id : string) :
  row_preserved i d d' ->
  virtual_already_exists d i id = true -> virtual_already_exists d' i id = true.
Proof.
  intros (_ & Hkeep & _). unfold virtual_already_exists. rewrite !existsb_exists.
  intros (col & Hin & Hp). apply list_elem_of_In in Hin.
  destruct (Hkeep col Hin) as [Hin' Heq].
  exists col. split; [by apply list_elem_of_In|]. by rewrite Heq.
Qed.

(** After the loop, every row that qualifies for a sentinel with a stable
    id has the id of the sentinel in one of its Location Cloud ID
    columns. *)
Lemma backfill_fold_exists (api_locations_df : list CatalogLocationRecord)
    (all_cols : list string) (l : list nat) (d : DataFrame) (i : nat)
    (v : CatalogLocationRecord) :
  ids_stable api_locations_df ->
  NoDup l ->
  i ∈ l ->
  i < length (rows d) ->
  virtual_location_for_row api_locations_df d i = Some v ->
  virtual_already_exists
    (fold_left (backfill_row api_locations_df all_cols) l d) i
    (clean_id (location_id v)) = true.
Proof.
  intros Hstable. revert d. induction l as [|j l IH]; intros d Hnd Hi Hlen Hv;
    [by apply elem_of_nil in Hi|].
  apply NoDup_cons in Hnd as [Hj Hnd]. simpl.
  apply elem_of_cons in Hi as [->|Hi].
  - eapply exists_preserved; [by apply row_preserved_fold|].
    unfold backfill_row. rewrite Hv.
    destruct (virtual_already_exists d j _) eqn:He; [done|].
    apply exists_after_append; [done|].
    apply virtual_location_for_row_Some in Hv as [Hin Hna]. by apply Hstable.
  - apply IH; try done.
    + by rewrite rows_length_backfill_row.
    + rewrite (virtual_location_for_row_keeps _ d); [done|].
      apply keeps_classification_backfill_row.
Qed.

Lemma fold_left_fixed {A B} (f : A -> B -> A) (l : list B) (a : A) :
  (forall b, b ∈ l -> f a b = a) -> fold_left f l a = a.
Proof.
  induction l as [|b l IH]; intros H; [done|].
  simpl. rewrite (H b) by by left. apply IH. intros b' Hb'. apply H. by right.
Qed.

Lemma add_virtual_locations_cases (locations_df : DataFrame)
    (api_locations_df : list CatalogLocationRecord) :
  add_virtual_locations_after_matching locations_df api_locations_df = locations_df
  \/ add_virtual_locations_after_matching locations_df api_locations_df
     = fold_left
         (backfill_row api_locations_df
            (List.filter (Py.startswith "Location Cloud ID") (columns locations_df)))
         (seq 0 (length (rows locations_df))) locations_df.
Proof.
  unfold add_virtual_locations_after_matching.
  destruct (negb (has_column locations_df "Location Type")); [by left|].
  destruct (negb (has_column locations_df "State")); [by left|].
  destruct (negb _); [by left|by right].
Qed.

(** X18. The backfiller run a second time changes nothing when the ids
    of the catalog are stable under the cleanup. *)
Lemma backfill_idempotent (locations_df : DataFrame)
    (api_locations_df : list CatalogLocationRecord) :
  ids_stable api_locations_df ->
  add_virtual_locations_after_matching
    (add_virtual_locations_after_matching locations_df api_locations_df)
    api_locations_df
  = add_virtual_locations_after_matching locations_df api_locations_df.
Proof.
  intros Hstable.
  destruct (add_virtual_locations_cases locations_df api_locations_df) as [E|E];
    [by rewrite !E|].
  set (once := add_virtual_locations_after_matching locations_df api_locations_df) in *.
  destruct (add_virtual_locations_cases once api_locations_df) as [E2|E2]; [done|].
  rewrite E2. apply fold_left_fixed. intros i Hi.
  apply list_elem_of_In, in_seq in Hi. simpl in Hi.
  unfold backfill_row.
  destruct (virtual_location_for_row api_locations_df once i) as [v|] eqn:Hv; [|done].
  assert (Hex : virtual_already_exists once i (clean_id (location_id v)) = true);
    [|by rewrite Hex].
  clear E2. revert Hi Hv. rewrite E. intros Hi Hv.
  rewrite rows_length_backfill_fold in Hi.
  rewrite (virtual_location_for_row_keeps _ locations_df) in Hv
    by apply keeps_classification_fold.
  apply backfill_fold_exists; try done.
  - apply NoDup_ListNoDup, seq_NoDup.
  - apply list_elem_of_In, in_seq. lia.
  - lia.
Qed.

(** ** The normal form of a text and the scorer *)

Lemma lower_char_space (c : ascii) : Py.is_space (Py.lower_char c) = Py.is_space c.
Proof. destruct c as [[] [] [] [] [] [] [] []]; reflexivity. Qed.

Lemma lower_char_digit (c : ascii) : Py.is_digit (Py.lower_char c) = Py.is_digit c.
Proof. destruct c as [[] [] [] [] [] [] [] []]; reflexivity. Qed.

Lemma lower_char_idem (c : ascii) : Py.lower_char (Py.lower_char c) = Py.lower_char c.
Proof. destruct c as [[] [] [] [] [] [] [] []]; reflexivity. Qed.

Lemma lower_char_of_digit (c : ascii) : Py.is_digit c = true -> Py.lower_char c = c.
Proof. destruct c as [[] [] [] [] [] [] [] []]; (reflexivity || discriminate). Qed.

Lemma chars_app (a b : string) : Py.chars (a +:+ b) = Py.chars a ++ Py.chars b.
Proof.
  unfold Py.chars. induction a as [|c a IH]; [done|].
  cbn [String.append list_ascii_of_string]. simpl. by rewrite <- IH.
Qed.

(** White space at the ends. *)
Lemma lstrip_decompose (l : list ascii) :
  exists sp, forallb Py.is_space sp = true /\ l = sp ++ Py.lstrip_chars l.
Proof.
  induction l as [|c l (sp & Hsp & IH)]; [by exists []|].
  simpl. destruct (Py.is_space c) eqn:Hc.
  - exists (c :: sp). simpl. rewrite Hc, Hsp. split; [done|]. by rewrite <- IH.
  - by exists [].
Qed.

Lemma strip_decompose (l : list ascii) :
  exists sp1 sp2, forallb Py.is_space sp1 = true /\ forallb Py.is_space sp2 = true
    /\ l = sp1 ++ Py.strip_chars l ++ sp2.
Proof.
  destruct (lstrip_decompose l) as (sp1 & H1 & E1).
  destruct (lstrip_decompose (rev (Py.lstrip_chars l))) as (sp2 & H2 & E2).
  exists sp1, (rev sp2). split; [done|]. split; [by rewrite forallb_rev|].
  unfold Py.strip_chars. rewrite <- rev_app_distr, <- E2, rev_involutive. done.
Qed.

(** [split] and white space. *)
Lemma split_ws_go_spaces (sp cur : list ascii) :
  forallb Py.is_space sp = true ->
  Py.split_ws_go sp cur = match cur with [] => [] | _ => [Py.text (rev cur)] end.
Proof.
  revert cur. induction sp as [|c sp IH]; intros cur H; [done|].
  simpl in H. apply andb_true_iff in H as [Hc H]. simpl. rewrite Hc.
  destruct cur; rewrite (IH [] H); done.
Qed.

Lemma split_ws_go_app_spaces (l sp cur : list ascii) :
  forallb Py.is_space sp = true ->
  Py.split_ws_go (l ++ sp) cur = Py.split_ws_go l cur.
Proof.
  intros H. revert cur. induction l as [|c l IH]; intros cur.
  - simpl. by apply split_ws_go_spaces.
  - simpl. destruct (Py.is_space c); [destruct cur|]; by rewrite IH.
Qed.

Lemma split_ws_go_spaces_app (sp l : list ascii) :
  forallb Py.is_space sp = true ->
  Py.split_ws_go (sp ++ l) [] = Py.split_ws_go l [].
Proof.
  induction sp as [|c sp IH]; intros H; [done|].
  simpl in H. apply andb_true_iff in H as [Hc H]. simpl. rewrite Hc. by apply IH.
Qed.

Lemma split_ws_go_strip (l : list ascii) :
  Py.split_ws_go (Py.strip_chars l) [] = Py.split_ws_go l [].
Proof.
  destruct (strip_decompose l) as (sp1 & sp2 & H1 & H2 & E).
  rewrite E at 2. rewrite split_ws_go_spaces_app by done.
  by rewrite split_ws_go_app_spaces.
Qed.

Lemma lower_text (l : list ascii) : Py.lower (Py.text l) = Py.text (map Py.lower_char l).
Proof. unfold Py.lower. by rewrite chars_text. Qed.

Lemma split_ws_go_lower (l cur : list ascii) :
  Py.split_ws_go (map Py.lower_char l) (map Py.lower_char cur)
  = map Py.lower (Py.split_ws_go l cur).
Proof.
  revert cur. induction l as [|c l IH]; intros cur.
  - simpl. destruct cur; [done|]. simpl. by rewrite lower_text, map_app, map_rev.
  - simpl. rewrite lower_char_space. destruct (Py.is_space c).
    + pose proof (IH []) as E. simpl in E.
      destruct cur; simpl; [exact E|].
      rewrite E. by rewrite lower_text, map_app, map_rev.
    + apply (IH (c :: cur)).
Qed.

(** The normalizer in one formula: the words of the text, in lower case,
    with one space between them. *)
Lemma normalize_string_words (s : string) :
  normalize_string (Str s) = Py.join " " (map Py.lower (Py.split s)).
Proof.
  unfold normalize_string. destruct (Py.is_empty s) eqn:He.
  - apply is_empty_true in He. by subst.
  - unfold Py.split, Py.lower, Py.strip. rewrite !chars_text.
    pose proof (split_ws_go_lower (Py.strip_chars (Py.chars s)) []) as E.
    simpl in E. rewrite E. by rewrite split_ws_go_strip.
Qed.

Lemma split_ws_go_words (l cur : list ascii) :
  forallb (fun c => negb (Py.is_space c)) cur = true ->
  Forall is_word (Py.split_ws_go l cur).
Proof.
  assert (Hw : forall cur, cur ≠ [] ->
            forallb (fun c => negb (Py.is_space c)) cur = true ->
            is_word (Py.text (rev cur))).
  { intros cur0 Hne H. unfold is_word. rewrite chars_text. split.
    - intros E. apply Hne. apply (f_equal (@rev _)) in E. by rewrite rev_involutive in E.
    - by rewrite forallb_rev. }
  revert cur. induction l as [|c l IH]; intros cur H.
  - simpl. destruct cur; [constructor|]. constructor; [by apply Hw|constructor].
  - simpl. destruct (Py.is_space c) eqn:Hc.
    + destruct cur; [by apply IH|]. constructor; [by apply Hw|by apply IH].
    + apply IH. simpl. by rewrite Hc.
Qed.

Lemma is_word_lower (w : string) : is_word w -> is_word (Py.lower w).
Proof.
  intros [Hne H]. unfold is_word, Py.lower. rewrite chars_text. split.
  - destruct (Py.chars w); [done|discriminate].
  - rewrite forallb_forall in *. intros c Hc. apply in_map_iff in Hc as (c0 & <- & Hc0).
    rewrite lower_char_space. by apply H.
Qed.

Lemma split_ws_go_word_app (w l cur : list ascii) :
  forallb (fun c => negb (Py.is_space c)) w = true ->
  Py.split_ws_go (w ++ l) cur = Py.split_ws_go l (rev w ++ cur).
Proof.
  revert cur. induction w as [|c w IH]; intros cur H; [done|].
  simpl in H. apply andb_true_iff in H as [Hc H]. apply negb_true_iff in Hc.
  simpl. rewrite Hc. rewrite IH by done. by rewrite <- app_assoc.
Qed.

Lemma join_cons (sep p : string) (rest : list string) :
  rest ≠ [] -> Py.join sep (p :: rest) = p +:+ sep +:+ Py.join sep rest.
Proof. by destruct rest. Qed.

Lemma split_join (ws : list string) :
  Forall is_word ws -> Py.split (Py.join " " ws) = ws.
Proof.
  unfold Py.split. induction ws as [|w ws IH]; intros H; [done|].
  apply Forall_cons in H as [[Hne Hw] H].
  destruct ws as [|w' ws].
  - simpl. rewrite <- (app_nil_r (Py.chars w)).
    rewrite split_ws_go_word_app by done. simpl. rewrite app_nil_r.
    destruct (rev (Py.chars w)) eqn:E.
    + apply (f_equal (@rev _)) in E. rewrite rev_involutive in E. done.
    + rewrite <- E, rev_involutive. by rewrite text_chars.
  - rewrite join_cons by done. rewrite !chars_app.
    rewrite split_ws_go_word_app by done. rewrite app_nil_r.
    change (Py.chars " ") with [" "%char]. cbn [app Py.split_ws_go].
    change (Py.is_space " ") with true. cbv iota.
    destruct (rev (Py.chars w)) eqn:E.
    + apply (f_equal (@rev _)) in E. rewrite rev_involutive in E. done.
    + rewrite <- E, rev_involutive, text_chars. f_equal. by apply IH.
Qed.

Lemma lower_idem (s : string) : Py.lower (Py.lower s) = Py.lower s.
Proof.
  unfold Py.lower. rewrite chars_text, map_map. f_equal.
  apply map_ext. intros c. apply lower_char_idem.
Qed.

(** The words of a text in lower case, joined by one space, are a normal
    form. *)
Lemma normalize_words_fixed (s : string) :
  normalize_string (Str (Py.join " " (map Py.lower (Py.split s))))
  = Py.join " " (map Py.lower (Py.split s)).
Proof.
  rewrite normalize_string_words. rewrite split_join.
  - rewrite map_map. f_equal. apply map_ext. intros w. apply lower_idem.
  - apply Forall_fmap. eapply Forall_impl; [by apply (split_ws_go_words _ [])|].
    intros w Hw. by apply is_word_lower.
Qed.

(** X1. The normalizer is idempotent: normalizing a normalized text
    changes nothing. *)
Theorem normalize_string_idempotent (s : cell) :
  normalize_string (Str (normalize_string s)) = normalize_string s.
Proof.
  destruct s as [|s]; [reflexivity|].
  rewrite (normalize_string_words s).
  apply normalize_words_fixed.
Qed.

(** Digit runs and the characters between them. *)
Lemma digit_runs_go_sep (w l cur : list ascii) (c : ascii) :
  Py.is_digit c = false ->
  Py.digit_runs_go (w ++ c :: l) cur = Py.digit_runs_go w cur ++ Py.digit_runs_go l [].
Proof.
  intros Hc. revert cur. induction w as [|d w IH]; intros cur.
  - simpl. rewrite Hc. by destruct cur.
  - simpl. destruct (Py.is_digit d); [apply IH|].
    destruct cur; by rewrite IH.
Qed.

Lemma is_space_not_digit (c : ascii) : Py.is_space c = true -> Py.is_digit c = false.
Proof.
  intros H. destruct (Py.is_digit c) eqn:E; [|done].
  apply is_digit_not_space in E. congruence.
Qed.

Lemma digit_runs_go_spaces_app (sp l : list ascii) :
  forallb Py.is_space sp = true ->
  Py.digit_runs_go (sp ++ l) [] = Py.digit_runs_go l [].
Proof.
  induction sp as [|c sp IH]; intros H; [done|].
  simpl in H. apply andb_true_iff in H as [Hc H]. simpl.
  rewrite (is_space_not_digit c Hc). by apply IH.
Qed.

Lemma digit_runs_go_app_spaces (l sp cur : list ascii) :
  forallb Py.is_space sp = true ->
  Py.digit_runs_go (l ++ sp) cur = Py.digit_runs_go l cur.
Proof.
  intros H. destruct sp as [|c sp]; [by rewrite app_nil_r|].
  simpl in H. apply andb_true_iff in H as [Hc H].
  rewrite digit_runs_go_sep by by apply is_space_not_digit.
  rewrite <- (app_nil_r sp), digit_runs_go_spaces_app by done. simpl.
  by rewrite app_nil_r.
Qed.

Lemma digit_runs_go_strip (l : list ascii) :
  Py.digit_runs_go (Py.strip_chars l) [] = Py.digit_runs_go l [].
Proof.
  destruct (strip_decompose l) as (sp1 & sp2 & H1 & H2 & E).
  rewrite E at 2. rewrite digit_runs_go_spaces_app by done.
  by rewrite digit_runs_go_app_spaces.
Qed.

Lemma digit_runs_go_lower (l cur : list ascii) :
  Py.digit_runs_go (map Py.lower_char l) cur = Py.digit_runs_go l cur.
Proof.
  revert cur. induction l as [|c l IH]; intros cur; [done|].
  simpl. rewrite lower_char_digit. destruct (Py.is_digit c) eqn:Hc.
  - rewrite lower_char_of_digit by done. apply IH.
  - destruct cur; by rewrite IH.
Qed.

Lemma digit_runs_go_join_split (l cur : list ascii) :
  Py.digit_runs_go (Py.chars (Py.join " " (Py.split_ws_go l cur))) []
  = Py.digit_runs_go (rev cur ++ l) [].
Proof.
  revert cur. induction l as [|c l IH]; intros cur.
  - simpl. destruct cur; [done|]. cbn [Py.join]. by rewrite chars_text, app_nil_r.
  - cbn [Py.split_ws_go]. destruct (Py.is_space c) eqn:Hc.
    + destruct cur as [|c0 cur].
      * rewrite IH. simpl. by rewrite (is_space_not_digit c Hc).
      * rewrite (digit_runs_go_sep (rev (c0 :: cur)) l [] c) by by apply is_space_not_digit.
        destruct (Py.split_ws_go l []) as [|w ws] eqn:E.
        -- cbn [Py.join]. rewrite chars_text.
           specialize (IH []). rewrite E in IH. simpl in IH.
           by rewrite <- IH, app_nil_r.
        -- rewrite join_cons by done. rewrite !chars_app, chars_text.
           change (Py.chars " ") with [" "%char]. cbn [app].
           rewrite (digit_runs_go_sep (rev (c0 :: cur)) _ [] " "%char) by reflexivity.
           f_equal. specialize (IH []). by rewrite E in IH.
    + rewrite IH. cbn [rev]. by rewrite <- app_assoc.
Qed.

Lemma findall_digits_normalize (s : string) :
  Py.findall_digits (normalize_string (Str s)) = Py.findall_digits s.
Proof.
  unfold normalize_string. destruct (Py.is_empty s) eqn:He.
  - apply is_empty_true in He. by subst.
  - unfold Py.findall_digits, Py.split.
    rewrite (digit_runs_go_join_split _ []). cbn [rev app].
    unfold Py.lower, Py.strip. rewrite !chars_text.
    by rewrite digit_runs_go_lower, digit_runs_go_strip.
Qed.

Lemma extract_numbers_findall (s : string) :
  extract_numbers (Str s) = Py.findall_digits s.
Proof.
  unfold extract_numbers. destruct (Py.is_empty s) eqn:He; [|done].
  apply is_empty_true in He. by subst.
Qed.

(** X2. The digit runs of a text are those of its normal form: lower
    case, trimming and the collapse of white space move no digit. *)
Theorem extract_numbers_normalize_string (s : cell) :
  extract_numbers (Str (normalize_string s)) = extract_numbers s.
Proof.
  destruct s as [|s]; [reflexivity|].
  by rewrite !extract_numbers_findall, findall_digits_normalize.
Qed.

Lemma same_normal_form_same_numbers (a b : cell) :
  normalize_string a = normalize_string b ->
  normalize_string a ≠ ""%string ->
  extract_numbers a = extract_numbers b.
Proof.
  intros H Hne.
  destruct a as [|sa]; [by destruct Hne|].
  destruct b as [|sb]; [by destruct Hne|].
  rewrite !extract_numbers_findall.
  rewrite <- (findall_digits_normalize sa), <- (findall_digits_normalize sb).
  by rewrite H.
Qed.

Section ScorerInvariance.

Variable ratio : string -> string -> Q.

(** X3. The scorer gives the same verdict on two texts and on their
    normal forms, whatever the ratio and the threshold: the matcher, which
    hands it normalized texts, loses nothing by that. *)
Theorem fuzzy_match_score_normalized (a b : cell) (t : Q) :
  fuzzy_match_score ratio (Str (normalize_string a)) (Str (normalize_string b)) t
  = fuzzy_match_score ratio a b t.
Proof.
  assert (N : forall c, normalize_string (Str (normalize_string c)) = normalize_string c).
  { intros [|s]; [reflexivity|].
    rewrite (normalize_string_words s). apply normalize_words_fixed. }
  assert (E : forall c, extract_numbers (Str (normalize_string c)) = extract_numbers c).
  { intros [|s]; [reflexivity|].
    by rewrite !extract_numbers_findall, findall_digits_normalize. }
  unfold fuzzy_match_score. by rewrite !N, !E.
Qed.

(** X4. A text is similar to itself exactly when it is not blank, and a
    blank text (missing, empty or white space only) is similar to nothing,
    on either side, whatever the ratio and the threshold. *)
Theorem fuzzy_match_score_self (a : cell) (t : Q) :
  (fuzzy_match_score ratio a a t = true <-> normalize_string a ≠ ""%string)
  /\ (forall b, normalize_string a = ""%string ->
        fuzzy_match_score ratio a b t = false /\ fuzzy_match_score ratio b a t = false).
Proof.
  split.
  - unfold fuzzy_match_score. cbv zeta.
    destruct (Py.is_empty (normalize_string a)) eqn:He; cbn [orb].
    + apply is_empty_true in He. split; [done|]. intros H. by destruct H.
    + apply is_empty_false in He. split; [done|]. intros _.
      rewrite (bool_decide_eq_false_2 (extract_numbers a ≠ extract_numbers a))
        by (intros H; by apply H).
      rewrite andb_false_r.
      destruct (_ || _); by rewrite bool_decide_eq_true_2.
  - intros b H. unfold fuzzy_match_score. cbv zeta. rewrite H.
    change (Py.is_empty "") with true. by rewrite orb_true_r.
Qed.

(** X5. Two texts with the same non-blank normal form, that is, texts
    that differ in case and white space only, are similar whatever the
    ratio and the threshold. *)
Theorem same_normal_form_matches (a b : cell) (t : Q) :
  normalize_string a = normalize_string b ->
  normalize_string a ≠ ""%string ->
  fuzzy_match_score ratio a b t = true.
Proof.
  intros Heq Hne. unfold fuzzy_match_score. cbv zeta.
  rewrite (same_normal_form_same_numbers a b Heq Hne). rewrite <- Heq.
  apply is_empty_false in Hne. rewrite Hne. cbn [orb].
  rewrite (bool_decide_eq_false_2 (extract_numbers b ≠ extract_numbers b))
    by (intros H; by apply H).
  rewrite andb_false_r.
  destruct (_ || _); by rewrite bool_decide_eq_true_2.
Qed.

End ScorerInvariance.

(** X6. When one of two texts has nothing but digits and white space,
    as a ZIP has, the scorer accepts the pair exactly when the normal
    forms are equal: the threshold and the ratio play no part. *)
Theorem numbers_only_exact (ratio : string -> string -> Q) (a b : cell) (t : Q) :
  text_without_numbers a = ""%string \/ text_without_numbers b = ""%string ->
  fuzzy_match_score ratio a b t = true
  <-> normalize_string a = normalize_string b /\ normalize_string a ≠ ""%string.
Proof.
  intros Hdigits. unfold fuzzy_match_score. cbv zeta.
  fold (text_without_numbers a). fold (text_without_numbers b).
  destruct (Py.is_empty (normalize_string a)) eqn:Ea; cbn [orb].
  { apply is_empty_true in Ea. split; [done|]. by intros [_ H]. }
  apply is_empty_false in Ea.
  destruct (Py.is_empty (normalize_string b)) eqn:Eb; cbn [orb].
  { apply is_empty_true in Eb. split; [done|]. intros [H _]. congruence. }
  destruct (nonempty (extract_numbers a) && nonempty (extract_numbers b)
            && bool_decide (extract_numbers a ≠ extract_numbers b)) eqn:Eg.
  { split; [done|]. intros [H _]. exfalso.
    apply andb_true_iff in Eg as [_ Eg]. apply bool_decide_eq_true in Eg.
    by apply Eg, same_normal_form_same_numbers. }
  assert (Ed : Py.is_empty (text_without_numbers a) || Py.is_empty (text_without_numbers b)
               = true).
  { destruct Hdigits as [-> | ->]; change (Py.is_empty "") with true;
      [reflexivity|apply orb_true_r]. }
  rewrite Ed. rewrite bool_decide_eq_true.
  split; [intros H; split; [exact H|exact Ea]|intros [H _]; exact H].
Qed.

Lemma numbers_only_exact_witness :
  fuzzy_match_score difflib.ratio (Str "07054") (Str " 07054 ") (8 # 10) = true
  <-> normalize_string (Str "07054") = normalize_string (Str " 07054 ")
      /\ normalize_string (Str "07054") ≠ ""%string.
Proof.
  apply (numbers_only_exact difflib.ratio (Str "07054") (Str " 07054 ") (8 # 10)).
  left. vm_compute. reflexivity.
Defined.

Lemma same_normal_form_matches_witness :
  fuzzy_match_score difflib.ratio (Str "  4 Century   DR ") (Str "4 century dr") (7 # 10)
  = true.
Proof.
  apply (same_normal_form_matches difflib.ratio).
  - vm_compute. reflexivity.
  - vm_compute. discriminate.
Defined.

(** ** Replacing the address of a row: what is written *)

Lemma set_if_column_other_row (df : DataFrame) (idx idx' : nat) (col col' : string) (v : cell) :
  idx ≠ idx' -> at_get (set_if_column df idx col v) idx' col' = at_get df idx' col'.
Proof.
  intros Hne. unfold set_if_column.
  destruct (has_column df col); [|done]. apply at_get_at_set_other_row. done.
Qed.

Lemma set_if_column_eq (df : DataFrame) (idx : nat) (col : string) (v : cell) :
  idx < length (rows df) -> has_column df col = true ->
  at_get (set_if_column df idx col v) idx col = v.
Proof.
  intros Hi Hc. unfold set_if_column. rewrite Hc. by apply at_get_at_set_eq.
Qed.

Lemma has_column_set_if_column (df : DataFrame) (idx : nat) (col c : string) (v : cell) :
  has_column (set_if_column df idx col v) c = has_column df c.
Proof. unfold has_column. by rewrite set_if_column_columns. Qed.

Lemma replace_address_columns (df : DataFrame)
    (api_locations_df : list CatalogLocationRecord) (row_idx : nat) (location_cloud_id : cell) :
  columns (replace_address_values_from_matched_location df api_locations_df row_idx
             location_cloud_id) = columns df.
Proof.
  unfold replace_address_values_from_matched_location.
  destruct (_ || _); [done|]. cbv zeta.
  destruct (List.filter _ api_locations_df) as [|location_row ?]; [done|].
  match goal with |- context [if ?c then _ else _] => destruct c end;
    rewrite ?columns_at_set, !set_if_column_columns; done.
Qed.

Lemma replace_address_rows (df : DataFrame)
    (api_locations_df : list CatalogLocationRecord) (row_idx : nat) (location_cloud_id : cell) :
  length (rows (replace_address_values_from_matched_location df api_locations_df row_idx
                  location_cloud_id)) = length (rows df).
Proof.
  unfold replace_address_values_from_matched_location.
  destruct (_ || _); [done|]. cbv zeta.
  destruct (List.filter _ api_locations_df) as [|location_row ?]; [done|].
  match goal with |- context [if ?c then _ else _] => destruct c end;
    rewrite ?rows_length_at_set, !set_if_column_rows; done.
Qed.

Lemma replace_address_other_row (df : DataFrame)
    (api_locations_df : list CatalogLocationRecord) (row_idx idx : nat)
    (location_cloud_id : cell) (col : string) :
  idx ≠ row_idx ->
  at_get (replace_address_values_from_matched_location df api_locations_df row_idx
            location_cloud_id) idx col = at_get df idx col.
Proof.
  intros Hne. unfold replace_address_values_from_matched_location.
  destruct (_ || _); [done|]. cbv zeta.
  destruct (List.filter _ api_locations_df) as [|location_row ?]; [done|].
  match goal with |- context [if ?c then _ else _] => destruct c end;
    rewrite ?at_get_at_set_other_row by done;
    rewrite !set_if_column_other_row by done; done.
Qed.

(** X7. The replacement of the address of a row leaves the labels and
    the number of rows as they are, and writes to no cell but the five
    address cells of that row. *)
Theorem replace_address_frame (df : DataFrame) (api_locations_df : list CatalogLocationRecord)
    (row_idx : nat) (location_cloud_id : cell) :
  let df' := replace_address_values_from_matched_location df api_locations_df row_idx
               location_cloud_id in
  columns df' = columns df
  /\ length (rows df') = length (rows df)
  /\ (forall idx col, col ∉ address_labels -> at_get df' idx col = at_get df idx col)
  /\ (forall idx col, idx ≠ row_idx -> at_get df' idx col = at_get df idx col).
Proof.
  intros df'. unfold df'.
  split; [apply replace_address_columns|]. split; [apply replace_address_rows|].
  split; [intros idx col Hcol; by apply replace_address_at_get|].
  intros idx col Hne. by apply replace_address_other_row.
Qed.

(** X8. When the catalog has a record with the id, the first such
    record gives the row its Address Line 1, Address Line 2, City and
    State, also when the record has none: a missing or empty component of
    the record blanks the cell of the row. The ZIP is different: a missing
    or empty ZIP of the record leaves the ZIP of the row as it is. *)
Theorem replace_address_overwrites (df : DataFrame)
    (api_locations_df : list CatalogLocationRecord) (row_idx : nat)
    (id : string) (r : CatalogLocationRecord) :
  row_idx < length (rows df) ->
  Py.strip id ≠ ""%string ->
  first_with_id api_locations_df (Str id) = Some r ->
  let df' := replace_address_values_from_matched_location df api_locations_df row_idx
               (Str id) in
  (has_column df "Address Line 1" = true ->
     at_get df' row_idx "Address Line 1" = address_value (address_1 r))
  /\ (has_column df "Address Line 2" = true ->
        at_get df' row_idx "Address Line 2" = address_value (address_2 r))
  /\ (has_column df "City" = true -> at_get df' row_idx "City" = address_value (city r))
  /\ (has_column df "State" = true -> at_get df' row_idx "State" = address_value (state r))
  /\ (zip r = NaN \/ zip r = Str "" ->
        at_get df' row_idx "ZIP" = at_get df row_idx "ZIP").
Proof.
  intros Hidx Hid Hfirst df'. unfold df', replace_address_values_from_matched_location.
  assert (E0 : negb (truthy (Str id)) || isna (Str id)
               || Py.is_empty (Py.strip (str (Str id))) = false).
  { cbn [isna str truthy]. rewrite orb_false_r.
    apply orb_false_iff. split.
    - apply negb_false_iff, negb_true_iff, is_empty_false. intros ->. by apply Hid.
    - by apply is_empty_false. }
  rewrite E0. cbv zeta.
  unfold first_with_id in Hfirst.
  destruct (List.filter _ api_locations_df) as [|location_row rest]; [done|].
  injection Hfirst as ->.
  set (d1 := set_if_column df row_idx "Address Line 1" _).
  set (d2 := set_if_column d1 row_idx "Address Line 2" _).
  set (d3 := set_if_column d2 row_idx "City" _).
  set (d4 := set_if_column d3 row_idx "State" _).
  assert (L1 : row_idx < length (rows d1)) by (unfold d1; by rewrite set_if_column_rows).
  assert (L2 : row_idx < length (rows d2)) by (unfold d2; by rewrite set_if_column_rows).
  assert (L3 : row_idx < length (rows d3)) by (unfold d3; by rewrite set_if_column_rows).
  assert (G : forall col, col ≠ "ZIP"%string ->
            at_get (if has_column d4 "ZIP" && notna (zip r)
                       && negb (bool_decide (zip r = Str ""))
                    then at_set d4 row_idx "ZIP"
                           (Str (if Py.isdigit (Py.strip (str (zip r)))
                                    && (String.length (Py.strip (str (zip r))) <? 5)
                                 then zfill5 (Py.strip (str (zip r)))
                                 else Py.strip (str (zip r))))
                    else d4) row_idx col
            = at_get d4 row_idx col).
  { intros col Hc. destruct (_ && _ && _); [|done]. by apply at_get_at_set_ne. }
  split; [|split; [|split; [|split]]].
  - intros Hc. rewrite G by done. unfold d4, d3, d2.
    rewrite !set_if_column_at_get by done. by apply set_if_column_eq.
  - intros Hc. rewrite G by done. unfold d4, d3.
    rewrite !set_if_column_at_get by done. apply set_if_column_eq; [done|].
    unfold d1. by rewrite has_column_set_if_column.
  - intros Hc. rewrite G by done. unfold d4.
    rewrite !set_if_column_at_get by done. apply set_if_column_eq; [done|].
    unfold d2, d1. by rewrite !has_column_set_if_column.
  - intros Hc. rewrite G by done. apply set_if_column_eq; [done|].
    unfold d3, d2, d1. by rewrite !has_column_set_if_column.
  - intros Hz.
    assert (Ez : has_column d4 "ZIP" && notna (zip r)
                 && negb (bool_decide (zip r = Str "")) = false).
    { destruct Hz as [-> | ->]; [by rewrite andb_false_r|].
      rewrite bool_decide_eq_true_2 by done. by rewrite andb_false_r. }
    rewrite Ez. unfold d4, d3, d2, d1. by rewrite !set_if_column_at_get by done.
Qed.

(** [zfill(5)] on a text of digits. *)
Lemma int_zero_prefix (s : string) : Py.int (String "0" s) = Py.int s.
Proof.
  unfold Py.int. cbn [NilEmpty.uint_of_string].
  destruct (NilEmpty.uint_of_string s) as [d|]; reflexivity.
Qed.

Lemma int_zeros_prefix (k : nat) (s : string) :
  Py.int (Py.text (repeat "0"%char k) +:+ s) = Py.int s.
Proof.
  induction k as [|k IH]; [done|].
  change (Py.text (repeat "0"%char (S k)) +:+ s)
    with (String "0" (Py.text (repeat "0"%char k) +:+ s)).
  by rewrite int_zero_prefix.
Qed.

Lemma length_zeros_prefix (k : nat) (s : string) :
  String.length (Py.text (repeat "0"%char k) +:+ s) = k + String.length s.
Proof.
  induction k as [|k IH]; [done|].
  change (Py.text (repeat "0"%char (S k)) +:+ s)
    with (String "0" (Py.text (repeat "0"%char k) +:+ s)).
  simpl. by rewrite IH.
Qed.

Lemma isdigit_zeros_prefix (k : nat) (s : string) :
  Py.isdigit s = true -> Py.isdigit (Py.text (repeat "0"%char k) +:+ s) = true.
Proof.
  intros H. induction k as [|k IH]; [done|].
  change (Py.text (repeat "0"%char (S k)) +:+ s)
    with (String "0" (Py.text (repeat "0"%char k) +:+ s)).
  unfold Py.isdigit in *. unfold Py.chars in *. cbn [list_ascii_of_string].
  destruct (list_ascii_of_string (Py.text (repeat "0"%char k) +:+ s)) eqn:E; [done|].
  cbn [forallb]. cbn [forallb] in IH. by rewrite IH.
Qed.

(** X9. A ZIP of the record that is all digits is written with at least
    five characters, all digits, and denotes the number it denoted: a ZIP
    that lost leading zeros gets them back. *)
Theorem replace_address_zip_digits (df : DataFrame)
    (api_locations_df : list CatalogLocationRecord) (row_idx : nat)
    (id z : string) (r : CatalogLocationRecord) :
  row_idx < length (rows df) ->
  Py.strip id ≠ ""%string ->
  first_with_id api_locations_df (Str id) = Some r ->
  has_column df "ZIP" = true ->
  zip r = Str z ->
  Py.isdigit (Py.strip z) = true ->
  exists zip_value,
    at_get (replace_address_values_from_matched_location df api_locations_df row_idx
              (Str id)) row_idx "ZIP" = Str zip_value
    /\ 5 <= String.length zip_value
    /\ Py.isdigit zip_value = true
    /\ Py.int zip_value = Py.int (Py.strip z).
Proof.
  intros Hidx Hid Hfirst Hcol Hz Hd.
  unfold replace_address_values_from_matched_location.
  assert (E0 : negb (truthy (Str id)) || isna (Str id)
               || Py.is_empty (Py.strip (str (Str id))) = false).
  { cbn [isna str truthy]. rewrite orb_false_r.
    apply orb_false_iff. split.
    - apply negb_false_iff, negb_true_iff, is_empty_false. intros ->. by apply Hid.
    - by apply is_empty_false. }
  rewrite E0. cbv zeta.
  unfold first_with_id in Hfirst.
  destruct (List.filter _ api_locations_df) as [|location_row rest]; [done|].
  injection Hfirst as ->.
  set (d4 := set_if_column _ row_idx "State" _).
  assert (Hc4 : has_column d4 "ZIP" = true)
    by (unfold d4; by rewrite !has_column_set_if_column).
  assert (L4 : row_idx < length (rows d4))
    by (unfold d4; by rewrite !set_if_column_rows).
  assert (Hne : z ≠ ""%string) by (intros ->; done).
  rewrite Hc4, Hz. cbn [notna isna negb andb str].
  rewrite bool_decide_eq_false_2 by congruence. cbn [negb].
  rewrite at_get_at_set_eq by done. rewrite Hd. cbn [andb].
  eexists. split; [reflexivity|].
  destruct (String.length (Py.strip z) <? 5) eqn:Hlen.
  - apply Nat.ltb_lt in Hlen. unfold zfill5.
    rewrite length_zeros_prefix, int_zeros_prefix, isdigit_zeros_prefix by done.
    split; [lia|done].
  - apply Nat.ltb_ge in Hlen. done.
Qed.

Lemma replace_address_overwrites_witness :
  let df' := replace_address_values_from_matched_location addressed_sheet
               [texas_office; texas_sentinel "virt_tx"] 0 (Str "virt_tx") in
  at_get df' 0 "Address Line 1" = Str "--"
  /\ at_get df' 0 "City" = Str ""
  /\ at_get df' 0 "ZIP" = Str "77001".
Proof.
  destruct (replace_address_overwrites addressed_sheet
              [texas_office; texas_sentinel "virt_tx"] 0 "virt_tx"
              (texas_sentinel "virt_tx"))
    as (H1 & _ & H3 & _ & H5).
  - vm_compute. lia.
  - vm_compute. discriminate.
  - vm_compute. reflexivity.
  - split; [exact (H1 eq_refl)|]. split; [exact (H3 eq_refl)|].
    exact (H5 (or_introl eq_refl)).
Defined.

Lemma replace_address_zip_digits_witness :
  exists zip_value,
    at_get (replace_address_values_from_matched_location addressed_sheet
              [short_zip_record] 0 (Str "loc_ma")) 0 "ZIP" = Str zip_value
    /\ 5 <= String.length zip_value
    /\ Py.isdigit zip_value = true
    /\ Py.int zip_value = Py.int (Py.strip "2110").
Proof.
  apply (replace_address_zip_digits addressed_sheet [short_zip_record] 0 "loc_ma" "2110"
           short_zip_record).
  - vm_compute. lia.
  - vm_compute. discriminate.
  - vm_compute. reflexivity.
  - vm_compute. reflexivity.
  - reflexivity.
  - vm_compute. reflexivity.
Defined.

(** ** What the address matcher returns *)

Lemma filter_by_practice_filter (api_locations_df : list CatalogLocationRecord)
    (p c : option string) :
  filter_by_practice api_locations_df p c
  = List.filter (belongs_to_practice p c) api_locations_df.
Proof.
  unfold filter_by_practice, belongs_to_practice.
  destruct p, c; try done.
  induction api_locations_df as [|r l IH]; [done|]. simpl. by rewrite <- IH.
Qed.

(** X10. Every match the address matcher returns for a row is the tuple
    of a record of the catalog that belongs to the practice of the row
    (when a practice id is given) and that passed the tests of the branch
    the row takes: the test on the concatenation, or the tests on Address
    Line 1 and on Address Line 2. The narrowing by city, state and zip
    lets no record back in, and a row with a blank Address Line 1 has no
    match. *)
Theorem matches_are_sound (ratio : string -> string -> Q)
    (locations_row : gmap string cell) (api_locations_df : list CatalogLocationRecord)
    (practice_id practice_cloud_id : option cell) :
  Forall
    (fun t => exists r,
       r ∈ api_locations_df
       /\ belongs_to_practice (clean_id_arg practice_id) (clean_id_arg practice_cloud_id) r
          = true
       /\ normalize_string (get locations_row "Address Line 1") ≠ ""%string
       /\ passes_address_tests ratio locations_row r = true
       /\ result_tuple r = Some t)
    (match_location_by_address ratio locations_row api_locations_df
       practice_id practice_cloud_id).
Proof.
  apply Forall_forall. intros t Ht.
  unfold match_location_by_address in Ht. cbv zeta in Ht.
  rewrite filter_by_practice_filter in Ht.
  set (filtered_df := List.filter _ api_locations_df) in Ht.
  destruct (nonempty filtered_df); [|by apply elem_of_nil in Ht]. cbn [negb] in Ht.
  destruct (Py.is_empty (normalize_string (get locations_row "Address Line 1"))) eqn:H1;
    [by apply elem_of_nil in Ht|].
  apply is_empty_false in H1.
  rewrite extract_result_omap in Ht. apply list_elem_of_omap in Ht as (r & Hr & Ht).
  assert (Hin : forall l, l `sublist_of` filtered_df -> r ∈ l ->
            r ∈ api_locations_df /\
            belongs_to_practice (clean_id_arg practice_id) (clean_id_arg practice_cloud_id) r
            = true).
  { intros l Hl Hrl. eapply elem_of_sublist in Hrl; [|exact Hl].
    apply list_elem_of_In, filter_In in Hrl as [Hrl Hb].
    split; [by apply list_elem_of_In|done]. }
  unfold passes_address_tests. cbv zeta.
  destruct (_ && _ && _ && _).
  - rewrite collect_filter in Hr.
    destruct (Hin _ (filter_sublist_of _ _) Hr) as [Ha Hb].
    apply list_elem_of_In, filter_In in Hr as [_ Hc].
    exists r. done.
  - eapply elem_of_sublist in Hr; [|apply multi_field_candidates_sublist].
    apply list_elem_of_In, filter_In in Hr as [Hr H2].
    apply filter_In in Hr as [Hr Hl1].
    destruct (Hin filtered_df (reflexivity _)) as [Ha Hb]; [by apply list_elem_of_In|].
    exists r. rewrite Hl1, H2. done.
Qed.

(** ** A sheet with nothing but Address Line 1 *)

Lemma blank_text_normalizes (s : string) :
  Py.strip s = ""%string -> normalize_string (Str s) = ""%string.
Proof.
  intros H. rewrite normalize_string_words. unfold Py.split.
  rewrite <- split_ws_go_strip.
  unfold Py.strip in H. apply (f_equal Py.chars) in H. rewrite chars_text in H.
  by rewrite H.
Qed.

Lemma all_empty_cell (df : DataFrame) (col : string) (row : gmap string cell) :
  all_empty df col = true -> row ∈ rows df ->
  normalize_string (get row col) = ""%string.
Proof.
  intros H Hrow. unfold all_empty, column_cells in H.
  assert (Hc : default NaN (row !! col) ∈ (fun r => default NaN (r !! col)) <$> rows df).
  { apply list_elem_of_fmap. by exists row. }
  apply list_elem_of_In in Hc.
  unfold get. apply orb_true_iff in H as [H|H]; rewrite forallb_forall in H;
    specialize (H _ Hc).
  - destruct (row !! col) as [[|s]|]; try done.
  - destruct (row !! col) as [[|s]|]; try done. cbn [default str] in *.
    apply blank_text_normalizes. by apply is_empty_true.
Qed.

Lemma empty_column_cell (df : DataFrame) (col : string) (row : gmap string cell) :
  well_formed df ->
  (if has_column df col then all_empty df col else true) = true ->
  row ∈ rows df ->
  normalize_string (get row col) = ""%string.
Proof.
  intros Hwf H Hrow. destruct (has_column df col) eqn:Hc.
  - by apply (all_empty_cell df).
  - apply has_column_false in Hc. unfold get. by rewrite (Hwf row col Hrow Hc).
Qed.

Section ConcatenatedCase.

Variable ratio : string -> string -> Q.

(** The matcher on a row that has a value in Address Line 1 at most. *)
Lemma match_on_concatenation (row : gmap string cell)
    (api_locations_df : list CatalogLocationRecord)
    (practice_id practice_cloud_id : option cell) :
  normalize_string (get row "Address Line 2") = ""%string ->
  normalize_string (get row "City") = ""%string ->
  normalize_string (get row "State") = ""%string ->
  normalize_string (get row "ZIP") = ""%string ->
  match_location_by_address ratio row api_locations_df practice_id practice_cloud_id
  = if Py.is_empty (normalize_string (get row "Address Line 1")) then []
    else omap result_tuple
           (List.filter (concat_test ratio (normalize_string (get row "Address Line 1")))
              (filter_by_practice api_locations_df
                 (clean_id_arg practice_id) (clean_id_arg practice_cloud_id))).
Proof.
  intros H2 H3 H4 H5. unfold match_location_by_address. cbv zeta.
  rewrite H2, H3, H4, H5. change (Py.is_empty "") with true. cbn [andb].
  destruct (filter_by_practice _ _ _) eqn:Hf; cbn [nonempty negb].
  - by destruct (Py.is_empty _).
  - destruct (Py.is_empty _); [done|].
    by rewrite extract_result_omap, collect_filter.
Qed.

Lemma drop_column_get (df : DataFrame) (col c : string) (row : gmap string cell) :
  col ≠ c -> row ∈ rows (drop_column df col) ->
  exists row0, row0 ∈ rows df /\ get row c = get row0 c.
Proof.
  intros Hne Hrow. unfold drop_column in Hrow. cbn [rows] in Hrow.
  apply list_elem_of_fmap in Hrow as (row0 & -> & Hrow0).
  exists row0. split; [done|]. unfold get. by rewrite lookup_delete_ne.
Qed.

Lemma fuzzy_input_get (df : DataFrame) (c : string) (row : gmap string cell) :
  c ≠ "Location ID"%string -> c ≠ "Location Cloud ID"%string ->
  row ∈ rows (fuzzy_input df) ->
  exists row0, row0 ∈ rows df /\ get row c = get row0 c.
Proof.
  intros H1 H2 Hrow. unfold fuzzy_input in Hrow. cbv zeta in Hrow.
  set (d1 := if has_column df "Location ID" then _ else _) in *.
  assert (G1 : forall r, r ∈ rows d1 -> exists row0, row0 ∈ rows df /\ get r c = get row0 c).
  { intros r Hr. unfold d1 in Hr. destruct (has_column df "Location ID").
    - apply (drop_column_get df "Location ID"); [by apply not_eq_sym|done].
    - by exists r. }
  destruct (has_column d1 "Location Cloud ID").
  - destruct (drop_column_get d1 "Location Cloud ID" c row) as (r1 & Hr1 & E1);
      [by apply not_eq_sym|done|].
    destruct (G1 r1 Hr1) as (row0 & Hrow0 & E0). exists row0. split; [done|congruence].
  - by apply G1.
Qed.

(** X11. On a sheet for which the label Case 4 is announced (values in
    Address Line 1 and in no other address column), every row is matched
    on the concatenation: its matches are the tuples of the records of its
    practice that pass the concatenated test, in catalog order. *)
Theorem case4_rows_match_on_concatenation (locations_df : DataFrame)
    (api_locations_df : list CatalogLocationRecord) (row : gmap string cell) :
  well_formed locations_df ->
  only_address_line1_mapped locations_df = true ->
  row ∈ rows (fuzzy_input locations_df) ->
  row_matches ratio api_locations_df row
  = if Py.is_empty (normalize_string (get row "Address Line 1")) then []
    else omap result_tuple
           (List.filter (concat_test ratio (normalize_string (get row "Address Line 1")))
              (filter_by_practice api_locations_df
                 (clean_id_arg
                    (valid_or_none
                       (py_or (row !! "Practice ID") (row !! "Practice Monolith ID"))))
                 (clean_id_arg (valid_or_none (row !! "Practice Cloud ID"))))).
Proof.
  intros Hwf Hcase Hrow. unfold only_address_line1_mapped in Hcase. cbv zeta in Hcase.
  repeat (apply andb_true_iff in Hcase as [Hcase ?]).
  unfold row_matches. cbv zeta.
  assert (G : forall c, c ≠ "Location ID"%string -> c ≠ "Location Cloud ID"%string ->
            (if has_column locations_df c then all_empty locations_df c else true) = true ->
            normalize_string (get row c) = ""%string).
  { intros c Hn1 Hn2 Hc. destruct (fuzzy_input_get locations_df c row Hn1 Hn2 Hrow)
      as (row0 & Hrow0 & ->).
    by apply (empty_column_cell locations_df). }
  apply match_on_concatenation; by apply G.
Qed.

End ConcatenatedCase.

(** A sheet made by [sheet] is well formed. *)
Lemma sheet_well_formed (labels : list string) (cells : list (list cell)) :
  well_formed (sheet labels cells).
Proof.
  intros row col Hrow Hcol. unfold sheet in Hrow, Hcol. cbn [rows columns] in *.
  apply list_elem_of_fmap in Hrow as (r & -> & _).
  apply not_elem_of_list_to_map_1. intros Hin. apply Hcol.
  apply list_elem_of_fmap in Hin as ([c v] & -> & Hin). cbn [fst].
  apply list_elem_of_In in Hin. apply in_combine_l in Hin. by apply list_elem_of_In.
Qed.

Lemma case4_rows_match_on_concatenation_witness :
  row_matches difflib.ratio [broadway_office]
    (list_to_map (combine ["Address Line 1"; "Practice ID"]%string line1_only_row))
  = [{| m_monolith_id := "777"; m_cloud_id := "loc_1"; m_location_type := "In Person";
        m_practice_monolith_id := "555"; m_practice_cloud_id := "pt_1" |}].
Proof.
  rewrite (case4_rows_match_on_concatenation difflib.ratio line1_only_sheet
             [broadway_office]).
  - vm_compute. reflexivity.
  - apply sheet_well_formed.
  - vm_compute. reflexivity.
  - apply (bool_decide_unpack _). vm_compute. exact I.
Defined.

(** ** The fuzzy block over all rows *)

Ltac in_slot_labels H :=
  unfold slot_labels in H; rewrite !elem_of_cons, elem_of_nil in H;
  destruct H as [->|[->|[->|[->|[->|[]]]]]].

Lemma slot_cells_labels (m : MatchTuple) (label v : string) :
  (label, v) ∈ slot_cells m -> label ∈ slot_labels.
Proof.
  unfold slot_cells, slot_labels. rewrite !elem_of_cons, !elem_of_nil.
  intros [H|[H|[H|[H|[H|[]]]]]]; injection H as -> _; tauto.
Qed.

Lemma write_match_cell (df : DataFrame) (idx col_num : nat) (m : MatchTuple)
    (label v : string) :
  idx < length (rows df) ->
  (label, v) ∈ slot_cells m ->
  at_get (write_match df idx col_num m) idx (numbered label col_num) = Str v.
Proof.
  intros Hidx H. unfold slot_cells in H. rewrite !elem_of_cons, elem_of_nil in H.
  unfold write_match.
  destruct H as [H|[H|[H|[H|[H|[]]]]]]; injection H as -> ->;
    rewrite ?at_get_at_set_ne by label_ne;
    (rewrite at_get_at_set_eq; [done|]); by rewrite ?rows_length_at_set.
Qed.

Lemma write_match_other_slot (df : DataFrame) (idx col_num c0 : nat) (m : MatchTuple)
    (label : string) :
  c0 ≠ col_num ->
  label ∈ slot_labels ->
  at_get (write_match df idx col_num m) idx (numbered label c0)
  = at_get df idx (numbered label c0).
Proof.
  intros Hne H. unfold write_match. in_slot_labels H;
    by rewrite !at_get_at_set_ne by label_ne.
Qed.

Lemma write_matches_other_slot (matches : list MatchTuple) (df : DataFrame)
    (idx col_num c0 : nat) (label : string) :
  c0 < col_num ->
  label ∈ slot_labels ->
  at_get (write_matches df idx col_num matches) idx (numbered label c0)
  = at_get df idx (numbered label c0).
Proof.
  revert df col_num. induction matches as [|m rest IH]; intros df col_num Hlt Hl; [done|].
  simpl. rewrite IH by (lia || done). apply write_match_other_slot; [lia|done].
Qed.

Lemma write_matches_cell (matches : list MatchTuple) (df : DataFrame)
    (idx col_num j : nat) (m : MatchTuple) (label v : string) :
  idx < length (rows df) ->
  matches !! j = Some m ->
  (label, v) ∈ slot_cells m ->
  at_get (write_matches df idx col_num matches) idx (numbered label (col_num + j)) = Str v.
Proof.
  revert df col_num j. induction matches as [|m0 rest IH]; intros df col_num j Hidx Hj Hc;
    [done|].
  destruct j as [|j]; simpl in *.
  - injection Hj as ->. rewrite Nat.add_0_r.
    rewrite write_matches_other_slot; [|lia|by eapply slot_cells_labels].
    by apply write_match_cell.
  - replace (col_num + S j) with (S col_num + j) by lia.
    apply IH; [|done|done]. by rewrite rows_length_write_match.
Qed.

Lemma slot_label_not_address (label : string) (n : nat) :
  label ∈ slot_labels -> numbered label n ∉ address_labels.
Proof.
  intros H. unfold address_labels. rewrite !not_elem_of_cons.
  in_slot_labels H; repeat split; try apply not_elem_of_nil;
    unfold numbered; cbv [String.append]; discriminate.
Qed.

Lemma rows_length_write_matches (matches : list MatchTuple) (df : DataFrame)
    (idx col_num : nat) :
  length (rows (write_matches df idx col_num matches)) = length (rows df).
Proof.
  revert df col_num. induction matches as [|m rest IH]; intros df col_num; [done|].
  simpl. by rewrite IH, rows_length_write_match.
Qed.

Lemma columns_write_matches (matches : list MatchTuple) (df : DataFrame)
    (idx col_num : nat) :
  columns (write_matches df idx col_num matches) = columns df.
Proof.
  revert df col_num. induction matches as [|m rest IH]; intros df col_num; [done|].
  simpl. rewrite IH. unfold write_match. by rewrite !columns_at_set.
Qed.

Lemma write_matches_other_row (matches : list MatchTuple) (df : DataFrame)
    (idx col_num i : nat) (col : string) :
  i ≠ idx ->
  at_get (write_matches df idx col_num matches) i col = at_get df i col.
Proof.
  intros Hne. revert df col_num. induction matches as [|m rest IH]; intros df col_num; [done|].
  simpl. rewrite IH. unfold write_match.
  by rewrite !at_get_at_set_other_row by done.
Qed.

Lemma fill_row_other_row (api_locations_df : list CatalogLocationRecord) (df : DataFrame)
    (idx i : nat) (matches : list MatchTuple) (col : string) :
  i ≠ idx -> at_get (fill_row api_locations_df df idx matches) i col = at_get df i col.
Proof.
  intros Hne. unfold fill_row. destruct matches as [|first rest]; [done|].
  destruct (negb _).
  - rewrite replace_address_other_row by done. by apply write_matches_other_row.
  - by apply write_matches_other_row.
Qed.

Lemma rows_length_fill_row (api_locations_df : list CatalogLocationRecord) (df : DataFrame)
    (idx : nat) (matches : list MatchTuple) :
  length (rows (fill_row api_locations_df df idx matches)) = length (rows df).
Proof.
  unfold fill_row. destruct matches as [|first rest]; [done|].
  destruct (negb _); rewrite ?replace_address_rows; apply rows_length_write_matches.
Qed.

Lemma columns_fill_row (api_locations_df : list CatalogLocationRecord) (df : DataFrame)
    (idx : nat) (matches : list MatchTuple) :
  columns (fill_row api_locations_df df idx matches) = columns df.
Proof.
  unfold fill_row. destruct matches as [|first rest]; [done|].
  destruct (negb _); rewrite ?replace_address_columns; apply columns_write_matches.
Qed.

Lemma fill_row_cell (api_locations_df : list CatalogLocationRecord) (df : DataFrame)
    (idx j : nat) (matches : list MatchTuple) (m : MatchTuple) (label v : string) :
  idx < length (rows df) ->
  matches !! j = Some m ->
  (label, v) ∈ slot_cells m ->
  at_get (fill_row api_locations_df df idx matches) idx (numbered label (S j)) = Str v.
Proof.
  intros Hidx Hj Hc. unfold fill_row. destruct matches as [|first rest] eqn:E; [done|].
  rewrite <- E in *.
  assert (H : at_get (write_matches df idx 1 matches) idx (numbered label (S j)) = Str v)
    by by apply (write_matches_cell matches df idx 1 j m).
  destruct (negb _); [|done].
  rewrite replace_address_at_get; [done|].
  apply slot_label_not_address. by eapply slot_cells_labels.
Qed.

Lemma fill_rows_later (api_locations_df : list CatalogLocationRecord)
    (all_matches : list (list MatchTuple)) (df : DataFrame) (idx i : nat) (col : string) :
  i < idx ->
  at_get (fill_rows api_locations_df df idx all_matches) i col = at_get df i col.
Proof.
  revert df idx. induction all_matches as [|ms rest IH]; intros df idx Hlt; [done|].
  simpl. rewrite IH by lia. apply fill_row_other_row. lia.
Qed.

Lemma fill_rows_columns (api_locations_df : list CatalogLocationRecord)
    (all_matches : list (list MatchTuple)) (df : DataFrame) (idx : nat) :
  columns (fill_rows api_locations_df df idx all_matches) = columns df.
Proof.
  revert df idx. induction all_matches as [|ms rest IH]; intros df idx; [done|].
  simpl. by rewrite IH, columns_fill_row.
Qed.

Lemma fill_rows_length (api_locations_df : list CatalogLocationRecord)
    (all_matches : list (list MatchTuple)) (df : DataFrame) (idx : nat) :
  length (rows (fill_rows api_locations_df df idx all_matches)) = length (rows df).
Proof.
  revert df idx. induction all_matches as [|ms rest IH]; intros df idx; [done|].
  simpl. by rewrite IH, rows_length_fill_row.
Qed.

Lemma fill_rows_cell (api_locations_df : list CatalogLocationRecord)
    (all_matches : list (list MatchTuple)) (df : DataFrame) (idx i j : nat)
    (matches : list MatchTuple) (m : MatchTuple) (label v : string) :
  idx <= i ->
  i < length (rows df) ->
  all_matches !! (i - idx) = Some matches ->
  matches !! j = Some m ->
  (label, v) ∈ slot_cells m ->
  at_get (fill_rows api_locations_df df idx all_matches) i (numbered label (S j)) = Str v.
Proof.
  revert df idx. induction all_matches as [|ms rest IH]; intros df idx Hle Hi Hall Hj Hc;
    [done|].
  simpl. destruct (decide (idx = i)) as [->|Hne].
  - rewrite Nat.sub_diag in Hall. injection Hall as ->.
    rewrite fill_rows_later by lia. by apply (fill_row_cell _ _ _ j matches m).
  - apply IH; try done; [lia|by rewrite rows_length_fill_row|].
    replace (i - idx) with (S (i - S idx)) in Hall by lia. done.
Qed.

(** The columns of the slots. *)
Lemma ensure_slot_columns_keeps (df : DataFrame) (match_num : nat) (c : string) :
  c ∈ columns df -> c ∈ columns (ensure_slot_columns df match_num).
Proof.
  unfold ensure_slot_columns.
  assert (H : forall l d, c ∈ columns d ->
            c ∈ columns (fold_left (fun df col => if has_column df col then df
                                                  else append_column df col) l d)).
  { induction l as [|x l IH]; intros d Hd; [done|]. simpl. apply IH.
    destruct (has_column d x); [done|]. by apply has_column_insert_column. }
  apply H.
Qed.

Lemma ensure_slot_columns_adds (df : DataFrame) (match_num : nat) (label : string) :
  label ∈ slot_labels -> numbered label match_num ∈ columns (ensure_slot_columns df match_num).
Proof.
  intros Hl. unfold ensure_slot_columns.
  assert (H : forall l d c, c ∈ l ∨ c ∈ columns d ->
            c ∈ columns (fold_left (fun df col => if has_column df col then df
                                                  else append_column df col) l d)).
  { induction l as [|x l IH]; intros d c [Hc|Hc]; try done.
    - by apply elem_of_nil in Hc.
    - simpl. apply IH. apply elem_of_cons in Hc as [->|Hc]; [|by left]. right.
      destruct (has_column d x) eqn:E; [by apply has_column_true|].
      unfold append_column. rewrite columns_insert_column. by left.
    - simpl. apply IH. right. destruct (has_column d x); [done|].
      by apply has_column_insert_column. }
  apply H. left. in_slot_labels Hl; rewrite !elem_of_cons; tauto.
Qed.

Lemma ensure_slot_columns_rows (df : DataFrame) (match_num : nat) :
  length (rows (ensure_slot_columns df match_num)) = length (rows df).
Proof.
  unfold ensure_slot_columns.
  assert (H : forall l d,
            length (rows (fold_left (fun df col => if has_column df col then df
                                                   else append_column df col) l d))
            = length (rows d)).
  { induction l as [|x l IH]; intros d; [done|]. simpl. rewrite IH.
    destruct (has_column d x); [done|]. apply rows_length_insert_column. }
  apply H.
Qed.

Lemma fold_ensure_slot_columns (l : list nat) (df : DataFrame) :
  length (rows (fold_left ensure_slot_columns l df)) = length (rows df)
  /\ (forall c, c ∈ columns df -> c ∈ columns (fold_left ensure_slot_columns l df))
  /\ (forall n label, n ∈ l -> label ∈ slot_labels ->
        numbered label n ∈ columns (fold_left ensure_slot_columns l df)).
Proof.
  revert df. induction l as [|x l IH]; intros df.
  - split; [done|]. split; [done|]. intros n label Hn. by apply elem_of_nil in Hn.
  - simpl. destruct (IH (ensure_slot_columns df x)) as (H1 & H2 & H3).
    split; [by rewrite H1, ensure_slot_columns_rows|].
    split; [intros c Hc; by apply H2, ensure_slot_columns_keeps|].
    intros n label Hn Hl. apply elem_of_cons in Hn as [->|Hn]; [|by apply H3].
    by apply H2, ensure_slot_columns_adds.
Qed.

Lemma max_matches_bound (all_matches : list (list MatchTuple)) (acc : nat)
    (matches : list MatchTuple) :
  matches ∈ all_matches ->
  length matches <= fold_left (fun m l => Nat.max m (length l)) all_matches acc.
Proof.
  intros H.
  destruct (fold_max_ge (fun l : list MatchTuple => length l) all_matches acc) as [_ Hge].
  by apply Hge.
Qed.

Section Expander.

Variable ratio : string -> string -> Q.

(** X12. The fuzzy block as a whole: when its loops are done, the match
    at position [j] of the list of row [i] is in slot [j + 1] of that row,
    under the five labels of the slot, and the sheet has these columns. *)
Theorem expander_fills_slots (locations_df : DataFrame)
    (api_locations_df : list CatalogLocationRecord) (i j : nat)
    (row : gmap string cell) (m : MatchTuple) :
  has_column locations_df "Address Line 1" = true ->
  rows (fuzzy_input locations_df) !! i = Some row ->
  row_matches ratio api_locations_df row !! j = Some m ->
  let df' := fuzzy_block ratio locations_df api_locations_df in
  forall label v, (label, v) ∈ slot_cells m ->
    numbered label (S j) ∈ columns df'
    /\ at_get df' i (numbered label (S j)) = Str v.
Proof.
  intros Hcol Hrow Hj df' label v Hc. unfold df', fuzzy_block.
  fold (fuzzy_input locations_df). rewrite Hcol. cbn [negb].
  set (df0 := fuzzy_input locations_df) in *.
  set (all_matches := row_matches ratio api_locations_df <$> rows df0).
  set (max_matches := fold_left (fun m l => Nat.max m (length l)) all_matches 1).
  assert (Hall : all_matches !! i = Some (row_matches ratio api_locations_df row)).
  { unfold all_matches. by rewrite list_lookup_fmap, Hrow. }
  destruct (fold_ensure_slot_columns (seq 1 max_matches) df0) as (HL & _ & HC).
  split.
  - rewrite fill_rows_columns. apply HC; [|by eapply slot_cells_labels].
    apply list_elem_of_In, in_seq.
    assert (length (row_matches ratio api_locations_df row) <= max_matches).
    { apply max_matches_bound. by eapply list_elem_of_lookup_2. }
    apply lookup_lt_Some in Hj. lia.
  - apply (fill_rows_cell _ _ _ 0 i j (row_matches ratio api_locations_df row) m);
      try done; [lia| |by rewrite Nat.sub_0_r].
    rewrite HL. by eapply lookup_lt_Some.
Qed.

End Expander.

Lemma expander_fills_slots_witness :
  "Location Cloud ID 1"%string
    ∈ columns (fuzzy_block difflib.ratio line1_only_sheet [broadway_office])
  /\ at_get (fuzzy_block difflib.ratio line1_only_sheet [broadway_office]) 0
       "Location Cloud ID 1" = Str "loc_1".
Proof.
  set (row := list_to_map
                (combine ["Address Line 1"; "Practice ID"]%string line1_only_row)
              : gmap string cell).
  set (m := {| m_monolith_id := "777"; m_cloud_id := "loc_1";
               m_location_type := "In Person"; m_practice_monolith_id := "555";
               m_practice_cloud_id := "pt_1" |}).
  assert (H1 : has_column line1_only_sheet "Address Line 1" = true)
    by (vm_compute; reflexivity).
  assert (H2 : rows (fuzzy_input line1_only_sheet) !! 0 = Some row)
    by (vm_compute; reflexivity).
  assert (H3 : row_matches difflib.ratio [broadway_office] row !! 0 = Some m)
    by (vm_compute; reflexivity).
  assert (H4 : ("Location Cloud ID"%string, "loc_1"%string) ∈ slot_cells m)
    by (unfold slot_cells; rewrite !elem_of_cons; tauto).
  exact (expander_fills_slots difflib.ratio line1_only_sheet [broadway_office] 0 0 row m
           H1 H2 H3 "Location Cloud ID" "loc_1" H4).
Defined.

(** ** The state-only block over all rows *)

Lemma cells_kept_refl (i : nat) (d : DataFrame) : cells_kept i d d.
Proof. split; [done|]. by intros col Hc. Qed.

Lemma cells_kept_trans (i : nat) (d1 d2 d3 : DataFrame) :
  cells_kept i d1 d2 -> cells_kept i d2 d3 -> cells_kept i d1 d3.
Proof.
  intros [L1 K1] [L2 K2]. split; [congruence|].
  intros col Hc. destruct (K1 col Hc) as [H1 E1]. destruct (K2 col H1) as [H2 E2].
  split; [done|congruence].
Qed.

Lemma cells_kept_at_set (i j : nat) (d : DataFrame) (col : string) (v : cell) :
  i ≠ j -> cells_kept i d (at_set d j col v).
Proof.
  intros Hij. split; [apply rows_length_at_set|].
  intros c Hc. rewrite columns_at_set. split; [done|].
  by rewrite at_get_at_set_other_row.
Qed.

Lemma cells_kept_ensure_column_after (i : nat) (st : DataFrame * nat) (col : string) :
  cells_kept i (fst st) (fst (ensure_column_after st col)).
Proof.
  split; [apply ensure_column_after_rows|].
  intros c Hc. split; [by apply ensure_column_after_columns|].
  destruct st as [d n]. unfold ensure_column_after. cbn [fst].
  destruct (has_column d col) eqn:Hhas; cbn [fst]; [done|].
  apply has_column_false in Hhas. apply at_get_insert_column_ne. by intros ->.
Qed.

Lemma cells_kept_write_state_match (i idx k : nat) (d : DataFrame) (info : MatchTuple) :
  i ≠ idx -> cells_kept i d (write_state_match d idx k info).
Proof.
  intros Hne. unfold write_state_match. cbv zeta.
  repeat (eapply cells_kept_trans; [|by apply cells_kept_at_set]).
  set (i0 := if k =? 1 then _ else _).
  eapply cells_kept_trans; [|apply cells_kept_ensure_column_after].
  eapply cells_kept_trans; [|apply cells_kept_ensure_column_after].
  eapply cells_kept_trans; [|apply cells_kept_ensure_column_after].
  eapply cells_kept_trans; [|apply cells_kept_ensure_column_after].
  apply (cells_kept_ensure_column_after i (d, i0)).
Qed.

Lemma cells_kept_write_state_matches (i idx k : nat) (matches : list MatchTuple)
    (d : DataFrame) :
  i ≠ idx -> cells_kept i d (write_state_matches d idx k matches).
Proof.
  intros Hne. revert d k. induction matches as [|m rest IH]; intros d k;
    [apply cells_kept_refl|].
  simpl. eapply cells_kept_trans; [by apply cells_kept_write_state_match|apply IH].
Qed.

Lemma cells_kept_set_if_column (i idx : nat) (d : DataFrame) (col : string) (v : cell) :
  i ≠ idx -> cells_kept i d (set_if_column d idx col v).
Proof.
  intros Hne. unfold set_if_column. destruct (has_column d col);
    [by apply cells_kept_at_set|apply cells_kept_refl].
Qed.

Lemma cells_kept_replace_address (i idx : nat) (d : DataFrame)
    (api_locations_df : list CatalogLocationRecord) (id : cell) :
  i ≠ idx ->
  cells_kept i d (replace_address_values_from_matched_location d api_locations_df idx id).
Proof.
  intros Hne. split; [apply replace_address_rows|].
  intros c Hc. rewrite replace_address_columns. split; [done|].
  by apply replace_address_other_row.
Qed.

Lemma cells_kept_case2_row (api_locations_df : list CatalogLocationRecord) (i idx : nat)
    (d : DataFrame) (state_value : cell) :
  i ≠ idx -> cells_kept i d (case2_row api_locations_df d idx state_value).
Proof.
  intros Hne. unfold case2_row.
  destruct (_ || _); [apply cells_kept_refl|]. cbv zeta.
  destruct (negb (nonempty (state_list _))); [apply cells_kept_refl|].
  destruct (matches_for_row _ api_locations_df) as [|first rest] eqn:E;
    [apply cells_kept_refl|].
  cbn [nonempty negb]. rewrite <- E.
  assert (H : cells_kept i d
                (set_if_column
                   (write_state_matches d idx 1
                      (matches_for_row (state_list (Py.strip (str state_value)))
                         api_locations_df))
                   idx "Location Type" (Str ""))).
  { eapply cells_kept_trans; [by apply cells_kept_write_state_matches|].
    by apply cells_kept_set_if_column. }
  destruct (negb (Py.is_empty (m_cloud_id first))); [|done].
  eapply cells_kept_trans; [exact H|]. by apply cells_kept_replace_address.
Qed.

Lemma case2_rows_later (api_locations_df : list CatalogLocationRecord)
    (state_values : list cell) (d : DataFrame) (idx i : nat) :
  i < idx -> cells_kept i d (case2_rows api_locations_df d idx state_values).
Proof.
  revert d idx. induction state_values as [|sv rest IH]; intros d idx Hlt;
    [apply cells_kept_refl|].
  simpl. apply (cells_kept_trans i d (case2_row api_locations_df d idx sv));
    [apply cells_kept_case2_row; lia|apply IH; lia].
Qed.

(** The columns of a slot exist once the slot is written. *)
Lemma ensure_column_after_has (st : DataFrame * nat) (col : string) :
  col ∈ columns (fst (ensure_column_after st col)).
Proof.
  destruct st as [d n]. unfold ensure_column_after.
  destruct (has_column d col) eqn:E; cbn [fst]; [by apply has_column_true|].
  rewrite columns_insert_column. by left.
Qed.

Lemma write_state_match_has_columns (d : DataFrame) (idx k : nat) (info : MatchTuple) :
  numbered "Location Cloud ID" k ∈ columns (write_state_match d idx k info)
  /\ numbered "Location Type" k ∈ columns (write_state_match d idx k info).
Proof.
  unfold write_state_match. cbv zeta. rewrite !columns_at_set.
  set (i0 := if k =? 1 then _ else _).
  set (st1 := ensure_column_after (d, i0) _).
  split.
  - do 3 apply ensure_column_after_columns. apply ensure_column_after_has.
  - do 2 apply ensure_column_after_columns. apply ensure_column_after_has.
Qed.

Lemma write_state_matches_has_columns (matches : list MatchTuple) (d : DataFrame)
    (idx k j : nat) :
  j < length matches ->
  numbered "Location Cloud ID" (k + j) ∈ columns (write_state_matches d idx k matches)
  /\ numbered "Location Type" (k + j) ∈ columns (write_state_matches d idx k matches).
Proof.
  revert d k j. induction matches as [|m rest IH]; intros d k j Hj; [simpl in Hj; lia|].
  simpl. destruct j as [|j].
  - rewrite Nat.add_0_r.
    destruct (write_state_match_has_columns d idx k m) as [H1 H2].
    split; by apply write_state_matches_columns.
  - replace (k + S j) with (S k + j) by lia. apply IH. simpl in Hj. lia.
Qed.

Lemma case2_row_has_columns (api_locations_df : list CatalogLocationRecord) (d : DataFrame)
    (idx j : nat) (state_value : cell) (info : MatchTuple) :
  has_value state_value = true ->
  matches_for_row (state_list (Py.strip (str state_value))) api_locations_df !! j
  = Some info ->
  numbered "Location Cloud ID" (S j) ∈ columns (case2_row api_locations_df d idx state_value)
  /\ numbered "Location Type" (S j) ∈ columns (case2_row api_locations_df d idx state_value).
Proof.
  intros Hstate Hj. unfold case2_row.
  unfold has_value, notna in Hstate. apply andb_true_iff in Hstate as [Hna Hne].
  apply negb_true_iff in Hna, Hne. rewrite Hna, Hne. cbn [orb]. cbv zeta.
  set (states := state_list (Py.strip (str state_value))) in *.
  set (matches := matches_for_row states api_locations_df) in *.
  assert (Hm : nonempty matches = true) by (destruct matches; [done|done]).
  assert (Hs : nonempty states = true).
  { destruct states; [|done]. subst matches. by rewrite matches_for_row_omap in Hj. }
  rewrite Hs, Hm. cbn [negb].
  destruct (write_state_matches_has_columns matches d idx 1 j) as [H1 H2];
    [by eapply lookup_lt_Some|].
  change (1 + j) with (S j) in H1, H2.
  assert (G : forall c, c ∈ columns (write_state_matches d idx 1 matches) ->
            c ∈ columns
                  (match matches with
                   | [] => set_if_column (write_state_matches d idx 1 matches) idx
                             "Location Type" (Str "")
                   | first :: _ =>
                       if negb (Py.is_empty (m_cloud_id first))
                       then replace_address_values_from_matched_location
                              (set_if_column (write_state_matches d idx 1 matches) idx
                                 "Location Type" (Str ""))
                              api_locations_df idx (Str (m_cloud_id first))
                       else set_if_column (write_state_matches d idx 1 matches) idx
                              "Location Type" (Str "")
                   end)).
  { intros c Hc. destruct matches as [|first ?]; [by rewrite set_if_column_columns|].
    destruct (negb _); rewrite ?replace_address_columns, set_if_column_columns; done. }
  split; by apply G.
Qed.

(** X13. The state-only block as a whole: when its loop over the rows is
    done, the match at position [j] of a row is in slot [j + 1] of that
    row, the Location Type of the slot is blank, and so is the Location
    Type of the row. The turns of the other rows do not undo it. *)
Theorem case2_block_policy (locations_df : DataFrame)
    (api_locations_df : list CatalogLocationRecord) (i j : nat)
    (row : gmap string cell) (info : MatchTuple) :
  rows locations_df !! i = Some row ->
  has_value (get row "State") = true ->
  matches_for_row (state_list (Py.strip (str (get row "State")))) api_locations_df !! j
  = Some info ->
  let df' := case2_block locations_df api_locations_df in
  at_get df' i (numbered "Location Cloud ID" (S j)) = Str (m_cloud_id info)
  /\ at_get df' i (numbered "Location Type" (S j)) = Str ""
  /\ (has_column locations_df "Location Type" = true ->
      at_get df' i "Location Type" = Str "").
Proof.
  intros Hrow Hstate Hj df'. unfold df', case2_block.
  set (state_values := (fun r => get r "State") <$> rows locations_df).
  assert (Hsv : state_values !! i = Some (get row "State")).
  { unfold state_values. by rewrite list_lookup_fmap, Hrow. }
  assert (Hi : i < length (rows locations_df)) by by eapply lookup_lt_Some.
  assert (G : forall vals d idx,
            idx <= i -> i < length (rows d) ->
            vals !! (i - idx) = Some (get row "State") ->
            let d' := case2_rows api_locations_df d idx vals in
            at_get d' i (numbered "Location Cloud ID" (S j)) = Str (m_cloud_id info)
            /\ at_get d' i (numbered "Location Type" (S j)) = Str ""
            /\ (has_column d "Location Type" = true ->
                at_get d' i "Location Type" = Str "")).
  { induction vals as [|sv rest IH]; intros d idx Hle Hlen Hv; [done|].
    cbn [case2_rows]. destruct (decide (idx = i)) as [->|Hne].
    - rewrite Nat.sub_diag in Hv. injection Hv as ->.
      destruct (case2_row_policy api_locations_df d i (get row "State") j info
                  Hlen Hstate Hj) as (P1 & P2 & P3).
      destruct (case2_row_has_columns api_locations_df d i j (get row "State") info
                  Hstate Hj) as [C1 C2].
      destruct (case2_rows_later api_locations_df rest
                  (case2_row api_locations_df d i (get row "State")) (S i) i)
        as [_ K]; [lia|].
      cbv zeta. split; [|split].
      + destruct (K _ C1) as [_ ->]. exact P1.
      + destruct (K _ C2) as [_ ->]. exact P2.
      + intros Hc.
        assert (C3 : "Location Type"%string
                     ∈ columns (case2_row api_locations_df d i (get row "State"))).
        { destruct (cells_kept_case2_row api_locations_df (S i) i d (get row "State"))
            as [_ K']; [lia|].
          apply K'. by apply has_column_true. }
        destruct (K _ C3) as [_ ->]. by apply P3.
    - destruct (cells_kept_case2_row api_locations_df i idx d sv) as [L K];
        [done|].
      destruct (IH (case2_row api_locations_df d idx sv) (S idx)) as (Q1 & Q2 & Q3);
        [lia|by rewrite L| |].
      { replace (i - idx) with (S (i - S idx)) in Hv by lia. done. }
      cbv zeta. split; [done|]. split; [done|].
      intros Hc. apply Q3. apply has_column_true. apply K. by apply has_column_true. }
  apply (G state_values locations_df 0); [lia|done|by rewrite Nat.sub_0_r].
Qed.

Lemma case2_block_policy_witness :
  let df' := case2_block state_only_sheet [texas_office] in
  at_get df' 0 "Location Cloud ID 1" = Str "loc_b"
  /\ at_get df' 0 "Location Type 1" = Str ""
  /\ (has_column state_only_sheet "Location Type" = true ->
      at_get df' 0 "Location Type" = Str "").
Proof.
  apply (case2_block_policy state_only_sheet [texas_office] 0 0
           (list_to_map
              (combine ["State"; "Location ID 1"; "Location Type"]%string
                 [Str "TX"; Str "9002"; Str "Both"]))
           {| m_monolith_id := "9002"; m_cloud_id := "loc_b";
              m_location_type := "In Person"; m_practice_monolith_id := "555";
              m_practice_cloud_id := "pt_1" |}).
  - vm_compute. reflexivity.
  - vm_compute. reflexivity.
  - vm_compute. reflexivity.
Defined.

(** ** The backfiller as a whole *)

Lemma add_virtual_locations_loop (df : DataFrame)
    (api_locations_df : list CatalogLocationRecord) :
  backfill_applies df = true ->
  add_virtual_locations_after_matching df api_locations_df
  = fold_left
      (backfill_row api_locations_df
         (List.filter (Py.startswith "Location Cloud ID") (columns df)))
      (seq 0 (length (rows df))) df.
Proof.
  unfold backfill_applies, add_virtual_locations_after_matching.
  intros H. apply andb_true_iff in H as [H H3]. apply andb_true_iff in H as [H1 H2].
  rewrite H1, H2, H3. cbn [negb]. by rewrite orb_true_r.
Qed.

Lemma seq_split_at (n i : nat) :
  i < n -> seq 0 n = seq 0 i ++ i :: seq (S i) (n - S i).
Proof.
  intros H. replace n with (i + S (n - S i)) at 1 by lia.
  rewrite seq_app. done.
Qed.

(** The loop around the turn of row [i]: the turns before leave the row
    alone, and so do the turns after. *)
Lemma backfill_fold_around (api_locations_df : list CatalogLocationRecord)
    (all_cols : list string) (n i : nat) (d : DataFrame) :
  i < n ->
  let before := fold_left (backfill_row api_locations_df all_cols) (seq 0 i) d in
  row_preserved i d before
  /\ keeps_classification d before
  /\ row_preserved i (backfill_row api_locations_df all_cols before i)
       (fold_left (backfill_row api_locations_df all_cols) (seq 0 n) d).
Proof.
  intros Hi before. split; [|split].
  - apply row_preserved_fold. rewrite list_elem_of_In, in_seq. lia.
  - apply keeps_classification_fold.
  - rewrite (seq_split_at n i Hi), fold_left_app. cbn [fold_left]. fold before.
    apply row_preserved_fold. rewrite list_elem_of_In, in_seq. lia.
Qed.

(** X14. The backfiller keeps the number of rows, every column of the
    sheet and the distinctness of the labels, and it changes neither the
    Location Type nor the State of any row. *)
Theorem backfill_frame (df : DataFrame) (api_locations_df : list CatalogLocationRecord) :
  let df' := add_virtual_locations_after_matching df api_locations_df in
  length (rows df') = length (rows df)
  /\ (forall col, col ∈ columns df -> col ∈ columns df')
  /\ (NoDup (columns df) -> NoDup (columns df'))
  /\ (forall i, at_get df' i "Location Type" = at_get df i "Location Type"
                /\ at_get df' i "State" = at_get df i "State").
Proof.
  intros df'. unfold df'.
  destruct (add_virtual_locations_cases df api_locations_df) as [->| ->]; [done|].
  set (all_cols := List.filter _ (columns df)).
  destruct (row_preserved_fold api_locations_df all_cols (length (rows df))
              (seq 0 (length (rows df))) df) as (HL & HK & _ & HN).
  { rewrite list_elem_of_In, in_seq. lia. }
  split; [done|]. split; [intros col Hc; by destruct (HK col Hc)|]. split; [done|].
  apply keeps_classification_fold.
Qed.

(** X15. A row that does not qualify for a sentinel (not classified Both
    or Virtual, no state, no sentinel with an id for its state), or that
    has the id of its sentinel already, comes out of the backfiller as it
    went in: its cells are unchanged, and it has no value in any column
    that was added. *)
Theorem backfill_leaves_row (df : DataFrame) (api_locations_df : list CatalogLocationRecord)
    (i : nat) :
  backfill_skips api_locations_df df i = true ->
  row_preserved i df (add_virtual_locations_after_matching df api_locations_df).
Proof.
  intros Hskip.
  destruct (add_virtual_locations_cases df api_locations_df) as [->| ->];
    [apply row_preserved_refl|].
  set (all_cols := List.filter _ (columns df)).
  destruct (decide (i < length (rows df))) as [Hi|Hi].
  - destruct (backfill_fold_around api_locations_df all_cols (length (rows df)) i df Hi)
      as (Hb & Hk & Ha).
    set (before := fold_left _ (seq 0 i) df) in *.
    assert (E : backfill_row api_locations_df all_cols before i = before).
    { unfold backfill_row. unfold backfill_skips in Hskip.
      rewrite (virtual_location_for_row_keeps _ df) by done.
      destruct (virtual_location_for_row api_locations_df df i) as [v|]; [|done].
      by rewrite (exists_preserved i df before _ Hb Hskip). }
    rewrite E in Ha. by eapply row_preserved_trans.
  - apply row_preserved_fold. rewrite list_elem_of_In, in_seq. lia.
Qed.

Lemma max_number_for_row_ext (d d' : DataFrame) (i : nat) (l : list string) :
  (forall col, col ∈ l -> at_get d' i col = at_get d i col) ->
  max_number_for_row d' i l = max_number_for_row d i l.
Proof.
  intros H. unfold max_number_for_row. rewrite !max_number_for_row_fold.
  assert (G : forall acc,
            fold_left (fun m col => Nat.max m (default 0 (slot_value d' i col))) l acc
            = fold_left (fun m col => Nat.max m (default 0 (slot_value d i col))) l acc);
    [|apply G].
  induction l as [|c l IH]; intros acc; [done|].
  simpl. unfold slot_value at 2 4. rewrite (H c) by by left.
  apply IH. intros col Hc. apply H. by right.
Qed.

Lemma blank_cell_has_no_id (c : cell) :
  has_value c = false -> notna c = true -> clean_id c = ""%string.
Proof.
  unfold has_value, clean_id. intros H Hn. rewrite Hn in H. simpl in H.
  apply negb_false_iff, is_empty_true in H. by rewrite H.
Qed.

Lemma exists_reflected (i : nat) (d d' : DataFrame) (id : string) :
  has_value (Str id) = true ->
  row_preserved i d d' ->
  virtual_already_exists d' i id = virtual_already_exists d i id.
Proof.
  intros Hid Hp. destruct (virtual_already_exists d i id) eqn:E.
  - by apply (exists_preserved i d d').
  - destruct (virtual_already_exists d' i id) eqn:E'; [|done]. exfalso.
    destruct Hp as (_ & Hkeep & Hblank & _).
    unfold virtual_already_exists in E'. apply existsb_exists in E' as (col & Hin & Hc).
    apply list_elem_of_In in Hin.
    apply andb_true_iff in Hc as [Hs Hc]. apply andb_true_iff in Hc as [Hn Hc].
    apply bool_decide_eq_true in Hc.
    destruct (decide (col ∈ columns d)) as [Hd|Hd].
    + destruct (Hkeep col Hd) as [_ Heq]. rewrite Heq in Hn, Hc.
      assert (virtual_already_exists d i id = true); [|congruence].
      unfold virtual_already_exists. apply existsb_exists. exists col.
      split; [by apply list_elem_of_In|]. rewrite Hs, Hn. simpl.
      by apply bool_decide_eq_true.
    + rewrite (blank_cell_has_no_id _ (Hblank col Hin Hd) Hn) in Hc. subst id.
      done.
Qed.

Section BackfillRow.

Variable api_locations_df : list CatalogLocationRecord.
Variable df : DataFrame.
Variable i : nat.

Hypothesis labels_distinct : NoDup (columns df).
Hypothesis i_in_range : i < length (rows df).

Let all_cols := List.filter (Py.startswith "Location Cloud ID") (columns df).
Let before := fold_left (backfill_row api_locations_df all_cols) (seq 0 i) df.

Lemma before_preserved : row_preserved i df before.
Proof.
  by destruct (backfill_fold_around api_locations_df all_cols (length (rows df)) i df
                 i_in_range) as (H & _).
Qed.

Lemma before_in_range : i < length (rows before).
Proof. destruct before_preserved as (-> & _). done. Qed.

Lemma before_distinct : NoDup (columns before).
Proof. destruct before_preserved as (_ & _ & _ & H). auto. Qed.

Lemma before_listed (col : string) :
  col ∈ all_cols -> col ∈ columns before /\ Py.startswith "Location Cloud ID" col = true.
Proof.
  intros H. apply list_elem_of_In, filter_In in H as [Hin Hs].
  apply list_elem_of_In in Hin.
  destruct before_preserved as (_ & Hkeep & _). by destruct (Hkeep col Hin).
Qed.

Lemma before_populated (col : string) :
  col ∈ columns before ->
  Py.startswith "Location Cloud ID" col = true ->
  has_value (at_get before i col) = true ->
  col ∈ all_cols.
Proof.
  intros Hin Hs Hv. destruct before_preserved as (_ & Hkeep & Hblank & _).
  destruct (decide (col ∈ columns df)) as [Hd|Hd].
  - apply list_elem_of_In, filter_In. split; [by apply list_elem_of_In|done].
  - rewrite (Hblank col Hin Hd) in Hv. done.
Qed.

Lemma before_max : max_number_for_row before i all_cols = max_number_for_row df i all_cols.
Proof.
  apply max_number_for_row_ext. intros col Hc.
  apply list_elem_of_In, filter_In in Hc as [Hin _]. apply list_elem_of_In in Hin.
  destruct before_preserved as (_ & Hkeep & _). by destruct (Hkeep col Hin).
Qed.

(** The turn of row [i] and the turns after it keep the external ids the
    row has. *)
Lemma turn_keeps_ids (col : string) :
  col ∈ columns df ->
  Py.startswith "Location Cloud ID" col = true ->
  has_value (at_get df i col) = true ->
  at_get (fold_left (backfill_row api_locations_df all_cols)
            (seq 0 (length (rows df))) df) i col
  = at_get df i col.
Proof.
  intros Hin Hs Hv.
  destruct (backfill_fold_around api_locations_df all_cols (length (rows df)) i df
              i_in_range) as (Hb & _ & Ha).
  fold before in Hb, Ha.
  destruct Hb as (_ & Hkeep & _). destruct (Hkeep col Hin) as [Hin1 E1].
  assert (Hstep : col ∈ columns (backfill_row api_locations_df all_cols before i)
                  /\ at_get (backfill_row api_locations_df all_cols before i) i col
                     = at_get before i col).
  { unfold backfill_row.
    destruct (virtual_location_for_row api_locations_df before i) as [v|]; [|done].
    destruct (virtual_already_exists before i _); [done|].
    split.
    - destruct (row_preserved_append (S i) i all_cols before v) as (_ & K & _); [lia|].
      by destruct (K col Hin1).
    - apply append_virtual_location_other_cells; [done|]. intros ->.
      pose proof (cloud_col_not_populated before i all_cols before_in_range
                    before_populated Hin1) as Hb.
      cbv zeta in Hb. congruence. }
  destruct Hstep as [Hin2 E2].
  destruct Ha as (_ & Hkeep' & _). destruct (Hkeep' col Hin2) as [_ E3].
  congruence.
Qed.

Variable virtual_location : CatalogLocationRecord.

Hypothesis row_qualifies :
  virtual_location_for_row api_locations_df df i = Some virtual_location.
Hypothesis sentinel_id_not_blank :
  has_value (Str (clean_id (location_id virtual_location))) = true.
Hypothesis sentinel_is_new :
  virtual_already_exists df i (clean_id (location_id virtual_location)) = false.

Let new_column_number := max_number_for_row df i all_cols + 1.

Lemma turn_appends :
  backfill_row api_locations_df all_cols before i
  = append_virtual_location all_cols before i virtual_location.
Proof.
  unfold backfill_row.
  rewrite (virtual_location_for_row_keeps _ df)
    by apply keeps_classification_fold.
  rewrite row_qualifies.
  rewrite (exists_reflected i df before) by (done || apply before_preserved).
  by rewrite sentinel_is_new.
Qed.

Lemma turn_outcome :
  let df' := fold_left (backfill_row api_locations_df all_cols)
               (seq 0 (length (rows df))) df in
  at_get df' i (numbered "Location Cloud ID" new_column_number)
  = Str (clean_id (location_id virtual_location))
  /\ populated_slots df' i ≡ₚ new_column_number :: populated_slots df i.
Proof.
  intros df'.
  destruct (backfill_fold_around api_locations_df all_cols (length (rows df)) i df
              i_in_range) as (_ & _ & Ha).
  fold before in Ha. fold df' in Ha. rewrite turn_appends in Ha.
  assert (Hnd : NoDup (columns (append_virtual_location all_cols before i virtual_location))).
  { destruct (row_preserved_append (S i) i all_cols before virtual_location) as (_ & _ & _ & H);
      [lia|]. apply H, before_distinct. }
  split.
  - destruct Ha as (_ & Hkeep & _).
    destruct (Hkeep (numbered "Location Cloud ID" new_column_number)) as [_ ->].
    + unfold new_column_number. rewrite <- before_max. apply cloud_col_in_columns.
    + unfold new_column_number. rewrite <- before_max.
      apply append_virtual_location_cloud_cell. apply before_in_range.
  - rewrite (row_preserved_slots i _ df' Hnd Ha).
    rewrite (append_virtual_location_slots before i all_cols virtual_location
               before_in_range before_distinct before_populated
               sentinel_id_not_blank).
    rewrite before_max. fold new_column_number. constructor.
    apply row_preserved_slots; [done|apply before_preserved].
Qed.

End BackfillRow.

Lemma at_get_out_of_range (df : DataFrame) (i : nat) (col : string) :
  length (rows df) <= i -> at_get df i col = NaN.
Proof.
  intros H. unfold at_get. by rewrite (lookup_ge_None_2 (rows df) i).
Qed.

Lemma has_value_in_range (df : DataFrame) (i : nat) (col : string) :
  has_value (at_get df i col) = true -> i < length (rows df).
Proof.
  intros H. destruct (decide (i < length (rows df))); [done|].
  rewrite at_get_out_of_range in H by lia. done.
Qed.

Lemma qualifies_in_range (api_locations_df : list CatalogLocationRecord) (df : DataFrame)
    (i : nat) (v : CatalogLocationRecord) :
  virtual_location_for_row api_locations_df df i = Some v -> i < length (rows df).
Proof.
  intros H. destruct (decide (i < length (rows df))); [done|].
  unfold virtual_location_for_row in H.
  rewrite (at_get_out_of_range df i "Location Type") in H by lia. done.
Qed.

Lemma backfill_leaves_row_witness :
  backfill_skips [texas_office; texas_sentinel "virt_tx"] two_row_texas_sheet 1 = true
  /\ row_preserved 1 two_row_texas_sheet
       (add_virtual_locations_after_matching two_row_texas_sheet
          [texas_office; texas_sentinel "virt_tx"]).
Proof.
  assert (H : backfill_skips [texas_office; texas_sentinel "virt_tx"]
                two_row_texas_sheet 1 = true) by (vm_compute; reflexivity).
  split; [exact H|].
  exact (backfill_leaves_row two_row_texas_sheet
           [texas_office; texas_sentinel "virt_tx"] 1 H).
Defined.

(** X16. On a sheet with distinct labels the backfiller overwrites no
    external id: a Location Cloud ID cell that holds a value holds the
    same value afterwards. *)
Theorem backfill_keeps_ids (df : DataFrame) (api_locations_df : list CatalogLocationRecord)
    (i : nat) (col : string) :
  NoDup (columns df) ->
  col ∈ columns df ->
  Py.startswith "Location Cloud ID" col = true ->
  has_value (at_get df i col) = true ->
  at_get (add_virtual_locations_after_matching df api_locations_df) i col
  = at_get df i col.
Proof.
  intros Hnd Hin Hs Hv.
  destruct (add_virtual_locations_cases df api_locations_df) as [->| ->]; [done|].
  apply turn_keeps_ids; try done. by apply (has_value_in_range df i col).
Qed.

Lemma backfill_keeps_ids_witness :
  at_get (add_virtual_locations_after_matching two_row_texas_sheet
            [texas_office; texas_sentinel "virt_tx"]) 0 "Location Cloud ID 1"
  = at_get two_row_texas_sheet 0 "Location Cloud ID 1".
Proof.
  apply (backfill_keeps_ids two_row_texas_sheet [texas_office; texas_sentinel "virt_tx"]
           0 "Location Cloud ID 1").
  - apply (bool_decide_unpack _). vm_compute. exact I.
  - apply (bool_decide_unpack _). vm_compute. exact I.
  - vm_compute. reflexivity.
  - vm_compute. reflexivity.
Defined.

(** X17. On a sheet with distinct labels, a row that qualifies for a
    sentinel whose id is not blank and not yet in the row has, after the
    backfiller, that id in the slot one above the highest slot it had in
    use, and its slots in use are that one and those before. *)
Theorem backfill_outcome (df : DataFrame) (api_locations_df : list CatalogLocationRecord)
    (i : nat) (virtual_location : CatalogLocationRecord) :
  NoDup (columns df) ->
  backfill_applies df = true ->
  virtual_location_for_row api_locations_df df i = Some virtual_location ->
  has_value (Str (clean_id (location_id virtual_location))) = true ->
  virtual_already_exists df i (clean_id (location_id virtual_location)) = false ->
  let df' := add_virtual_locations_after_matching df api_locations_df in
  let new_column_number :=
    max_number_for_row df i
      (List.filter (Py.startswith "Location Cloud ID") (columns df)) + 1 in
  at_get df' i (numbered "Location Cloud ID" new_column_number)
  = Str (clean_id (location_id virtual_location))
  /\ populated_slots df' i ≡ₚ new_column_number :: populated_slots df i.
Proof.
  intros Hnd Happ Hq Hid Hnew df'. unfold df'.
  rewrite add_virtual_locations_loop by done.
  apply turn_outcome; try done. by apply (qualifies_in_range api_locations_df df i virtual_location).
Qed.

Lemma backfill_outcome_witness :
  let api := [texas_office; texas_sentinel "virt_tx"] in
  let df' := add_virtual_locations_after_matching two_row_texas_sheet api in
  at_get df' 0 "Location Cloud ID 2" = Str "virt_tx"
  /\ populated_slots df' 0 ≡ₚ 2 :: populated_slots two_row_texas_sheet 0.
Proof.
  apply (backfill_outcome two_row_texas_sheet [texas_office; texas_sentinel "virt_tx"]
           0 (texas_sentinel "virt_tx")).
  - apply (bool_decide_unpack _). vm_compute. exact I.
  - vm_compute. reflexivity.
  - vm_compute. reflexivity.
  - vm_compute. reflexivity.
  - vm_compute. reflexivity.
Defined.

Lemma backfill_idempotent_witness :
  let api := [texas_office; texas_sentinel "virt_tx"] in
  ids_stable api
  /\ add_virtual_locations_after_matching
       (add_virtual_locations_after_matching two_row_texas_sheet api) api
     = add_virtual_locations_after_matching two_row_texas_sheet api.
Proof.
  assert (H : ids_stable [texas_office; texas_sentinel "virt_tx"]).
  { intros r Hr _. apply elem_of_cons in Hr as [->|Hr]; [vm_compute; reflexivity|].
    apply list_elem_of_singleton in Hr as ->. vm_compute. reflexivity. }
  split; [exact H|].
  exact (backfill_idempotent two_row_texas_sheet [texas_office; texas_sentinel "virt_tx"] H).
Defined.

(** X19. The lookup the backfiller makes for a row is the lookup
    [find_virtual_location_by_state] makes for the State of the row,
    restricted to rows classified Both or Virtual: the same sentinel, with
    the same cleaned ids. *)
Theorem find_virtual_location_by_state_backfiller
    (api_locations_df : list CatalogLocationRecord) (df : DataFrame) (i : nat) :
  virtual_location_for_row api_locations_df df i ≫= state_match_info
  = if notna (at_get df i "Location Type")
       && bool_decide (Py.strip (str (at_get df i "Location Type")) ∈ ["Both"; "Virtual"]%string)
    then find_virtual_location_by_state (at_get df i "State") api_locations_df
    else None.
Proof.
  unfold virtual_location_for_row, find_virtual_location_by_state, notna.
  destruct (isna (at_get df i "Location Type")); [done|]. cbn [negb andb].
  destruct (bool_decide (_ ∈ _)); [|done]. cbn [negb].
  destruct (_ || _); [done|]. cbv zeta.
  destruct (Py.is_empty _); [done|].
  unfold virtual_locations. rewrite filter_filter_and.
  destruct (List.filter _ api_locations_df) as [|v ?]; [done|].
  destruct (isna (location_id v)) eqn:Hna; [|done].
  simpl. unfold state_match_info, notna. by rewrite Hna.
Qed.

(** ** The dictionaries of the direct mapping *)

(** X20. The dictionaries of the direct mapping hold, for a key, the
    first record of the catalog that is offered under the key; records
    offered later under the same key are ignored, and a key that no record
    is offered under is absent. *)
Theorem location_id_map_first_wins (api_locations_df : list CatalogLocationRecord)
    (key : string) :
  location_id_map api_locations_df !! key
  = entry_of <$>
      head (List.filter (fun row => bool_decide (monolith_key row = Some key))
              api_locations_df).
Proof.
  unfold location_id_map.
  assert (G : forall (m0 : gmap string MapEntry),
    fold_left
      (fun m row =>
         let monolith_id := if notna (monolith_location_id row)
                            then Py.strip (str (monolith_location_id row)) else ""%string in
         if negb (Py.is_empty monolith_id) && notna (location_id row)
            && truthy (location_id row)
         then
           let monolith_id := Py.sub_dot0 monolith_id in
           match m !! monolith_id with
           | Some _ => m
           | None => <[monolith_id := entry_of row]> m
           end
         else m)
      api_locations_df m0 !! key
    = match m0 !! key with
      | Some e => Some e
      | None =>
          entry_of <$>
            head (List.filter (fun row => bool_decide (monolith_key row = Some key))
                    api_locations_df)
      end).
  { induction api_locations_df as [|r l IH]; intros m0.
    - simpl. by destruct (m0 !! key).
    - cbn [fold_left List.filter]. rewrite IH. cbv zeta.
      destruct (negb _ && notna (location_id r) && truthy (location_id r)) eqn:Ec.
      + set (k := Py.sub_dot0 _).
        assert (Hk : monolith_key r = Some k)
          by (unfold monolith_key; cbv zeta; by rewrite Ec).
        rewrite Hk.
        destruct (m0 !! k) as [e0|] eqn:Ek.
        * destruct (decide (k = key)) as [<-|Hne].
          -- by rewrite Ek.
          -- rewrite bool_decide_eq_false_2 by (intros [= H]; apply Hne, H). done.
        * destruct (decide (k = key)) as [<-|Hne].
          -- rewrite lookup_insert_eq, Ek. by rewrite bool_decide_eq_true_2.
          -- rewrite lookup_insert_ne by done.
             rewrite bool_decide_eq_false_2 by (intros [= H]; apply Hne, H). done.
      + assert (Hk : monolith_key r = None)
          by (unfold monolith_key; cbv zeta; by rewrite Ec).
        rewrite Hk. rewrite bool_decide_eq_false_2 by done. done. }
  pose proof (G ∅) as H. rewrite lookup_empty in H. exact H.
Qed.

(** ** The direct mapping over all columns and rows *)

(** The labels that go with the column Location ID [n]. *)
Lemma companion_numbered (label : string) (n : nat) :
  companion label (numbered "Location ID" n) = numbered label n.
Proof.
  unfold companion.
  rewrite bool_decide_eq_false_2
    by (unfold numbered; cbv [String.append]; discriminate).
  assert (E : Py.strip (Py.remove_all "Location ID" (numbered "Location ID" n))
              = Py.str_of_nat n).
  { unfold numbered, Py.remove_all, Py.strip, Py.chars, Py.text.
    cbv [String.append]. simpl.
    rewrite remove_all_go_digits; [|reflexivity|apply str_of_nat_digits].
    rewrite list_ascii_of_string_of_list_ascii.
    pose proof (strip_space_digits _ (str_of_nat_digits n)) as Hstrip.
    unfold Py.chars in Hstrip. rewrite Hstrip.
    apply string_of_list_ascii_of_string. }
  rewrite E.
  assert (Hne : Py.is_empty (Py.str_of_nat n) = false).
  { apply is_empty_false. intros H. apply (str_of_nat_nonempty n). by rewrite H. }
  by rewrite Hne.
Qed.

Lemma ensure_column_behind_at_get (d : DataFrame) (after col c : string) (i : nat) :
  col ≠ c -> at_get (ensure_column_behind d after col) i c = at_get d i c.
Proof.
  intros Hne. unfold ensure_column_behind.
  destruct (has_column d col); [done|]. by apply at_get_insert_column_ne.
Qed.

Lemma ensure_column_behind_rows (d : DataFrame) (after col : string) :
  length (rows (ensure_column_behind d after col)) = length (rows d).
Proof.
  unfold ensure_column_behind. destruct (has_column d col); [done|].
  apply rows_length_insert_column.
Qed.

Lemma map_row_rows (m : gmap string MapEntry) (col : string) (d : DataFrame) (idx : nat) :
  length (rows (map_row m col d idx)) = length (rows d).
Proof.
  unfold map_row. destruct (has_value _); [|done]. by rewrite !rows_length_at_set.
Qed.

Lemma map_row_other_row (m : gmap string MapEntry) (col : string) (d : DataFrame)
    (idx i : nat) (c : string) :
  i ≠ idx -> at_get (map_row m col d idx) i c = at_get d i c.
Proof.
  intros Hne. unfold map_row. destruct (has_value _); [|done].
  by rewrite !at_get_at_set_other_row by done.
Qed.

Lemma map_row_untouched (m : gmap string MapEntry) (n : nat) (d : DataFrame)
    (idx i : nat) (c : string) :
  untouched_by n c ->
  at_get (map_row m (numbered "Location ID" n) d idx) i c = at_get d i c.
Proof.
  intros Hc. unfold map_row. destruct (has_value _); [|done].
  rewrite !companion_numbered.
  rewrite !at_get_at_set_ne; [done| | | |];
    (intros E; eapply Hc; [|by rewrite E]);
    unfold companion_labels; rewrite !elem_of_cons; tauto.
Qed.

Lemma fold_map_row_rows (m : gmap string MapEntry) (col : string) (l : list nat)
    (d : DataFrame) :
  length (rows (fold_left (map_row m col) l d)) = length (rows d).
Proof.
  revert d. induction l as [|x l IH]; intros d; [done|]. simpl.
  by rewrite IH, map_row_rows.
Qed.

Lemma fold_map_row_other_rows (m : gmap string MapEntry) (col : string) (l : list nat)
    (d : DataFrame) (i : nat) (c : string) :
  i ∉ l -> at_get (fold_left (map_row m col) l d) i c = at_get d i c.
Proof.
  revert d. induction l as [|x l IH]; intros d Hi; [done|]. simpl.
  apply not_elem_of_cons in Hi as [Hx Hi]. rewrite IH by done.
  by apply map_row_other_row.
Qed.

Lemma fold_map_row_untouched (m : gmap string MapEntry) (n : nat) (l : list nat)
    (d : DataFrame) (i : nat) (c : string) :
  untouched_by n c ->
  at_get (fold_left (map_row m (numbered "Location ID" n)) l d) i c = at_get d i c.
Proof.
  intros Hc. revert d. induction l as [|x l IH]; intros d; [done|]. simpl.
  rewrite IH. by apply map_row_untouched.
Qed.

Lemma map_column_rows (m : gmap string MapEntry) (d : DataFrame) (col : string) :
  length (rows (map_column m d col)) = length (rows d).
Proof.
  unfold map_column. cbv zeta. by rewrite fold_map_row_rows, !ensure_column_behind_rows.
Qed.

Lemma map_column_untouched (m : gmap string MapEntry) (n : nat) (d : DataFrame)
    (i : nat) (c : string) :
  untouched_by n c ->
  at_get (map_column m d (numbered "Location ID" n)) i c = at_get d i c.
Proof.
  intros Hc. unfold map_column. cbv zeta.
  rewrite fold_map_row_untouched by done.
  rewrite !companion_numbered.
  rewrite !ensure_column_behind_at_get; [done| | | |];
    (intros E; eapply Hc; [|by rewrite E]);
    unfold companion_labels; rewrite !elem_of_cons; tauto.
Qed.

Lemma location_id_untouched (n k : nat) : untouched_by k (numbered "Location ID" n).
Proof.
  intros label Hl. unfold companion_labels in Hl.
  rewrite !elem_of_cons, elem_of_nil in Hl.
  destruct Hl as [->|[->|[->|[->|[]]]]]; label_ne.
Qed.

Lemma other_slot_untouched (label : string) (n k : nat) :
  label ∈ companion_labels -> n ≠ k -> untouched_by k (numbered label n).
Proof.
  intros Hl Hne label' Hl'. unfold companion_labels in Hl, Hl'.
  rewrite !elem_of_cons, elem_of_nil in Hl, Hl'.
  destruct Hl as [->|[->|[->|[->|[]]]]];
    destruct Hl' as [->|[->|[->|[->|[]]]]]; label_ne.
Qed.

Lemma map_row_cells (m : gmap string MapEntry) (n : nat) (d : DataFrame) (i : nat) :
  i < length (rows d) ->
  has_value (at_get d i (numbered "Location ID" n)) = true ->
  let e := m !! clean_id (at_get d i (numbered "Location ID" n)) in
  let d' := map_row m (numbered "Location ID" n) d i in
  at_get d' i (numbered "Location Cloud ID" n) = Str (default "" (e_cloud_id <$> e))
  /\ at_get d' i (numbered "Location Type" n) = Str (default "" (e_location_type <$> e)).
Proof.
  intros Hi Hv e d'. unfold d', map_row. rewrite Hv. rewrite !companion_numbered.
  fold e. split.
  - rewrite !at_get_at_set_ne by label_ne. by rewrite at_get_at_set_eq.
  - rewrite at_get_at_set_eq; [done|]. by rewrite !rows_length_at_set.
Qed.

Lemma map_column_cells (m : gmap string MapEntry) (n : nat) (d : DataFrame) (i : nat) :
  i < length (rows d) ->
  has_value (at_get d i (numbered "Location ID" n)) = true ->
  let e := m !! clean_id (at_get d i (numbered "Location ID" n)) in
  let d' := map_column m d (numbered "Location ID" n) in
  at_get d' i (numbered "Location Cloud ID" n) = Str (default "" (e_cloud_id <$> e))
  /\ at_get d' i (numbered "Location Type" n) = Str (default "" (e_location_type <$> e)).
Proof.
  intros Hi Hv e d'. unfold d', map_column. cbv zeta. rewrite !companion_numbered.
  set (d0 := ensure_column_behind _ _ (numbered "Practice Cloud ID" n)).
  assert (L0 : length (rows d0) = length (rows d))
    by (unfold d0; by rewrite !ensure_column_behind_rows).
  assert (V0 : at_get d0 i (numbered "Location ID" n) = at_get d i (numbered "Location ID" n)).
  { unfold d0. by rewrite !ensure_column_behind_at_get by label_ne. }
  rewrite L0, (seq_split_at (length (rows d)) i Hi), fold_left_app. cbn [fold_left].
  set (d1 := fold_left _ (seq 0 i) d0).
  assert (L1 : length (rows d1) = length (rows d0)) by apply fold_map_row_rows.
  assert (V1 : at_get d1 i (numbered "Location ID" n) = at_get d i (numbered "Location ID" n)).
  { unfold d1. rewrite fold_map_row_other_rows; [done|].
    rewrite list_elem_of_In, in_seq. lia. }
  rewrite !fold_map_row_other_rows by (rewrite list_elem_of_In, in_seq; lia).
  destruct (map_row_cells m n d1 i) as [H1 H2]; [lia|by rewrite V1|].
  cbv zeta in H1, H2. rewrite V1 in H1, H2. done.
Qed.

Lemma fold_map_column_untouched (m : gmap string MapEntry) (ns : list nat) (d : DataFrame)
    (i : nat) (c : string) :
  (forall k, k ∈ ns -> untouched_by k c) ->
  at_get (fold_left (map_column m) (numbered "Location ID" <$> ns) d) i c = at_get d i c.
Proof.
  revert d. induction ns as [|k ns IH]; intros d H; [done|]. simpl.
  rewrite IH by (intros k' Hk'; apply H; by right).
  apply map_column_untouched. apply H. by left.
Qed.

Lemma fold_map_column_rows (m : gmap string MapEntry) (l : list string) (d : DataFrame) :
  length (rows (fold_left (map_column m) l d)) = length (rows d).
Proof.
  revert d. induction l as [|x l IH]; intros d; [done|]. simpl.
  by rewrite IH, map_column_rows.
Qed.

Lemma fold_replace_row_address (m : gmap string MapEntry)
    (api_locations_df : list CatalogLocationRecord) (cols : list string) (l : list nat)
    (d : DataFrame) (i : nat) (c : string) :
  c ∉ address_labels ->
  at_get (fold_left (replace_row_address m api_locations_df cols) l d) i c = at_get d i c.
Proof.
  intros Hc. revert d. induction l as [|x l IH]; intros d; [done|]. simpl.
  rewrite IH. unfold replace_row_address.
  destruct (first_matched_cloud_id m d x cols); [|done].
  destruct (negb _); [|done]. by apply replace_address_at_get.
Qed.

Lemma companion_not_address (label : string) (n : nat) :
  label ∈ companion_labels -> numbered label n ∉ address_labels.
Proof.
  intros Hl. unfold companion_labels in Hl. rewrite !elem_of_cons, elem_of_nil in Hl.
  unfold address_labels. rewrite !not_elem_of_cons.
  destruct Hl as [->|[->|[->|[->|[]]]]]; repeat split; try apply not_elem_of_nil;
    unfold numbered; cbv [String.append]; discriminate.
Qed.

(** X21. The direct mapping as a whole, on columns Location ID [n] with
    distinct numbers: a row with a value in Location ID [n] keeps it, and
    gets in Location Cloud ID [n] and Location Type [n] what the
    dictionaries hold for the cleaned value, and the empty text when they
    hold nothing. *)
Theorem direct_mapping_cells (locations_df : DataFrame)
    (api_locations_df : list CatalogLocationRecord) (ns : list nat) (i n : nat) :
  NoDup ns ->
  n ∈ ns ->
  has_value (at_get locations_df i (numbered "Location ID" n)) = true ->
  let e := location_id_map api_locations_df
             !! clean_id (at_get locations_df i (numbered "Location ID" n)) in
  let df' := case1_block (numbered "Location ID" <$> ns) locations_df api_locations_df in
  at_get df' i (numbered "Location ID" n) = at_get locations_df i (numbered "Location ID" n)
  /\ at_get df' i (numbered "Location Cloud ID" n) = Str (default "" (e_cloud_id <$> e))
  /\ at_get df' i (numbered "Location Type" n) = Str (default "" (e_location_type <$> e)).
Proof.
  intros Hnd Hn Hv e df'. unfold df', case1_block. cbv zeta.
  set (m := location_id_map api_locations_df) in *.
  assert (Hi : i < length (rows locations_df)) by by eapply has_value_in_range.
  assert (Aid : numbered "Location ID" n ∉ address_labels).
  { unfold address_labels. rewrite !not_elem_of_cons.
    repeat split; try apply not_elem_of_nil;
      unfold numbered; cbv [String.append]; discriminate. }
  split; [|split].
  - rewrite fold_replace_row_address by done.
    apply fold_map_column_untouched. intros k _. apply location_id_untouched.
  - rewrite fold_replace_row_address
      by (apply companion_not_address; unfold companion_labels; rewrite !elem_of_cons; tauto).
    apply list_elem_of_split in Hn as (ns1 & ns2 & ->).
    apply NoDup_app in Hnd as (_ & Hd1 & Hd2). apply NoDup_cons in Hd2 as [Hd2 _].
    rewrite fmap_app, fold_left_app. cbn [fmap list_fmap fold_left].
    set (d1 := fold_left (map_column m) (numbered "Location ID" <$> ns1) locations_df).
    rewrite fold_map_column_untouched.
    2:{ intros k Hk. apply other_slot_untouched;
          [unfold companion_labels; rewrite !elem_of_cons; tauto|by intros ->]. }
    assert (V1 : at_get d1 i (numbered "Location ID" n)
                 = at_get locations_df i (numbered "Location ID" n)).
    { unfold d1. apply fold_map_column_untouched. intros k _. apply location_id_untouched. }
    destruct (map_column_cells m n d1 i) as [H1 _].
    + unfold d1. by rewrite fold_map_column_rows.
    + by rewrite V1.
    + cbv zeta in H1. by rewrite V1 in H1.
  - rewrite fold_replace_row_address
      by (apply companion_not_address; unfold companion_labels; rewrite !elem_of_cons; tauto).
    apply list_elem_of_split in Hn as (ns1 & ns2 & ->).
    apply NoDup_app in Hnd as (_ & Hd1 & Hd2). apply NoDup_cons in Hd2 as [Hd2 _].
    rewrite fmap_app, fold_left_app. cbn [fmap list_fmap fold_left].
    set (d1 := fold_left (map_column m) (numbered "Location ID" <$> ns1) locations_df).
    rewrite fold_map_column_untouched.
    2:{ intros k Hk. apply other_slot_untouched;
          [unfold companion_labels; rewrite !elem_of_cons; tauto|by intros ->]. }
    assert (V1 : at_get d1 i (numbered "Location ID" n)
                 = at_get locations_df i (numbered "Location ID" n)).
    { unfold d1. apply fold_map_column_untouched. intros k _. apply location_id_untouched. }
    destruct (map_column_cells m n d1 i) as [_ H2].
    + unfold d1. by rewrite fold_map_column_rows.
    + by rewrite V1.
    + cbv zeta in H2. by rewrite V1 in H2.
Qed.

Lemma direct_mapping_cells_witness :
  let df' := case1_block (numbered "Location ID" <$> [1; 2]) second_id_only_sheet
               [texas_office] in
  at_get df' 0 "Location ID 2" = Str "9002"
  /\ at_get df' 0 "Location Cloud ID 2" = Str "loc_b"
  /\ at_get df' 0 "Location Type 2" = Str "In Person".
Proof.
  apply (direct_mapping_cells second_id_only_sheet [texas_office] [1; 2] 0 2).
  - apply (bool_decide_unpack _). vm_compute. exact I.
  - rewrite !elem_of_cons. tauto.
  - vm_compute. reflexivity.
Defined.

(** ** The order of the columns after the matching *)

Lemma append_new_partial (cols order : list string) (col : string) :
  col ∈ cols -> partial_order cols order -> partial_order cols (append_new order col).
Proof.
  intros Hc [Hnd Hin]. unfold append_new. case_bool_decide as H; [done|].
  split.
  - apply NoDup_app. split; [done|]. split; [|apply NoDup_singleton].
    intros x Hx Hx'. apply list_elem_of_singleton in Hx' as ->. done.
  - intros c Hcin. apply elem_of_app in Hcin as [Hcin|Hcin]; [by apply Hin|].
    by apply list_elem_of_singleton in Hcin as ->.
Qed.

Lemma append_existing_partial (cols order : list string) (col : string) :
  partial_order cols order -> partial_order cols (append_existing cols order col).
Proof.
  intros Hp. unfold append_existing.
  destruct (bool_decide (col ∈ cols)) eqn:Hc; [|done]. apply bool_decide_eq_true in Hc.
  pose proof (append_new_partial cols order col Hc Hp) as H.
  unfold append_new in H. by destruct (bool_decide (col ∈ order)).
Qed.

Lemma order_slot_partial (cols order : list string) (col : string) :
  col ∈ cols -> partial_order cols order -> partial_order cols (order_slot cols order col).
Proof.
  intros Hc Hp. unfold order_slot. cbv zeta.
  do 3 apply append_existing_partial. by apply append_new_partial.
Qed.

Lemma fold_order_slot_partial (cols l order : list string) :
  (forall c, c ∈ l -> c ∈ cols) -> partial_order cols order ->
  partial_order cols (fold_left (order_slot cols) l order).
Proof.
  revert order. induction l as [|c l IH]; intros order Hl Hp; [done|].
  simpl. apply IH; [intros x Hx; apply Hl; by right|].
  apply order_slot_partial; [apply Hl; by left|done].
Qed.

Lemma fold_append_new_partial (cols l order : list string) :
  (forall c, c ∈ l -> c ∈ cols) -> partial_order cols order ->
  partial_order cols (fold_left append_new l order).
Proof.
  revert order. induction l as [|c l IH]; intros order Hl Hp; [done|].
  simpl. apply IH; [intros x Hx; apply Hl; by right|].
  apply append_new_partial; [apply Hl; by left|done].
Qed.

Lemma append_new_grows (order : list string) (col c : string) :
  c ∈ order -> c ∈ append_new order col.
Proof.
  intros H. unfold append_new. case_bool_decide; [done|]. apply elem_of_app. by left.
Qed.

Lemma fold_append_new_grows (l order : list string) (c : string) :
  c ∈ order -> c ∈ fold_left append_new l order.
Proof.
  revert order. induction l as [|x l IH]; intros order H; [done|].
  simpl. by apply IH, append_new_grows.
Qed.

Lemma fold_append_new_all (l order : list string) (c : string) :
  c ∈ l -> c ∈ fold_left append_new l order.
Proof.
  revert order. induction l as [|x l IH]; intros order H; [by apply elem_of_nil in H|].
  simpl. apply elem_of_cons in H as [->|H]; [|by apply IH].
  apply fold_append_new_grows. unfold append_new. case_bool_decide; [done|].
  apply elem_of_app. right. by left.
Qed.

Lemma sorted_by_elem {A} (key : A -> nat) (l : list A) (x : A) :
  x ∈ sorted_by key l <-> x ∈ l.
Proof.
  assert (Hi : forall y l', x ∈ insert_by key y l' <-> x = y \/ x ∈ l').
  { intros y l'. induction l' as [|z l' IH]; simpl.
    - rewrite list_elem_of_singleton, elem_of_nil. tauto.
    - destruct (key y <=? key z); rewrite !elem_of_cons; [tauto|]. rewrite IH. tauto. }
  unfold sorted_by. induction l as [|a l IH]; simpl; [done|].
  rewrite Hi, elem_of_cons, IH. done.
Qed.

Lemma base_columns_partial (cols : list string) :
  partial_order cols (List.filter (fun base_col => bool_decide (base_col ∈ cols)) base_columns).
Proof.
  split.
  - apply filter_NoDup. apply (bool_decide_unpack _). vm_compute. exact I.
  - intros c Hc. apply list_elem_of_In, filter_In in Hc as [_ Hc].
    by apply bool_decide_eq_true in Hc.
Qed.

Lemma column_order_members (cols : list string) :
  NoDup (column_order cols) /\ forall c, c ∈ column_order cols <-> c ∈ cols.
Proof.
  assert (Hp : partial_order cols (column_order cols)).
  { unfold column_order. cbv zeta.
    apply fold_append_new_partial; [done|].
    apply fold_order_slot_partial; [|apply base_columns_partial].
    intros c Hc. apply sorted_by_elem in Hc.
    apply list_elem_of_In, filter_In in Hc as [Hc _]. by apply list_elem_of_In. }
  destruct Hp as [Hnd Hin]. split; [done|].
  intros c. split; [apply Hin|]. intros Hc. by apply fold_append_new_all.
Qed.

Lemma fold_left_prefix {A} (f : list A -> A -> list A) (l : list A) (order : list A) :
  (forall o x, exists t, f o x = o ++ t) ->
  exists t, fold_left f l order = order ++ t.
Proof.
  intros Hf. revert order. induction l as [|x l IH]; intros order.
  - exists []. by rewrite app_nil_r.
  - simpl. destruct (Hf order x) as [t1 ->]. destruct (IH (order ++ t1)) as [t2 ->].
    exists (t1 ++ t2). by rewrite app_assoc.
Qed.

Lemma append_new_prefix (o : list string) (x : string) : exists t, append_new o x = o ++ t.
Proof.
  unfold append_new. case_bool_decide; [exists []; by rewrite app_nil_r|by exists [x]].
Qed.

Lemma append_existing_prefix (cols o : list string) (x : string) :
  exists t, append_existing cols o x = o ++ t.
Proof.
  unfold append_existing. destruct (_ && _); [by exists [x]|exists []; by rewrite app_nil_r].
Qed.

Lemma order_slot_prefix (cols o : list string) (x : string) :
  exists t, order_slot cols o x = o ++ t.
Proof.
  unfold order_slot. cbv zeta.
  set (n := if _ || _ then _ else _).
  destruct (append_new_prefix o x) as [t1 ->].
  destruct (append_existing_prefix cols (o ++ t1) (slot_label "Location Cloud ID" n)) as [t2 ->].
  destruct (append_existing_prefix cols ((o ++ t1) ++ t2) (slot_label "Practice Cloud ID" n))
    as [t3 ->].
  destruct (append_existing_prefix cols (((o ++ t1) ++ t2) ++ t3)
              (slot_label "Location Type" n)) as [t4 ->].
  exists (t1 ++ t2 ++ t3 ++ t4). by rewrite !app_assoc.
Qed.

(** X22. The list the sheet is re-indexed by after the matching has every
    label of the sheet and no other, and none twice, so that with distinct
    labels no column is lost or repeated; and it begins with the base
    columns that the sheet has, in their fixed order. *)
Theorem column_order_complete (cols : list string) :
  NoDup (column_order cols)
  /\ (forall c, c ∈ column_order cols <-> c ∈ cols)
  /\ (NoDup cols -> column_order cols ≡ₚ cols)
  /\ exists rest,
       column_order cols
       = List.filter (fun base_col => bool_decide (base_col ∈ cols)) base_columns ++ rest.
Proof.
  destruct (column_order_members cols) as [Hnd Hall].
  split; [done|]. split; [done|]. split; [intros Hc; by apply NoDup_Permutation|].
  unfold column_order. cbv zeta.
  set (base := List.filter _ base_columns).
  destruct (fold_left_prefix (order_slot cols)
              (sorted_by location_id_sort_key (List.filter is_location_id_col cols))
              base (order_slot_prefix cols)) as [t1 ->].
  destruct (fold_left_prefix append_new cols (base ++ t1) append_new_prefix) as [t2 ->].
  exists (t1 ++ t2). by rewrite app_assoc.
Qed.

Lemma slot_label_not_id (number : string) :
  is_location_id_col (slot_label "Location Cloud ID" number) = false
  /\ is_location_id_col (slot_label "Practice Cloud ID" number) = false
  /\ is_location_id_col (slot_label "Location Type" number) = false.
Proof.
  unfold is_location_id_col, slot_label, Py.startswith.
  destruct (negb (Py.is_empty number)); cbv [String.append]; by simpl.
Qed.

Lemma base_columns_not_id (cols : list string) :
  List.filter is_location_id_col
    (List.filter (fun base_col => bool_decide (base_col ∈ cols)) base_columns) = [].
Proof.
  assert (H : forall l, forallb (fun c => negb (is_location_id_col c)) l = true ->
            List.filter is_location_id_col
              (List.filter (fun base_col => bool_decide (base_col ∈ cols)) l) = []).
  { induction l as [|c l IH]; [done|]. simpl. intros H.
    apply andb_true_iff in H as [Hc H]. apply negb_true_iff in Hc.
    destruct (bool_decide (c ∈ cols)); simpl; [rewrite Hc|]; by apply IH. }
  apply H. vm_compute. reflexivity.
Qed.

Lemma order_slot_shape (cols o : list string) (x : string) :
  x ∉ o ->
  exists t, order_slot cols o x = o ++ x :: t
            /\ forall c, c ∈ t -> is_location_id_col c = false.
Proof.
  intros Hx. unfold order_slot. cbv zeta.
  set (n := if _ || _ then _ else _).
  destruct (slot_label_not_id n) as (N1 & N2 & N3).
  unfold append_new. rewrite bool_decide_eq_false_2 by done.
  assert (Hstep : forall o' t c, is_location_id_col c = false ->
            (forall c', c' ∈ t -> is_location_id_col c' = false) ->
            o' = o ++ x :: t ->
            exists t', append_existing cols o' c = o ++ x :: t'
                       /\ forall c', c' ∈ t' -> is_location_id_col c' = false).
  { intros o' t c Hc Ht ->. unfold append_existing.
    destruct (_ && _).
    - exists (t ++ [c]). split; [by rewrite <- app_assoc|].
      intros c' Hc'. apply elem_of_app in Hc' as [Hc'|Hc']; [by apply Ht|].
      by apply list_elem_of_singleton in Hc' as ->.
    - by exists t. }
  destruct (Hstep (o ++ [x]) [] (slot_label "Location Cloud ID" n) N1) as (t1 & E1 & H1);
    [intros c Hc; by apply elem_of_nil in Hc|done|].
  rewrite E1.
  destruct (Hstep (o ++ x :: t1) t1 (slot_label "Practice Cloud ID" n) N2 H1 eq_refl)
    as (t2 & E2 & H2).
  rewrite E2.
  apply (Hstep (o ++ x :: t2) t2 (slot_label "Location Type" n) N3 H2 eq_refl).
Qed.

Lemma filter_none {A} (p : A -> bool) (l : list A) :
  (forall x, x ∈ l -> p x = false) -> List.filter p l = [].
Proof.
  induction l as [|a l IH]; intros H; [done|]. simpl.
  rewrite (H a) by by left. apply IH. intros x Hx. apply H. by right.
Qed.

Lemma fold_order_slot_ids (cols S o : list string) :
  NoDup S ->
  (forall x, x ∈ S -> is_location_id_col x = true) ->
  (forall x, x ∈ S -> x ∉ o) ->
  List.filter is_location_id_col (fold_left (order_slot cols) S o)
  = List.filter is_location_id_col o ++ S.
Proof.
  revert o. induction S as [|x S IH]; intros o Hnd HP Hnew; [by rewrite app_nil_r|].
  apply NoDup_cons in Hnd as [Hx Hnd]. simpl.
  destruct (order_slot_shape cols o x) as (t & E & Ht); [apply Hnew; by left|].
  rewrite IH; try done.
  - rewrite E, List.filter_app. simpl. rewrite (HP x) by by left.
    rewrite (filter_none _ t Ht). by rewrite <- app_assoc.
  - intros y Hy. apply HP. by right.
  - intros y Hy. rewrite E. intros Hin.
    apply elem_of_app in Hin as [Hin|Hin]; [by apply (Hnew y); [right|]|].
    apply elem_of_cons in Hin as [->|Hin]; [done|].
    assert (Hy' : is_location_id_col y = true) by (apply HP; by right).
    rewrite (Ht y Hin) in Hy'. done.
Qed.

Lemma insert_by_sorted {A} (key : A -> nat) (x : A) (l : list A) :
  sorted_keys key l -> sorted_keys key (insert_by key x l).
Proof.
  induction l as [|y l IH]; intros H; [done|].
  simpl. destruct (key x <=? key y) eqn:E.
  - apply Nat.leb_le in E. simpl. done.
  - apply Nat.leb_gt in E. destruct H as [Hy H]. specialize (IH H).
    destruct l as [|z l]; simpl in *.
    + split; [lia|done].
    + destruct (key x <=? key z) eqn:E'; simpl in *.
      * split; [lia|]. done.
      * split; [done|]. done.
Qed.

Lemma sorted_by_sorted {A} (key : A -> nat) (l : list A) : sorted_keys key (sorted_by key l).
Proof.
  unfold sorted_by. induction l as [|x l IH]; [done|]. simpl. by apply insert_by_sorted.
Qed.

Lemma sorted_by_fixed {A} (key : A -> nat) (l : list A) :
  sorted_keys key l -> sorted_by key l = l.
Proof.
  unfold sorted_by. induction l as [|x l IH]; intros H; [done|].
  destruct H as [Hx H]. simpl. rewrite IH by done.
  destruct l as [|y l]; [done|]. simpl. apply Nat.leb_le in Hx. by rewrite Hx.
Qed.

Lemma sorted_by_Permutation {A} (key : A -> nat) (l : list A) : sorted_by key l ≡ₚ l.
Proof.
  assert (Hi : forall x l', insert_by key x l' ≡ₚ x :: l').
  { intros x l'. induction l' as [|y l' IH]; [done|]. simpl.
    destruct (key x <=? key y); [done|]. rewrite IH. apply perm_swap. }
  unfold sorted_by. induction l as [|x l IH]; [done|]. simpl. by rewrite Hi, IH.
Qed.

Lemma append_existing_ext (cols cols' o : list string) (c : string) :
  (forall x, x ∈ cols' <-> x ∈ cols) ->
  append_existing cols' o c = append_existing cols o c.
Proof.
  intros H. unfold append_existing.
  by rewrite (bool_decide_ext (c ∈ cols') (c ∈ cols)) by apply H.
Qed.

Lemma order_slot_ext (cols cols' o : list string) (x : string) :
  (forall c, c ∈ cols' <-> c ∈ cols) ->
  order_slot cols' o x = order_slot cols o x.
Proof.
  intros H. unfold order_slot. cbv zeta.
  by rewrite !(append_existing_ext cols cols') by done.
Qed.

Lemma fold_order_slot_ext (cols cols' l o : list string) :
  (forall c, c ∈ cols' <-> c ∈ cols) ->
  fold_left (order_slot cols') l o = fold_left (order_slot cols) l o.
Proof.
  intros H. revert o. induction l as [|x l IH]; intros o; [done|].
  simpl. by rewrite IH, (order_slot_ext cols cols').
Qed.

Lemma fold_append_new_present (l o : list string) :
  (forall c, c ∈ l -> c ∈ o) -> fold_left append_new l o = o.
Proof.
  induction l as [|x l IH]; intros H; [done|]. simpl.
  unfold append_new at 2. rewrite bool_decide_eq_true_2 by (apply H; by left).
  apply IH. intros c Hc. apply H. by right.
Qed.

Lemma fold_append_new_absent (l o : list string) :
  NoDup (o ++ l) -> fold_left append_new l o = o ++ l.
Proof.
  revert o. induction l as [|x l IH]; intros o H; [by rewrite app_nil_r|]. simpl.
  assert (Hx : x ∉ o).
  { apply NoDup_app in H as (_ & H & _). intros Hx. apply (H x Hx). by left. }
  unfold append_new at 2. rewrite bool_decide_eq_false_2 by done.
  rewrite IH; [by rewrite <- app_assoc|]. by rewrite <- app_assoc.
Qed.

(** X23. On a sheet with distinct labels the second pass of the
    reordering, which the function runs right after the first with the
    same statements, leaves the order as the first pass made it. *)
Theorem column_order_idempotent (cols : list string) :
  NoDup cols -> column_order (column_order cols) = column_order cols.
Proof.
  intros Hnd.
  destruct (column_order_members cols) as (Hnd' & Hall).
  set (S := sorted_by location_id_sort_key (List.filter is_location_id_col cols)).
  set (base := List.filter (fun base_col => bool_decide (base_col ∈ cols)) base_columns).
  set (mid := fold_left (order_slot cols) S base).
  assert (Eres : column_order cols = fold_left append_new cols mid) by done.
  assert (HS : forall x, x ∈ S <-> x ∈ List.filter is_location_id_col cols)
    by (intros x; apply sorted_by_elem).
  assert (HndS : NoDup S).
  { unfold S. rewrite sorted_by_Permutation. by apply filter_NoDup. }
  assert (HPS : forall x, x ∈ S -> is_location_id_col x = true).
  { intros x Hx. apply HS, list_elem_of_In, filter_In in Hx. tauto. }
  assert (Hmid : List.filter is_location_id_col mid = S).
  { unfold mid. rewrite fold_order_slot_ids; try done.
    - unfold base. by rewrite base_columns_not_id.
    - intros x Hx Hb. apply HPS in Hx.
      assert (Hf : x ∈ List.filter is_location_id_col base).
      { apply list_elem_of_In, filter_In. split; [by apply list_elem_of_In|done]. }
      unfold base in Hf. rewrite base_columns_not_id in Hf. by apply elem_of_nil in Hf. }
  destruct (fold_left_prefix append_new cols mid append_new_prefix) as [rest Erest].
  rewrite <- Eres in Erest.
  assert (Hrest : List.filter is_location_id_col rest = []).
  { apply filter_none. intros x Hx.
    destruct (is_location_id_col x) eqn:HP; [|done]. exfalso.
    assert (Hxc : x ∈ cols) by (apply Hall; rewrite Erest; apply elem_of_app; by right).
    assert (HxS : x ∈ S).
    { apply HS, list_elem_of_In, filter_In. split; [by apply list_elem_of_In|done]. }
    assert (Hxm : x ∈ mid).
    { assert (Hf : x ∈ List.filter is_location_id_col mid) by by rewrite Hmid.
      apply list_elem_of_In, filter_In in Hf as [Hf _]. by apply list_elem_of_In. }
    rewrite Erest in Hnd'. apply NoDup_app in Hnd' as (_ & Hd & _). by apply (Hd x). }
  unfold column_order at 1. cbv zeta.
  assert (E1 : List.filter is_location_id_col (column_order cols) = S).
  { rewrite Erest, List.filter_app, Hmid, Hrest. by rewrite app_nil_r. }
  rewrite E1.
  assert (E2 : sorted_by location_id_sort_key S = S).
  { apply sorted_by_fixed. apply sorted_by_sorted. }
  rewrite E2.
  assert (E3 : List.filter (fun base_col => bool_decide (base_col ∈ column_order cols))
                 base_columns = base).
  { unfold base. apply filter_ext. intros c. apply bool_decide_ext, Hall. }
  rewrite E3.
  rewrite (fold_order_slot_ext cols (column_order cols)) by done.
  fold mid. rewrite Erest at 1. rewrite fold_left_app.
  rewrite (fold_append_new_present mid mid) by done.
  rewrite fold_append_new_absent; [done|]. by rewrite <- Erest.
Qed.

Lemma column_order_idempotent_witness :
  column_order
    (column_order
       ["Location Type 2"; "ZIP"; "Location ID 2"; "Location Cloud ID 2"; "Notes";
        "Location ID 1"; "State"; "Location Cloud ID 1"]%string)
  = column_order
      ["Location Type 2"; "ZIP"; "Location ID 2"; "Location Cloud ID 2"; "Notes";
       "Location ID 1"; "State"; "Location Cloud ID 1"]%string.
Proof.
  apply column_order_idempotent.
  apply (bool_decide_unpack _). vm_compute. exact I.
Defined.

(** ** The classifier of the raw location type *)

Lemma prefix_app (p s : string) :
  String.prefix p s = true <-> exists t, s = (p +:+ t)%string.
Proof.
  revert s. induction p as [|c p IH]; intros s.
  - split; [intros _; exists s; reflexivity|intros _; by destruct s].
  - destruct s as [|c' s]; simpl.
    + split; [done|]. intros [t H]. cbv [String.append] in H. discriminate.
    + destruct (Ascii.ascii_dec c c') as [->|Hne].
      * rewrite IH. split; intros [t H]; exists t.
        -- cbv [String.append]. fold String.append. by rewrite H.
        -- cbv [String.append] in H. fold String.append in H. by injection H.
      * split; [done|]. intros [t H]. cbv [String.append] in H. fold String.append in H.
        injection H as -> _. done.
Qed.

Lemma string_app_assoc (a b c : string) : ((a +:+ b) +:+ c = a +:+ (b +:+ c))%string.
Proof.
  induction a as [|x a IH]; [done|].
  cbv [String.append]. fold String.append. by rewrite IH.
Qed.

(** [a in b]: [b] is [a] with something before and something after. *)
Lemma contains_app (a b : string) :
  contains a b = true <-> exists pre post, b = (pre +:+ (a +:+ post))%string.
Proof.
  induction b as [|c b IH].
  - cbn [contains]. rewrite orb_false_r. split.
    + intros H. apply prefix_app in H as [t H]. by exists ""%string, t.
    + intros (pre & post & H). destruct pre as [|x pre]; [|cbv [String.append] in H; discriminate].
      apply prefix_app. by exists post.
  - cbn [contains]. rewrite orb_true_iff, IH. split.
    + intros [H|(pre & post & H)].
      * apply prefix_app in H as [t H]. by exists ""%string, t.
      * exists (String c pre), post. cbv [String.append]. fold String.append. by rewrite H.
    + intros (pre & post & H). destruct pre as [|x pre].
      * left. apply prefix_app. by exists post.
      * right. cbv [String.append] in H. fold String.append in H.
        injection H as _ H. by exists pre, post.
Qed.

Lemma contains_trans (a b c : string) :
  contains a b = true -> contains b c = true -> contains a c = true.
Proof.
  rewrite !contains_app. intros (p1 & q1 & ->) (p2 & q2 & ->).
  exists (p2 +:+ p1)%string, (q1 +:+ q2)%string.
  by rewrite !string_app_assoc.
Qed.

Section ClassifierProperties.

Variable ratio : string -> string -> Q.

Lemma phrases_have_no_virtual_keyword (input : string) :
  input ∈ in_person_phrases -> any_in virtual_keywords input = false.
Proof.
  unfold in_person_phrases. rewrite !elem_of_cons, elem_of_nil.
  intros [->|[->|[->|[->|[]]]]]; vm_compute; reflexivity.
Qed.

Lemma keyword_is_pattern (input keyword : string) :
  keyword ∈ virtual_keywords -> contains keyword input = true ->
  existsb (virtual_pattern_matches ratio input) virtual_patterns = true.
Proof.
  intros Hk Hc. apply existsb_exists. exists keyword.
  unfold virtual_keywords in Hk. rewrite !elem_of_cons, elem_of_nil in Hk.
  assert (Hn : normalize_string_for_matching (Str keyword) = keyword
               /\ In keyword virtual_patterns).
  { destruct Hk as [->|[->|[->|[->|[->|[]]]]]];
      (split; [vm_compute; reflexivity|unfold virtual_patterns; simpl; tauto]). }
  destruct Hn as [Hn Hin]. split; [done|].
  unfold virtual_pattern_matches. cbv zeta. rewrite Hn, Hc.
  by rewrite orb_true_r.
Qed.

(** X24. A raw location type whose normal form contains one of the
    keywords vv, virtual, telehealth, video, online is classified Virtual,
    also when it names an in-person visit as well: the branch that would
    answer Both for an in-person phrase together with a virtual keyword is
    never reached. *)
Theorem virtual_keyword_wins (location_type_raw_value : cell) :
  any_in virtual_keywords (normalized_input_of location_type_raw_value) = true ->
  determine_location_type ratio location_type_raw_value = "Virtual"%string.
Proof.
  intros Hkw. unfold determine_location_type.
  destruct (isna location_type_raw_value || bool_decide (location_type_raw_value = Str ""))
    eqn:Hblank.
  { exfalso. apply orb_true_iff in Hblank as [H|H].
    - destruct location_type_raw_value; [|done]. vm_compute in Hkw. discriminate.
    - apply bool_decide_eq_true in H. subst. vm_compute in Hkw. discriminate. }
  cbv zeta. fold (normalized_input_of location_type_raw_value).
  set (input := normalized_input_of location_type_raw_value) in *.
  destruct (bool_decide (input ∈ in_person_phrases)) eqn:Hp.
  { apply bool_decide_eq_true, phrases_have_no_virtual_keyword in Hp. congruence. }
  rewrite Hkw. cbn [negb]. rewrite andb_false_r.
  unfold any_in in Hkw. apply existsb_exists in Hkw as (k & Hk & Hc).
  apply list_elem_of_In in Hk.
  by rewrite (keyword_is_pattern input k Hk Hc).
Qed.

Lemma pattern_holds_no_phrase (pattern : string) :
  pattern ∈ virtual_patterns ->
  normalize_string_for_matching (Str pattern) = pattern
  /\ forallb (fun phrase => negb (contains phrase pattern)) in_person_phrases = true.
Proof.
  unfold virtual_patterns. rewrite !elem_of_cons, elem_of_nil.
  intros [->|[->|[->|[->|[->|[->|[->|[]]]]]]]]; split; vm_compute; reflexivity.
Qed.

(** X25. A raw location type that is not missing and not the empty text,
    and whose normal form occurs inside one of the virtual patterns, is
    classified Virtual; this includes every value whose normal form is
    empty, such as a single space. *)
Theorem pattern_fragment_is_virtual (location_type_raw_value : cell) (pattern : string) :
  location_type_raw_value ≠ NaN ->
  location_type_raw_value ≠ Str "" ->
  pattern ∈ virtual_patterns ->
  contains (normalized_input_of location_type_raw_value) pattern = true ->
  determine_location_type ratio location_type_raw_value = "Virtual"%string.
Proof.
  intros Hna Hne Hp Hc. unfold determine_location_type.
  assert (Hblank : isna location_type_raw_value
                   || bool_decide (location_type_raw_value = Str "") = false).
  { apply orb_false_iff. split; [by destruct location_type_raw_value|].
    by apply bool_decide_eq_false. }
  rewrite Hblank. cbv zeta. fold (normalized_input_of location_type_raw_value).
  set (input := normalized_input_of location_type_raw_value) in *.
  destruct (pattern_holds_no_phrase pattern Hp) as [Hn Hphr].
  rewrite forallb_forall in Hphr.
  assert (Hno : forall phrase, phrase ∈ in_person_phrases ->
            contains phrase input = false).
  { intros phrase Hin. destruct (contains phrase input) eqn:E; [|done].
    pose proof (contains_trans _ _ _ E Hc) as Ht.
    apply list_elem_of_In, Hphr in Hin. rewrite Ht in Hin. done. }
  destruct (bool_decide (input ∈ in_person_phrases)) eqn:Hin.
  { exfalso. apply bool_decide_eq_true in Hin.
    pose proof Hin as Hin'. apply list_elem_of_In, Hphr in Hin'.
    rewrite Hc in Hin'. done. }
  rewrite (Hno "in person"%string), (Hno "in office"%string)
    by (unfold in_person_phrases; rewrite !elem_of_cons; tauto).
  cbn [orb andb].
  assert (Hv : existsb (virtual_pattern_matches ratio input) virtual_patterns = true).
  { apply existsb_exists. exists pattern. split; [by apply list_elem_of_In|].
    unfold virtual_pattern_matches. cbv zeta. rewrite Hn, Hc.
    by rewrite !orb_true_r. }
  by rewrite Hv.
Qed.

End ClassifierProperties.

Lemma virtual_keyword_wins_witness :
  determine_location_type difflib.ratio (Str "In Person and Virtual") = "Virtual"%string.
Proof.
  apply (virtual_keyword_wins difflib.ratio (Str "In Person and Virtual")).
  vm_compute. reflexivity.
Defined.

Lemma pattern_fragment_is_virtual_witness :
  determine_location_type difflib.ratio (Str " ") = "Virtual"%string.
Proof.
  apply (pattern_fragment_is_virtual difflib.ratio (Str " ") "vv").
  - discriminate.
  - discriminate.
  - unfold virtual_patterns. by left.
  - vm_compute. reflexivity.
Defined.

(** ** The cleanup of identifiers *)

Lemma strip_chars_fixed (c : ascii) (l : list ascii) (c' : ascii) :
  Py.is_space c = false -> Py.is_space c' = false ->
  (exists m, c :: l = m ++ [c']) ->
  Py.strip_chars (c :: l) = c :: l.
Proof.
  intros Hc Hc' [m E]. unfold Py.strip_chars. cbn [Py.lstrip_chars]. rewrite Hc.
  rewrite E, rev_app_distr. cbn [rev app Py.lstrip_chars]. rewrite Hc'.
  change (c' :: rev m) with (rev [c'] ++ rev m). by rewrite <- rev_app_distr, rev_involutive.
Qed.

Lemma digits_end (l : list ascii) :
  l ≠ [] -> forallb Py.is_digit l = true ->
  exists m c', l = m ++ [c'] /\ Py.is_digit c' = true.
Proof.
  intros Hne Hd. destruct (rev l) as [|c' m] eqn:E.
  - apply (f_equal (@rev _)) in E. rewrite rev_involutive in E. done.
  - apply (f_equal (@rev _)) in E. rewrite rev_involutive in E. cbn [rev] in E.
    exists (rev m), c'. split; [done|].
    rewrite forallb_forall in Hd. apply Hd. rewrite E. apply in_or_app. right. by left.
Qed.

Lemma ends_with_digits (p l : list ascii) (c : ascii) :
  forallb Py.is_digit l = true -> Py.is_digit c = false -> c ∈ p ->
  Py.ends_with p l = false.
Proof.
  intros Hd Hc Hin. unfold Py.ends_with. apply bool_decide_eq_false. intros E.
  assert (Hcl : c ∈ l).
  { rewrite <- E in Hin. apply list_elem_of_In in Hin. apply list_elem_of_In.
    rewrite <- (take_drop (length l - length p) l). apply in_or_app. by right. }
  rewrite forallb_forall in Hd. apply list_elem_of_In, Hd in Hcl. congruence.
Qed.

Lemma sub_dot0_digits (s : string) :
  forallb Py.is_digit (Py.chars s) = true -> Py.sub_dot0 s = s.
Proof.
  intros Hd. unfold Py.sub_dot0. cbv zeta.
  rewrite (ends_with_digits _ _ "."%char Hd) by (reflexivity || (apply list_elem_of_In; simpl; tauto)).
  by rewrite (ends_with_digits _ _ "."%char Hd)
    by (reflexivity || (apply list_elem_of_In; simpl; tauto)).
Qed.

Lemma sub_dot0_suffix (l : list ascii) :
  Py.sub_dot0 (Py.text (l ++ [".";"0"]%char)) = Py.text l.
Proof.
  unfold Py.sub_dot0. cbv zeta. rewrite chars_text.
  assert (E : Py.ends_with (Py.chars ".0") (l ++ [".";"0"]%char) = true).
  { unfold Py.ends_with. apply bool_decide_eq_true.
    rewrite length_app. cbn [length Py.chars list_ascii_of_string].
    replace (length l + 2 - 2) with (length l) by lia.
    by rewrite drop_app_length. }
  rewrite E. rewrite length_app. cbn [length].
  replace (length l + 2 - 2) with (length l) by lia.
  by rewrite take_app_length.
Qed.

(** X26. For a text of decimal digits, the cleanup of an identifier
    (strip, then removal of one ".0" at the end) leaves the text as it is
    and turns the text followed by ".0" into the text itself, so that the
    two compare equal after the cleanup; a second cleanup changes neither
    result. *)
Theorem clean_id_numeric (digits : string) :
  Py.isdigit digits = true ->
  clean_id (Str digits) = digits
  /\ clean_id (Str (digits +:+ ".0")) = digits
  /\ clean_id (Str (clean_id (Str (digits +:+ ".0"))))
     = clean_id (Str (digits +:+ ".0")).
Proof.
  intros Hdigits. unfold Py.isdigit in Hdigits.
  assert (H1 : clean_id (Str digits) = digits).
  { unfold clean_id. cbn [str]. unfold Py.strip.
    destruct (Py.chars digits) as [|c l] eqn:E; [done|].
    destruct (digits_end (c :: l)) as (m & c' & Em & Hc'); [done|done|].
    rewrite (strip_chars_fixed c l c').
    - rewrite <- E, text_chars. apply sub_dot0_digits. by rewrite E.
    - apply is_digit_not_space. by apply andb_true_iff in Hdigits as [Hd _].
    - by apply is_digit_not_space.
    - by exists m. }
  assert (H2 : clean_id (Str (digits +:+ ".0")) = digits).
  { unfold clean_id. cbn [str]. unfold Py.strip. rewrite chars_app.
    change (Py.chars ".0") with [".";"0"]%char.
    destruct (Py.chars digits) as [|c l] eqn:E; [done|].
    cbn [app]. rewrite (strip_chars_fixed c (l ++ [".";"0"]%char) "0"%char).
    - change (c :: l ++ [".";"0"]%char) with ((c :: l) ++ [".";"0"]%char).
      rewrite sub_dot0_suffix, <- E. apply text_chars.
    - apply is_digit_not_space. by apply andb_true_iff in Hdigits as [Hd _].
    - reflexivity.
    - exists (c :: l ++ ["."%char]). cbn [app]. by rewrite <- app_assoc. }
  split; [done|]. split; [done|]. by rewrite H2, H1.
Qed.

(** A run of [clean_id_numeric]: an id with a leading zero. *)
Lemma clean_id_numeric_witness :
  Py.isdigit "0420" = true
  /\ clean_id (Str "0420") = "0420"%string
  /\ clean_id (Str "0420.0") = "0420"%string.
Proof.
  assert (H : Py.isdigit "0420" = true) by reflexivity.
  split; [exact H|].
  destruct (clean_id_numeric "0420" H) as (H1 & H2 & _).
  split; [exact H1|exact H2].
Defined.
